(** * Packet capture analyzer: streaming extractor, classifier, metrics, queue

    A shallow embedding of [phyton_analyzer/packet_capture_fixed.py]
    (classes [StreamingJSONParser] and [EnhancedPacketCapture]) and of the
    classifier of [phyton_analyzer/packet_capture.py] ([PacketCapture]),
    followed by the properties established about them.

    Modelling conventions.
    - Python [int] is [Z]; Python [str] is [string]; list indices and slice
      bounds are [Z] and are converted at the slicing primitives.
    - Python [float] (capture timestamps, wall-clock readings, jitter and
      loss values) is modelled by exact rationals [Q]; rounding is not
      modelled.  All concrete values used below are exactly representable.
    - The wall clock [time.time()] is an explicit argument [now].
    - A method that mutates [self] is a function from the old object to the
      new one; a [try/except] is a match on an explicit [result]. *)

From Stdlib Require Import ZArith QArith Qminmax List String Ascii Bool Lia.
From Stdlib Require Import Sorting.Sorted Sorting.Permutation Lqa.
Import ListNotations.

Local Open Scope Z_scope.

(** ** Python strings: indexing and slicing *)

Module PyStr.

Definition len (s : string) : Z := Z.of_nat (String.length s).

(** [s[a:b]] for [0 <= a] and [0 <= b]. *)
Definition slice (s : string) (a b : Z) : string :=
  String.substring (Z.to_nat a) (Z.to_nat b - Z.to_nat a) s.

(** [s[a:]]; a negative [a] counts from the end, as in Python. *)
Definition slice_from (s : string) (a : Z) : string :=
  let n := String.length s in
  if a <? 0 then
    let k := Z.to_nat (- a) in
    String.substring (n - k) k s
  else
    String.substring (Z.to_nat a) (n - Z.to_nat a) s.

End PyStr.

(** ** StreamingJSONParser *)

Module StreamingJSONParser.

Import PyStr.

Definition quote : ascii := "034"%char.
Definition backslash : ascii := "092"%char.
Definition lbrace : ascii := "{"%char.
Definition rbrace : ascii := "}"%char.

(** The attributes set by [__init__]. *)
Record Parser : Type := mkParser {
  max_buffer_size : Z;
  buffer : string;
  brace_count : Z;
  in_string : bool;
  escape_next : bool
}.

Definition init (max_buffer_size : Z) : Parser :=
  mkParser max_buffer_size EmptyString 0 false false.

(** The default instance: [max_buffer_size = 1024 * 1024]. *)
Definition default : Parser := init (1024 * 1024).

Section Feed.

(** [json.loads]: the decoded value of a record substring, or [None]
    when it raises [JSONDecodeError]. *)
Context {V : Type} (loads : string -> option V).

(** The locals of [feed] together with [self]. *)
Record Scan : Type := mkScan {
  self : Parser;
  i : Z;
  start_pos : Z;
  objects : list V
}.

(** [self.buffer += data], then the size guard of [feed]. *)
Definition append_and_bound (p : Parser) (data : string) : Parser :=
  let buf := (buffer p ++ data)%string in
  if len buf >? max_buffer_size p then
    mkParser (max_buffer_size p)
             (slice_from buf (- max_buffer_size p / 2))
             0 false false
  else
    mkParser (max_buffer_size p) buf
             (brace_count p) (in_string p) (escape_next p).

(** One iteration of the [while] body, for [char = self.buffer[i]]. *)
Definition scan_char (char : ascii) (s : Scan) : Scan :=
  let p := self s in
  let s' :=
    if escape_next p then
      mkScan (mkParser (max_buffer_size p) (buffer p) (brace_count p)
                       (in_string p) false)
             (i s) (start_pos s) (objects s)
    else if Ascii.eqb char backslash then
      mkScan (mkParser (max_buffer_size p) (buffer p) (brace_count p)
                       (in_string p) true)
             (i s) (start_pos s) (objects s)
    else if Ascii.eqb char quote && negb (escape_next p) then
      mkScan (mkParser (max_buffer_size p) (buffer p) (brace_count p)
                       (negb (in_string p)) (escape_next p))
             (i s) (start_pos s) (objects s)
    else if negb (in_string p) then
      if Ascii.eqb char lbrace then
        let start_pos' := if brace_count p =? 0 then i s else start_pos s in
        mkScan (mkParser (max_buffer_size p) (buffer p) (brace_count p + 1)
                         (in_string p) (escape_next p))
               (i s) start_pos' (objects s)
      else if Ascii.eqb char rbrace then
        let bc := brace_count p - 1 in
        if bc =? 0 then
          let json_str := slice (buffer p) (start_pos s) (i s + 1) in
          let objects' :=
            match loads json_str with
            | Some obj => objects s ++ [obj]
            | None => objects s
            end in
          mkScan (mkParser (max_buffer_size p)
                           (slice_from (buffer p) (i s + 1))
                           bc (in_string p) (escape_next p))
                 (-1) (start_pos s) objects'
        else
          mkScan (mkParser (max_buffer_size p) (buffer p) bc
                           (in_string p) (escape_next p))
                 (i s) (start_pos s) (objects s)
      else s
    else s in
  mkScan (self s') (i s' + 1) (start_pos s') (objects s').

(** [while i < len(self.buffer): ...], with an iteration budget. *)
Fixpoint scan_loop (fuel : nat) (s : Scan) : Scan :=
  match fuel with
  | O => s
  | S fuel' =>
      if i s <? len (buffer (self s)) then
        match String.get (Z.to_nat (i s)) (buffer (self s)) with
        | Some char => scan_loop fuel' (scan_char char s)
        | None => s
        end
      else s
  end.

(** [feed]: the new parser state and the returned [objects].  Every
    iteration shortens [len(self.buffer) - i] by one, so the length of
    the buffer is a sufficient budget (see [scan_loop_exits]). *)
Definition feed (p : Parser) (data : string) : Parser * list V :=
  let p0 := append_and_bound p data in
  let s := scan_loop (String.length (buffer p0)) (mkScan p0 0 0 []) in
  (self s, objects s).

(** Successive [feed] calls on one parser: the final state and the list
    returned by each call. *)
Fixpoint feed_all (p : Parser) (chunks : list string)
  : Parser * list (list V) :=
  match chunks with
  | [] => (p, [])
  | c :: cs =>
      let '(p1, out) := feed p c in
      let '(p2, outs) := feed_all p1 cs in
      (p2, out :: outs)
  end.

(** The parser states after each call of a sequence of [feed] calls. *)
Fixpoint feed_states (p : Parser) (chunks : list string) : list Parser :=
  match chunks with
  | [] => []
  | c :: cs => let p1 := fst (feed p c) in p1 :: feed_states p1 cs
  end.

End Feed.

(** The decoder that keeps the record substring itself: [feed] then returns
    the extracted substrings. *)
Definition loads_text (s : string) : option string := Some s.

End StreamingJSONParser.

(** ** Python lists and numbers *)

Module PyList.

(** [l[-1]]; [None] stands for [IndexError] on the empty list. *)
Definition last_item {A : Type} (l : list A) : option A :=
  nth_error l (List.length l - 1).

(** [l[-n:]] for [n > 0]: the last [n] items, or all of [l]. *)
Definition lastn {A : Type} (n : nat) (l : list A) : list A :=
  skipn (List.length l - n) l.

Definition len {A : Type} (l : list A) : Z := Z.of_nat (List.length l).

(** [x in l] for a list of integers. *)
Definition mem (x : Z) (l : list Z) : bool := existsb (Z.eqb x) l.

(** [range(a, a + n)]. *)
Definition range (a : Z) (n : nat) : list Z :=
  map (fun k => a + Z.of_nat k) (seq 0 n).

(** [l[i]] for an index known to be in range. *)
Definition item (l : list Z) (i : Z) : Z := nth (Z.to_nat i) l 0.

(** [l.sort()] on integers.  The order on [Z] is total and equal integers
    are indistinguishable, so the result is the unique ascending
    rearrangement of [l] (see [sort_sorted] and [sort_perm]). *)
Fixpoint insert (x : Z) (l : list Z) : list Z :=
  match l with
  | [] => [x]
  | y :: l' => if x <=? y then x :: l else y :: insert x l'
  end.

Definition sort (l : list Z) : list Z := fold_right insert [] l.

End PyList.

Module PyFloat.

Definition ltb (x y : Q) : bool := negb (Qle_bool y x).
Definition leb (x y : Q) : bool := Qle_bool x y.

(** [min(a, b)]: the second argument only when it is strictly smaller. *)
Definition min (a b : Q) : Q := if ltb b a then b else a.

(** [int(x)] of a float: truncation towards zero. *)
Definition trunc (x : Q) : Z := Z.quot (Qnum x) (Zpos (Qden x)).

End PyFloat.

(** ** Decoded JSON values, exceptions *)

Module Py.

Unset Elimination Schemes.
Inductive value : Type :=
| None_
| Bool (b : bool)
| Int (z : Z)
| Float (q : Q)
| Str (s : string)
| List (l : list value)
| Dict (d : list (string * value)).
Set Elimination Schemes.

Inductive exn : Type :=
| ValueError
| IndexError
| TypeError
| AttributeError
| KeyError
| UnboundLocalError
| Full
| Empty.

Inductive result (A : Type) : Type :=
| Ok (a : A)
| Raise (e : exn).

Arguments Ok {A} a.
Arguments Raise {A} e.

Definition bind {A B : Type} (r : result A) (k : A -> result B) : result B :=
  match r with
  | Ok a => k a
  | Raise e => Raise e
  end.

Notation "x <- c1 ;; c2" := (bind c1 (fun x => c2))
  (at level 61, c1 at next level, right associativity).

Fixpoint lookup (key : string) (d : list (string * value)) : option value :=
  match d with
  | [] => None
  | (k, v) :: d' => if String.eqb key k then Some v else lookup key d'
  end.

(** [bool(v)]. *)
Definition truthy (v : value) : bool :=
  match v with
  | None_ => false
  | Bool b => b
  | Int z => negb (z =? 0)
  | Float q => negb (Qeq_bool q 0)
  | Str s => negb (String.eqb s EmptyString)
  | List l => match l with [] => false | _ => true end
  | Dict d => match d with [] => false | _ => true end
  end.

(** [v.get(key, default)]: only a dict has the method. *)
Definition get (v : value) (key : string) (default : value) : result value :=
  match v with
  | Dict d =>
      match lookup key d with
      | Some x => Ok x
      | None => Ok default
      end
  | _ => Raise AttributeError
  end.

(** [v[0]].  The keys of a decoded JSON object are strings, so indexing a
    dict by [0] raises [KeyError]. *)
Definition index0 (v : value) : result value :=
  match v with
  | List (x :: _) => Ok x
  | List [] => Raise IndexError
  | Str (String c _) => Ok (Str (String c EmptyString))
  | Str EmptyString => Raise IndexError
  | Dict _ => Raise KeyError
  | None_ | Bool _ | Int _ | Float _ => Raise TypeError
  end.

Section Conversions.

(** The numeric-literal grammars of [int(str)] and [float(str)]; [None]
    stands for [ValueError]. *)
Context (int_of_str : string -> option Z) (float_of_str : string -> option Q).

(** [int(v)]. *)
Definition int (v : value) : result Z :=
  match v with
  | Int z => Ok z
  | Bool b => Ok (if b then 1 else 0)
  | Float q => Ok (PyFloat.trunc q)
  | Str s =>
      match int_of_str s with
      | Some z => Ok z
      | None => Raise ValueError
      end
  | None_ | List _ | Dict _ => Raise TypeError
  end.

(** [float(v)]. *)
Definition float (v : value) : result Q :=
  match v with
  | Float q => Ok q
  | Int z => Ok (inject_Z z)
  | Bool b => Ok (if b then 1%Q else 0%Q)
  | Str s =>
      match float_of_str s with
      | Some q => Ok q
      | None => Raise ValueError
      end
  | None_ | List _ | Dict _ => Raise TypeError
  end.

End Conversions.

(** A decimal reader, [-]? digit+, used to run the model on concrete
    packets: on such strings [int] and [float] agree with it. *)
Definition digit (c : ascii) : option Z :=
  let n := Z.of_nat (nat_of_ascii c) in
  if (48 <=? n) && (n <=? 57) then Some (n - 48) else None.

Fixpoint digits (acc : Z) (s : string) : option Z :=
  match s with
  | EmptyString => Some acc
  | String c s' =>
      match digit c with
      | Some d => digits (10 * acc + d) s'
      | None => None
      end
  end.

Definition decimal (s : string) : option Z :=
  match s with
  | EmptyString => None
  | String "-" EmptyString => None
  | String "-" s' => option_map Z.opp (digits 0 s')
  | _ => digits 0 s
  end.

Definition decimal_float (s : string) : option Q :=
  option_map inject_Z (decimal s).

End Py.

(** ** Statistics and the quality metrics *)

Module JitterSample.
Record t : Type := mk { timestamp : Q; jitter : Q; seq_num : Z }.
End JitterSample.

Module BitrateSample.
Record t : Type := mk { timestamp : Q; bytes : Z; real_time : Q }.
End BitrateSample.

(** The dict [self.statistics]. *)
Record Statistics : Type := mkStatistics {
  total_packets : Z;
  video_packets : Z;
  rtp_packets : Z;
  lost_packets : Z;
  jitter_samples : list JitterSample.t;
  delay_samples : list Q;
  bitrate_samples : list BitrateSample.t;
  start_time : option Q;
  errors : Z
}.

(** The value given to [self.statistics] by [__init__]. *)
Definition initial_statistics : Statistics :=
  mkStatistics 0 0 0 0 [] [] [] None 0.

Definition set_total_packets (v : Z) (st : Statistics) : Statistics :=
  mkStatistics v (video_packets st) (rtp_packets st) (lost_packets st)
    (jitter_samples st) (delay_samples st) (bitrate_samples st)
    (start_time st) (errors st).

Definition set_video_packets (v : Z) (st : Statistics) : Statistics :=
  mkStatistics (total_packets st) v (rtp_packets st) (lost_packets st)
    (jitter_samples st) (delay_samples st) (bitrate_samples st)
    (start_time st) (errors st).

Definition set_rtp_packets (v : Z) (st : Statistics) : Statistics :=
  mkStatistics (total_packets st) (video_packets st) v (lost_packets st)
    (jitter_samples st) (delay_samples st) (bitrate_samples st)
    (start_time st) (errors st).

Definition set_lost_packets (v : Z) (st : Statistics) : Statistics :=
  mkStatistics (total_packets st) (video_packets st) (rtp_packets st) v
    (jitter_samples st) (delay_samples st) (bitrate_samples st)
    (start_time st) (errors st).

Definition set_jitter_samples (v : list JitterSample.t) (st : Statistics)
  : Statistics :=
  mkStatistics (total_packets st) (video_packets st) (rtp_packets st)
    (lost_packets st) v (delay_samples st) (bitrate_samples st)
    (start_time st) (errors st).

Definition set_bitrate_samples (v : list BitrateSample.t) (st : Statistics)
  : Statistics :=
  mkStatistics (total_packets st) (video_packets st) (rtp_packets st)
    (lost_packets st) (jitter_samples st) (delay_samples st) v
    (start_time st) (errors st).

Definition set_start_time (v : option Q) (st : Statistics) : Statistics :=
  mkStatistics (total_packets st) (video_packets st) (rtp_packets st)
    (lost_packets st) (jitter_samples st) (delay_samples st)
    (bitrate_samples st) v (errors st).

Definition set_errors (v : Z) (st : Statistics) : Statistics :=
  mkStatistics (total_packets st) (video_packets st) (rtp_packets st)
    (lost_packets st) (jitter_samples st) (delay_samples st)
    (bitrate_samples st) (start_time st) v.

Module Metrics.

Import PyList.

(** [_calculate_jitter].  Nothing in the body can raise, so the
    [except] branch is not reachable; [last_item] cannot fail under the
    [len(...) > 0] test. *)
Definition _calculate_jitter (timestamp : Q) (seq_num : Z) (st : Statistics)
  : Statistics :=
  if len (jitter_samples st) >? 0 then
    match last_item (jitter_samples st) with
    | Some last_sample =>
        let time_diff :=
          ((timestamp - JitterSample.timestamp last_sample) * 1000)%Q in
        if PyFloat.ltb 0 time_diff && PyFloat.ltb time_diff 1000 then
          let jitter_sample := JitterSample.mk timestamp time_diff seq_num in
          let appended := jitter_samples st ++ [jitter_sample] in
          if len appended >? 1000 then
            set_jitter_samples (lastn 500 appended) st
          else
            set_jitter_samples appended st
        else st
    | None => st
    end
  else
    set_jitter_samples
      (jitter_samples st ++ [JitterSample.mk timestamp 0 seq_num]) st.

(** The list comprehension of [_calculate_bitrate]:
    [[s for s in samples if s['real_time'] >= cutoff_time]]. *)
Definition keep_recent (cutoff_time : Q) (samples : list BitrateSample.t)
  : list BitrateSample.t :=
  filter (fun s => PyFloat.leb cutoff_time (BitrateSample.real_time s)) samples.

(** [_calculate_bitrate], with [current_time = time.time()] read as
    [now]. *)
Definition _calculate_bitrate (now : Q) (timestamp : Q) (length : Z)
  (st : Statistics) : Statistics :=
  let current_time := now in
  let bitrate_sample := BitrateSample.mk timestamp length current_time in
  let appended := bitrate_samples st ++ [bitrate_sample] in
  let cutoff_time := (current_time - 30)%Q in
  set_bitrate_samples (keep_recent cutoff_time appended) st.

(** The [diff] of iteration [i] of the loop of
    [_calculate_packet_loss_metric], after the wraparound branch. *)
Definition pair_diff (seq_numbers : list Z) (i : Z) : Z :=
  let diff := item seq_numbers i - item seq_numbers (i - 1) in
  if diff >? 32768 then
    65536 - item seq_numbers (i - 1) + item seq_numbers i
  else diff.

(** [for i in range(1, len(seq_numbers))], returning
    [(gaps, total_expected)]. *)
Definition walk_gaps (seq_numbers : list Z) : Z * Z :=
  fold_left
    (fun (acc : Z * Z) (i : Z) =>
       let '(gaps, total_expected) := acc in
       let diff := pair_diff seq_numbers i in
       let total_expected := total_expected + diff in
       let gaps := if diff >? 1 then gaps + (diff - 1) else gaps in
       (gaps, total_expected))
    (range 1 (List.length seq_numbers - 1))
    (0, 0).

(** [_calculate_packet_loss_metric]: the returned percentage and the
    statistics, whose [lost_packets] the method may overwrite. *)
Definition _calculate_packet_loss_metric (st : Statistics) : Q * Statistics :=
  if len (jitter_samples st) <? 10 then (0%Q, st)
  else
    let seq_numbers :=
      map JitterSample.seq_num (lastn 100 (jitter_samples st)) in
    if len seq_numbers <? 2 then (0%Q, st)
    else
      let seq_numbers := sort seq_numbers in
      let '(gaps, total_expected) := walk_gaps seq_numbers in
      if total_expected >? 0 then
        let packet_loss :=
          ((inject_Z gaps / inject_Z total_expected) * 100)%Q in
        (PyFloat.min packet_loss 100, set_lost_packets gaps st)
      else (0%Q, st).

(** A run of jitter updates, oldest first. *)
Definition jitter_updates (updates : list (Q * Z)) (st : Statistics)
  : Statistics :=
  fold_left (fun st u => _calculate_jitter (fst u) (snd u) st) updates st.

End Metrics.

(** ** The event queue: [queue.Queue(maxsize)] used without blocking *)

Module BoundedQueue.

Import Py.

Record Queue (A : Type) : Type := mkQueue { maxsize : Z; items : list A }.

Arguments mkQueue {A} maxsize items.
Arguments maxsize {A} q.
Arguments items {A} q.

Section Ops.

Context {A : Type}.

Definition create (maxsize : Z) : Queue A := mkQueue maxsize [].

Definition qsize (q : Queue A) : Z := PyList.len (items q).

(** [Queue.full]: [0 < maxsize <= qsize]; a [maxsize <= 0] is unbounded. *)
Definition full (q : Queue A) : bool :=
  (0 <? maxsize q) && (maxsize q <=? qsize q).

Definition put_nowait (x : A) (q : Queue A) : result (Queue A) :=
  if full q then Raise Full else Ok (mkQueue (maxsize q) (items q ++ [x])).

Definition get_nowait (q : Queue A) : result (A * Queue A) :=
  match items q with
  | [] => Raise Empty
  | x :: rest => Ok (x, mkQueue (maxsize q) rest)
  end.

(** The enqueue block of [_process_packet]:
    [try: put_nowait(x)
     except queue.Full:
       try: get_nowait(); put_nowait(x)
       except queue.Empty: pass].
    Returns the queue afterwards and the exception that escapes, if any. *)
Definition put_drop_oldest (x : A) (q : Queue A) : Queue A * option exn :=
  match put_nowait x q with
  | Ok q1 => (q1, None)
  | Raise Full =>
      match get_nowait q with
      | Ok (_, q1) =>
          match put_nowait x q1 with
          | Ok q2 => (q2, None)
          | Raise Empty => (q1, None)
          | Raise e => (q1, Some e)
          end
      | Raise Empty => (q, None)
      | Raise e => (q, Some e)
      end
  | Raise e => (q, Some e)
  end.

(** Enqueue a sequence of events, oldest first, with no dequeue between. *)
Definition put_all (xs : list A) (q : Queue A) : Queue A :=
  fold_left (fun q x => fst (put_drop_oldest x q)) xs q.

End Ops.

End BoundedQueue.

(** ** EnhancedPacketCapture *)

Module EnhancedPacketCapture.

Import Py BoundedQueue Metrics.

(** The dict [packet_data] put on the queue. *)
Record PacketData : Type := mkPacketData {
  frame_number : Z;
  timestamp : Q;
  length : Z;
  src_ip : value;
  dst_ip : value;
  src_port : Z;
  dst_port : Z;
  is_video : bool;
  rtp_info : value
}.

(** The attributes of the object that the analysis path reads or writes;
    [capture_process] and [analysis_thread] record whether the attribute
    is not [None]. *)
Record Capture : Type := mkCapture {
  running : bool;
  capture_process : bool;
  analysis_thread : bool;
  statistics : Statistics;
  packet_queue : Queue PacketData
}.

Definition video_ports : list Z := [554; 8000; 8080; 1935].
Definition rtp_payload_types : list Z := [96; 97; 98; 99; 26].

(** [__init__]. *)
Definition create : Capture :=
  mkCapture false false false initial_statistics (BoundedQueue.create 10000).

Definition set_statistics (st : Statistics) (c : Capture) : Capture :=
  mkCapture (running c) (capture_process c) (analysis_thread c) st
            (packet_queue c).

(** [self.statistics['errors'] += 1]. *)
Definition count_error (st : Statistics) : Statistics :=
  set_errors (errors st + 1) st.

(** [_is_video_packet]; comparisons of integers do not raise, so the
    [except] branch is not reachable. *)
Definition _is_video_packet (src_port dst_port : Z) : bool :=
  PyList.mem src_port video_ports
  || PyList.mem dst_port video_ports
  || ((16384 <=? src_port) && (src_port <=? 32767))
  || ((16384 <=? dst_port) && (dst_port <=? 32767)).

Section Analysis.

Context (int_of_str : string -> option Z) (float_of_str : string -> option Q).

Local Abbreviation int := (Py.int int_of_str).
Local Abbreviation float := (Py.float float_of_str).

(** [d.get(key, default)[0]]. *)
Definition field (d : value) (key : string) (default : value) : result value :=
  x <- get d key default ;; index0 x.

Definition zero_default : value := List [Str "0"].
Definition empty_default : value := List [Str EmptyString].

(** The three conversions at the head of [_analyze_rtp_packet]. *)
Definition rtp_fields (rtp_info : value) : result (Z * Z * Z) :=
  seq_num <- (x <- field rtp_info "rtp.seq" zero_default ;; int x) ;;
  rtp_timestamp <- (x <- field rtp_info "rtp.timestamp" zero_default ;; int x) ;;
  payload_type <- (x <- field rtp_info "rtp.p_type" zero_default ;; int x) ;;
  Ok (seq_num, rtp_timestamp, payload_type).

(** [_analyze_rtp_packet]. *)
Definition _analyze_rtp_packet (now : Q) (rtp_info : value) (timestamp : Q)
  (length : Z) (st : Statistics) : Statistics :=
  match rtp_fields rtp_info with
  | Raise _ => count_error st
  | Ok (seq_num, _, payload_type) =>
      if negb ((0 <=? seq_num) && (seq_num <=? 65535)) then st
      else if negb ((0 <=? payload_type) && (payload_type <=? 127)) then st
      else if PyList.mem payload_type rtp_payload_types then
        _calculate_bitrate now timestamp length
          (_calculate_jitter timestamp seq_num st)
      else st
  end.

(** The first inner [try] of [_process_packet]. *)
Definition frame_fields (frame_info : value) : result (Z * Q * Z) :=
  frame_number <-
    (x <- field frame_info "frame.number" zero_default ;; int x) ;;
  frame_time <-
    (x <- field frame_info "frame.time_relative" zero_default ;; float x) ;;
  frame_len <- (x <- field frame_info "frame.len" zero_default ;; int x) ;;
  Ok (frame_number, frame_time, frame_len).

(** [ip_info.get(key, [''])[0] if ip_info else '']. *)
Definition ip_field (ip_info : value) (key : string) : result value :=
  if truthy ip_info then field ip_info key empty_default
  else Ok (Str EmptyString).

Definition ip_fields (layers : value) : result (value * value) :=
  ip_info <- get layers "ip" (Dict []) ;;
  src_ip <- ip_field ip_info "ip.src" ;;
  dst_ip <- ip_field ip_info "ip.dst" ;;
  Ok (src_ip, dst_ip).

(** [int(udp_info.get(key, ['0'])[0]) if udp_info else 0]. *)
Definition udp_port (udp_info : value) (key : string) : result Z :=
  if truthy udp_info then x <- field udp_info key zero_default ;; int x
  else Ok 0.

(** The second inner [try] of [_process_packet]. *)
Definition udp_ports (udp_info : value) : result (Z * Z) :=
  src_port <- udp_port udp_info "udp.srcport" ;;
  dst_port <- udp_port udp_info "udp.dstport" ;;
  Ok (src_port, dst_port).

(** The exceptions named by the two inner [except] clauses. *)
Definition field_error (e : exn) : bool :=
  match e with
  | ValueError | IndexError | TypeError => true
  | _ => false
  end.

(** [_process_packet] from [# Update statistics] to the end.  The local
    [rtp_info] is bound only inside the video branch, so building
    [packet_data] for a packet that is not video raises
    [UnboundLocalError], which the outer handler counts. *)
Definition count_and_enqueue (now : Q) (layers : value)
  (frame_number : Z) (frame_time : Q) (frame_len : Z)
  (src_ip dst_ip : value) (src_port dst_port : Z) (c : Capture) : Capture :=
  let st := statistics c in
  let st1 := set_total_packets (total_packets st + 1) st in
  if _is_video_packet src_port dst_port then
    let st2 := set_video_packets (video_packets st1 + 1) st1 in
    match get layers "rtp" (Dict []) with
    | Raise _ => set_statistics (count_error st2) c
    | Ok rtp_info =>
        let st3 :=
          if truthy rtp_info then
            _analyze_rtp_packet now rtp_info frame_time frame_len
              (set_rtp_packets (rtp_packets st2 + 1) st2)
          else st2 in
        let packet_data :=
          mkPacketData frame_number frame_time frame_len src_ip dst_ip
            src_port dst_port (_is_video_packet src_port dst_port)
            rtp_info in
        match put_drop_oldest packet_data (packet_queue c) with
        | (q, None) =>
            mkCapture (running c) (capture_process c) (analysis_thread c)
                      st3 q
        | (q, Some _) =>
            mkCapture (running c) (capture_process c) (analysis_thread c)
                      (count_error st3) q
        end
    end
  else set_statistics (count_error st1) c.

(** [_process_packet]. *)
Definition _process_packet (now : Q) (packet : value) (c : Capture)
  : Capture :=
  let failed := set_statistics (count_error (statistics c)) c in
  match (src <- get packet "_source" (Dict []) ;;
         get src "layers" (Dict [])) with
  | Raise _ => failed
  | Ok layers =>
      if negb (truthy layers) then c
      else
        match get layers "frame" (Dict []) with
        | Raise _ => failed
        | Ok frame_info =>
            match frame_fields frame_info with
            | Raise e => if field_error e then c else failed
            | Ok (frame_number, frame_time, frame_len) =>
                if (frame_len <=? 0) || (frame_len >? 65535) then c
                else
                  match ip_fields layers with
                  | Raise _ => failed
                  | Ok (src_ip, dst_ip) =>
                      match get layers "udp" (Dict []) with
                      | Raise _ => failed
                      | Ok udp_info =>
                          match udp_ports udp_info with
                          | Raise e =>
                              if field_error e then
                                count_and_enqueue now layers frame_number
                                  frame_time frame_len src_ip dst_ip 0 0 c
                              else failed
                          | Ok (src_port, dst_port) =>
                              count_and_enqueue now layers frame_number
                                frame_time frame_len src_ip dst_ip
                                src_port dst_port c
                          end
                      end
                  end
            end
        end
  end.

(** The loop [for packet in objects: self._process_packet(packet)] of
    [_analyze_packets]; each packet comes with the wall-clock reading taken
    while it is processed. *)
Definition process_packets (packets : list (Q * value)) (c : Capture)
  : Capture :=
  fold_left (fun c p => _process_packet (fst p) (snd p) c) packets c.

End Analysis.

(** What the environment does to [start_capture]: a dependency check
    fails, one of the calls raises, or the capture process and the
    analysis thread start. *)
Inductive StartOutcome : Type :=
| DependenciesFail
| PopenRaises
| FcntlRaises
| ThreadStartRaises
| Started.

(** [start_capture], with [time.time()] read as [now]. *)
Definition start_capture (env : StartOutcome) (now : Q) (c : Capture)
  : bool * Capture :=
  match env with
  | DependenciesFail => (false, c)
  | PopenRaises => (false, set_statistics (count_error (statistics c)) c)
  | FcntlRaises =>
      (false,
       mkCapture (running c) true (analysis_thread c)
                 (count_error (statistics c)) (packet_queue c))
  | ThreadStartRaises =>
      (false,
       mkCapture true true true
                 (count_error (set_start_time (Some now) (statistics c)))
                 (packet_queue c))
  | Started =>
      (true,
       mkCapture true true true
                 (set_start_time (Some now) (statistics c))
                 (packet_queue c))
  end.

(** [stop_capture]: the flag is cleared and the process and thread
    attributes are set to [None]; [self.statistics] is not assigned. *)
Definition stop_capture (c : Capture) : Capture :=
  mkCapture false false false (statistics c) (packet_queue c).

End EnhancedPacketCapture.

(** ** PacketCapture, the original module *)

Module PacketCapture.

Definition video_ports : list Z := [554; 8000; 8080; 1935].

(** [_is_video_packet] of [packet_capture.py]. *)
Definition _is_video_packet (src_port dst_port : Z) : bool :=
  PyList.mem src_port video_ports
  || PyList.mem dst_port video_ports
  || (src_port >=? 16384)
  || (dst_port >=? 16384).

End PacketCapture.

(** ** Concrete runs used to exercise the model *)

Module Scenarios.

Import PyList Metrics Py BoundedQueue EnhancedPacketCapture.

(** Packets arriving 20 ms apart, from capture time 1.000 s, carrying the
    given sequence numbers in order. *)
Definition steady_arrivals (seq_nums : list Z) : list (Q * Z) :=
  map (fun p => ((1000 + 20 * Z.of_nat (fst p)) # 1000, snd p))
      (combine (seq 0 (List.length seq_nums)) seq_nums).

Definition observed (seq_nums : list Z) : Statistics :=
  jitter_updates (steady_arrivals seq_nums) initial_statistics.

(** Two bitrate updates, read at wall-clock times 0 s and 20 s. *)
Definition two_bitrate_updates : Statistics :=
  _calculate_bitrate 20 2 1000 (_calculate_bitrate 0 1 1000 initial_statistics).

Local Open Scope string_scope.

(** The record [{"a":1}] and its two halves when the stream is cut inside
    the key string. *)
Definition record_a_head : string :=
  "{" ++ String StreamingJSONParser.quote "a".
Definition record_a_tail : string :=
  String StreamingJSONParser.quote ":1}".
Definition record_a : string := record_a_head ++ record_a_tail.

(** A decoded tshark record for a UDP packet with an RTP layer, at capture
    time 1 s. *)
Definition rtp_packet
  (frame_number frame_len src_port dst_port seq p_type : string) : value :=
  Dict [("_source", Dict [("layers", Dict [
    ("frame", Dict [("frame.number", List [Str frame_number]);
                    ("frame.time_relative", List [Str "1"]);
                    ("frame.len", List [Str frame_len])]);
    ("ip", Dict [("ip.src", List [Str "10.0.0.1"]);
                 ("ip.dst", List [Str "10.0.0.2"])]);
    ("udp", Dict [("udp.srcport", List [Str src_port]);
                  ("udp.dstport", List [Str dst_port])]);
    ("rtp", Dict [("rtp.seq", List [Str seq]);
                  ("rtp.timestamp", List [Str "0"]);
                  ("rtp.p_type", List [Str p_type])])])])].

Definition process := _process_packet decimal decimal_float.

(** One RTP packet processed by a fresh capture object. *)
Definition after_one_packet : Capture :=
  process 5 (rtp_packet "1" "100" "554" "20000" "10" "96") create.

(** [n] opening braces: a value that never closes. *)
Fixpoint braces (n : nat) : string :=
  match n with
  | O => EmptyString
  | S n' => String StreamingJSONParser.lbrace (braces n')
  end.

(** A capture object whose event queue has capacity 3. *)
Definition capture_with_queue_of_three : Capture :=
  mkCapture false false false initial_statistics (BoundedQueue.create 3).

(** Four video packets, frame numbers 1 to 4, in arrival order. *)
Definition four_packets : list (Q * value) :=
  [(5%Q, rtp_packet "1" "100" "554" "20000" "10" "96");
   (5%Q, rtp_packet "2" "100" "554" "20000" "11" "96");
   (5%Q, rtp_packet "3" "100" "554" "20000" "12" "96");
   (5%Q, rtp_packet "4" "100" "554" "20000" "13" "96")].

End Scenarios.

(** ** Derived metrics and the metrics snapshot *)

Module Report.

(** The dict returned by [get_metrics].  Its ['performance'] entry, a copy
    of the process readings kept by [_update_performance_stats], is not
    part of this record. *)
Record t : Type := mk {
  total_packets : Z;
  video_packets : Z;
  rtp_packets : Z;
  lost_packets : Z;
  jitter : Q;
  delay : Q;
  latency : Q;
  bitrate : Q;
  packet_loss : Q;
  timestamp : Q;
  errors : Z
}.

End Report.

Module DerivedMetrics.

Import PyList Metrics.

(** [sum(values)]: left to right from 0. *)
Definition sum (values : list Q) : Q := fold_left Qplus values 0%Q.

Definition sum_int (values : list Z) : Z := fold_left Z.add values 0.

(** [_calculate_jitter_metric]. *)
Definition _calculate_jitter_metric (st : Statistics) : Q :=
  if len (jitter_samples st) <? 2 then 0%Q
  else
    let jitter_values :=
      map JitterSample.jitter (lastn 100 (jitter_samples st)) in
    match jitter_values with
    | [] => 0%Q
    | _ => (sum jitter_values / inject_Z (len jitter_values))%Q
    end.

(** [_calculate_delay_metric]. *)
Definition _calculate_delay_metric (st : Statistics) : Q :=
  match jitter_samples st with
  | [] => 0%Q
  | _ =>
      let recent_samples := lastn 10 (jitter_samples st) in
      if len recent_samples >=? 2 then
        match last_item recent_samples, recent_samples with
        | Some newest, oldest :: _ =>
            let time_diff :=
              (JitterSample.timestamp newest
               - JitterSample.timestamp oldest)%Q in
            if PyFloat.ltb 0 time_diff then
              ((time_diff * 1000) / inject_Z (len recent_samples))%Q
            else 0%Q
        | _, _ => 0%Q
        end
      else 0%Q
  end.

(** [_calculate_latency_metric]. *)
Definition _calculate_latency_metric (st : Statistics) : Q :=
  let jitter := _calculate_jitter_metric st in
  let delay := _calculate_delay_metric st in
  ((jitter + delay) / 2)%Q.

(** [_calculate_bitrate_metric], with [time.time()] read as [now]. *)
Definition _calculate_bitrate_metric (now : Q) (st : Statistics) : Q :=
  if len (bitrate_samples st) <? 2 then 0%Q
  else
    let current_time := now in
    let recent_samples :=
      filter (fun s =>
                PyFloat.leb (current_time - BitrateSample.real_time s) 10)
             (bitrate_samples st) in
    if len recent_samples >=? 2 then
      match last_item recent_samples, recent_samples with
      | Some newest, oldest :: _ =>
          let total_bytes := sum_int (map BitrateSample.bytes recent_samples) in
          let time_span :=
            (BitrateSample.real_time newest
             - BitrateSample.real_time oldest)%Q in
          if PyFloat.ltb 0 time_span then
            let bitrate := (inject_Z (total_bytes * 8) / time_span)%Q in
            (bitrate / 1000000)%Q
          else 0%Q
      | _, _ => 0%Q
      end
    else 0%Q.


End DerivedMetrics.

(** ** The capture filter and the tshark command *)

Module CaptureCommand.

Local Open Scope string_scope.

(** [allowed_chars]. *)
Definition allowed_chars : string :=
  "abcdefghijklmnopqrstuvwxyzABCDEFGHIJKLMNOPQRSTUVWXYZ0123456789 .-()[]{}!&|=<>".

(** [c in allowed_chars]. *)
Fixpoint contains (c : ascii) (s : string) : bool :=
  match s with
  | EmptyString => false
  | String c' s' => Ascii.eqb c c' || contains c s'
  end.

(** [''.join(c for c in s if keep(c))]. *)
Fixpoint join_if (keep : ascii -> bool) (s : string) : string :=
  match s with
  | EmptyString => EmptyString
  | String c s' => if keep c then String c (join_if keep s') else join_if keep s'
  end.

(** [_sanitize_capture_filter]; the warning it logs does not change the
    result. *)
Definition _sanitize_capture_filter (filter_str : string) : string :=
  join_if (fun c => contains c allowed_chars) filter_str.

(** [_build_tshark_command]. *)
Definition _build_tshark_command (interface capture_filter : string)
  : list string :=
  let cmd :=
    ["tshark"; "-i"; interface; "-l"; "-T"; "json";
     "-e"; "frame.number"; "-e"; "frame.time_relative"; "-e"; "frame.len";
     "-e"; "ip.src"; "-e"; "ip.dst"; "-e"; "udp.srcport";
     "-e"; "udp.dstport"; "-e"; "rtp.seq"; "-e"; "rtp.timestamp";
     "-e"; "rtp.p_type"; "-e"; "rtp.marker"; "-Y"; "udp";
     "-a"; "duration:3600"; "-b"; "filesize:100000"]%list in
  if negb (String.eqb capture_filter EmptyString) then
    (cmd ++ ["-f"; _sanitize_capture_filter capture_filter])%list
  else cmd.

End CaptureCommand.

(** ** Record texts, for stating what the extractor returns *)

Module JsonText.

Import StreamingJSONParser.

(** The four characters the scanner reacts to. *)
Definition special (c : ascii) : bool :=
  Ascii.eqb c lbrace || Ascii.eqb c rbrace
  || Ascii.eqb c quote || Ascii.eqb c backslash.

(** A character of a string literal: itself, or escaped by a backslash. *)
Inductive strchar : Type :=
| Lit (c : ascii)
| Escaped (c : ascii).

(** The pieces of an object's text between its outer braces: a character
    that is not special, a string literal, the brace that opens a nested
    object and the one that closes it. *)
Inductive token : Type :=
| Plain (c : ascii)
| Quoted (l : list strchar)
| Open
| Close.

Definition strchar_ok (sc : strchar) : bool :=
  match sc with
  | Lit c => negb (Ascii.eqb c quote || Ascii.eqb c backslash)
  | Escaped _ => true
  end.

Definition token_ok (t : token) : bool :=
  match t with
  | Plain c => negb (special c)
  | Quoted l => forallb strchar_ok l
  | Open | Close => true
  end.

Definition strchar_text (sc : strchar) : string :=
  match sc with
  | Lit c => String c EmptyString
  | Escaped c => String backslash (String c EmptyString)
  end.

Fixpoint strchars_text (l : list strchar) : string :=
  match l with
  | [] => EmptyString
  | sc :: l' => (strchar_text sc ++ strchars_text l')%string
  end.

Definition token_text (t : token) : string :=
  match t with
  | Plain c => String c EmptyString
  | Quoted l =>
      String quote (strchars_text l ++ String quote EmptyString)%string
  | Open => String lbrace EmptyString
  | Close => String rbrace EmptyString
  end.

Fixpoint tokens_text (ts : list token) : string :=
  match ts with
  | [] => EmptyString
  | t :: ts' => (token_text t ++ tokens_text ts')%string
  end.

(** Inside [d] nested objects: every closing brace has its opening brace
    and every nested object is closed at the end. *)
Fixpoint balanced (d : nat) (ts : list token) : bool :=
  match ts with
  | [] => Nat.eqb d 0
  | Open :: ts' => balanced (S d) ts'
  | Close :: ts' =>
      match d with
      | O => false
      | S d' => balanced d' ts'
      end
  | _ :: ts' => balanced d ts'
  end.

(** The body of a well-formed record. *)
Definition body_ok (body : list token) : bool :=
  forallb token_ok body && balanced 0 body.

Definition record_text (body : list token) : string :=
  (String lbrace (tokens_text body) ++ String rbrace EmptyString)%string.

(** Text between records: no special character. *)
Fixpoint plain_text (s : string) : bool :=
  match s with
  | EmptyString => true
  | String c s' => negb (special c) && plain_text s'
  end.

(** A chunk made of whole records, each after a separator, and a trailing
    separator. *)
Fixpoint chunk_text (records : list (string * list token)) (tail : string)
  : string :=
  match records with
  | [] => tail
  | (sep, body) :: records' =>
      (sep ++ record_text body ++ chunk_text records' tail)%string
  end.

Definition chunk_ok (records : list (string * list token)) (tail : string)
  : bool :=
  forallb (fun r => plain_text (fst r) && body_ok (snd r)) records
  && plain_text tail.

Section Decoded.

Context {V : Type} (loads : string -> option V).

(** What [feed] appends to [objects] for a record substring. *)
Definition decoded (json_str : string) : list V :=
  match loads json_str with
  | Some obj => [obj]
  | None => []
  end.

Definition decoded_records (records : list (string * list token)) : list V :=
  flat_map (fun r => decoded (record_text (snd r))) records.

(** The scanner takes one iteration per character of [piece], wherever
    [piece] sits in the buffer, going from depth and flags [(d, s, e)] to
    [(d', s', e')] without returning anything and without moving the
    recorded start offset. *)
Definition runs (piece : string) (d : Z) (s e : bool) (d' : Z) (s' e' : bool)
  : Prop :=
  forall (m : Z) (pre rest : string) (sp : Z) (objs : list V) (f : nat),
    scan_loop loads (String.length piece + f)
      (mkScan (mkParser m (pre ++ piece ++ rest) d s e)
              (PyStr.len pre) sp objs)
    = scan_loop loads f
        (mkScan (mkParser m (pre ++ piece ++ rest) d' s' e')
                (PyStr.len pre + PyStr.len piece) sp objs).

End Decoded.

End JsonText.

(** ** Invariants of the samples and of the queue *)

Module Invariants.

Import BoundedQueue EnhancedPacketCapture.

(** Two jitter samples stored one after the other: the second carries the
    time elapsed since the first, in ms, and that time is within
    (0, 1000). *)
Definition spaced (a b : JitterSample.t) : Prop :=
  JitterSample.jitter b
  = ((JitterSample.timestamp b - JitterSample.timestamp a) * 1000)%Q
  /\ (0 < JitterSample.jitter b)%Q
  /\ (JitterSample.jitter b < 1000)%Q.

Definition jitter_ok (samples : list JitterSample.t) : Prop :=
  Sorted spaced samples
  /\ Forall (fun s => (0 <= JitterSample.jitter s)%Q
                      /\ (JitterSample.jitter s < 1000)%Q) samples
  /\ (List.length samples <= 1000)%nat.

Definition bitrate_ok (samples : list BitrateSample.t) : Prop :=
  Forall (fun s => 1 <= BitrateSample.bytes s <= 65535) samples.

(** An event on the queue: a video packet with a valid frame length. *)
Definition event_ok (e : PacketData) : Prop :=
  is_video e = true
  /\ _is_video_packet (src_port e) (dst_port e) = true
  /\ 1 <= length e <= 65535.

Definition queue_ok (q : Queue PacketData) : Prop :=
  0 < maxsize q /\ qsize q <= maxsize q /\ Forall event_ok (items q).

End Invariants.

(** ** The loss walk, step by step *)

Module LossWalk.

Import PyList Metrics.

(** The body of the loop of [_calculate_packet_loss_metric] for the
    adjacent values [prev] and [cur], on the pair [(gaps, total_expected)]. *)
Definition add_gap (acc : Z * Z) (prev cur : Z) : Z * Z :=
  let '(gaps, total_expected) := acc in
  let diff := cur - prev in
  let diff := if diff >? 32768 then 65536 - prev + cur else diff in
  let total_expected := total_expected + diff in
  let gaps := if diff >? 1 then gaps + (diff - 1) else gaps in
  (gaps, total_expected).

(** The walk over the values that follow [prev]. *)
Fixpoint walk_from (prev : Z) (rest : list Z) (acc : Z * Z) : Z * Z :=
  match rest with
  | [] => acc
  | cur :: rest' => walk_from cur rest' (add_gap acc prev cur)
  end.

End LossWalk.

(** ** PacketCapture, the original module: packet processing and metrics *)

Module PacketCaptureV1.

Import Py PyList.

(** An entry of [bitrate_samples]: the original stores no wall-clock
    reading. *)
Module BitrateSample.
Record t : Type := mk { timestamp : Q; bytes : Z }.
End BitrateSample.

(** The dict [self.statistics] of the original class. *)
Record Statistics : Type := mkStatistics {
  total_packets : Z;
  video_packets : Z;
  rtp_packets : Z;
  lost_packets : Z;
  jitter_samples : list JitterSample.t;
  delay_samples : list Q;
  bitrate_samples : list BitrateSample.t;
  start_time : option Q
}.

Definition initial_statistics : Statistics :=
  mkStatistics 0 0 0 0 [] [] [] None.

Definition rtp_payload_types : list Z := [96; 97; 98; 99; 26].

(** The dict [packet_data]; [frame_number] is kept as decoded. *)
Record PacketData : Type := mkPacketData {
  frame_number : value;
  timestamp : Q;
  length : Z;
  src_ip : value;
  dst_ip : value;
  src_port : Z;
  dst_port : Z;
  is_video : bool;
  rtp_info : value
}.

(** The statistics and the unbounded [queue.Queue()] of the object. *)
Record Capture : Type := mkCapture {
  statistics : Statistics;
  packet_queue : list PacketData
}.

Definition create : Capture := mkCapture initial_statistics [].

(** [l.pop(0)] on a list known not to be empty. *)
Definition pop0 {A : Type} (l : list A) : list A := tl l.

(** The jitter part of [_analyze_rtp_packet]. *)
Definition update_jitter (timestamp : Q) (seq_num : Z)
  (samples : list JitterSample.t) : list JitterSample.t :=
  if len samples >? 0 then
    match last_item samples with
    | Some last_sample =>
        let last_time := JitterSample.timestamp last_sample in
        let time_diff := ((timestamp - last_time) * 1000)%Q in
        if PyFloat.ltb 0 time_diff then
          let appended :=
            samples ++ [JitterSample.mk timestamp time_diff seq_num] in
          if len appended >? 100 then pop0 appended else appended
        else samples
    | None => samples
    end
  else samples ++ [JitterSample.mk timestamp 0 seq_num].

(** The bitrate part of [_analyze_rtp_packet]: the sample is appended and
    the list is filtered on [current_time - s['timestamp'] <= 10], the
    capture timestamp being compared with the wall clock. *)
Definition update_bitrate (now : Q) (timestamp : Q) (length : Z)
  (samples : list BitrateSample.t) : list BitrateSample.t :=
  let appended := samples ++ [BitrateSample.mk timestamp length] in
  let current_time := now in
  filter (fun s =>
            PyFloat.leb (current_time - BitrateSample.timestamp s) 10)
         appended.

Section Analysis.

Context (int_of_str : string -> option Z) (float_of_str : string -> option Q).

Local Abbreviation int := (Py.int int_of_str).
Local Abbreviation float := (Py.float float_of_str).

Definition field (d : value) (key : string) (default : value) : result value :=
  x <- get d key default ;; index0 x.

Definition zero_default : value := List [Str "0"].
Definition empty_default : value := List [Str EmptyString].

Definition rtp_fields (rtp_info : value) : result (Z * Z * Z) :=
  seq_num <- (x <- field rtp_info "rtp.seq" zero_default ;; int x) ;;
  rtp_timestamp <- (x <- field rtp_info "rtp.timestamp" zero_default ;; int x) ;;
  payload_type <- (x <- field rtp_info "rtp.p_type" zero_default ;; int x) ;;
  Ok (seq_num, rtp_timestamp, payload_type).

(** [_analyze_rtp_packet]: an exception is logged and leaves the
    statistics as they are. *)
Definition _analyze_rtp_packet (now : Q) (rtp_info : value) (timestamp : Q)
  (length : Z) (st : Statistics) : Statistics :=
  match rtp_fields rtp_info with
  | Raise _ => st
  | Ok (seq_num, _, payload_type) =>
      if mem payload_type rtp_payload_types then
        mkStatistics (total_packets st) (video_packets st) (rtp_packets st)
          (lost_packets st)
          (update_jitter timestamp seq_num (jitter_samples st))
          (delay_samples st)
          (update_bitrate now timestamp length (bitrate_samples st))
          (start_time st)
      else st
  end.

(** Everything [_process_packet] reads from the packet before it touches
    the statistics. *)
Definition packet_fields (packet : value)
  : result (value * value * Q * Z * value * value * Z * Z) :=
  src <- get packet "_source" (Dict []) ;;
  layers <- get src "layers" (Dict []) ;;
  frame_info <- get layers "frame" (Dict []) ;;
  frame_number <- field frame_info "frame.number" zero_default ;;
  frame_time <-
    (x <- field frame_info "frame.time_relative" zero_default ;; float x) ;;
  frame_len <- (x <- field frame_info "frame.len" zero_default ;; int x) ;;
  ip_info <- get layers "ip" (Dict []) ;;
  src_ip <- field ip_info "ip.src" empty_default ;;
  dst_ip <- field ip_info "ip.dst" empty_default ;;
  udp_info <- get layers "udp" (Dict []) ;;
  src_port <- (x <- field udp_info "udp.srcport" zero_default ;; int x) ;;
  dst_port <- (x <- field udp_info "udp.dstport" zero_default ;; int x) ;;
  Ok (layers, frame_number, frame_time, frame_len, src_ip, dst_ip,
      src_port, dst_port).

(** [_process_packet]: every exception is caught and logged, the object
    keeping what was written before it.  As in the enhanced class the
    local [rtp_info] is bound only in the video branch. *)
Definition _process_packet (now : Q) (packet : value) (c : Capture)
  : Capture :=
  match packet_fields packet with
  | Raise _ => c
  | Ok (layers, frame_number, frame_time, frame_len, src_ip, dst_ip,
        src_port, dst_port) =>
      let st := statistics c in
      let st1 :=
        mkStatistics (total_packets st + 1) (video_packets st)
          (rtp_packets st) (lost_packets st) (jitter_samples st)
          (delay_samples st) (bitrate_samples st) (start_time st) in
      if PacketCapture._is_video_packet src_port dst_port then
        let st2 :=
          mkStatistics (total_packets st1) (video_packets st1 + 1)
            (rtp_packets st1) (lost_packets st1) (jitter_samples st1)
            (delay_samples st1) (bitrate_samples st1) (start_time st1) in
        match get layers "rtp" (Dict []) with
        | Raise _ => mkCapture st2 (packet_queue c)
        | Ok rtp_info =>
            let st3 :=
              if truthy rtp_info then
                _analyze_rtp_packet now rtp_info frame_time frame_len
                  (mkStatistics (total_packets st2) (video_packets st2)
                     (rtp_packets st2 + 1) (lost_packets st2)
                     (jitter_samples st2) (delay_samples st2)
                     (bitrate_samples st2) (start_time st2))
              else st2 in
            let packet_data :=
              mkPacketData frame_number frame_time frame_len src_ip dst_ip
                src_port dst_port
                (PacketCapture._is_video_packet src_port dst_port)
                rtp_info in
            mkCapture st3 (packet_queue c ++ [packet_data])
        end
      else mkCapture st1 (packet_queue c)
  end.

Definition process_packets (packets : list (Q * value)) (c : Capture)
  : Capture :=
  fold_left (fun c p => _process_packet (fst p) (snd p) c) packets c.

End Analysis.

(** [_calculate_jitter]. *)
Definition _calculate_jitter (st : Statistics) : Q :=
  if len (jitter_samples st) <? 2 then 0%Q
  else
    let jitter_values := map JitterSample.jitter (jitter_samples st) in
    (DerivedMetrics.sum jitter_values / inject_Z (len jitter_values))%Q.

(** [_calculate_delay]: the time difference is divided without a test of
    its sign. *)
Definition _calculate_delay (st : Statistics) : Q :=
  match jitter_samples st with
  | [] => 0%Q
  | _ =>
      let recent_samples := lastn 10 (jitter_samples st) in
      if len recent_samples >=? 2 then
        match last_item recent_samples, recent_samples with
        | Some newest, oldest :: _ =>
            let time_diff :=
              (JitterSample.timestamp newest
               - JitterSample.timestamp oldest)%Q in
            ((time_diff * 1000) / inject_Z (len recent_samples))%Q
        | _, _ => 0%Q
        end
      else 0%Q
  end.

(** [_calculate_latency]. *)
Definition _calculate_latency (st : Statistics) : Q :=
  let jitter := _calculate_jitter st in
  let delay := _calculate_delay st in
  ((jitter + delay) / 2)%Q.

(** [_calculate_packet_loss]: the percentage and the statistics, whose
    [lost_packets] is overwritten when packets are missing. *)
Definition _calculate_packet_loss (st : Statistics) : Q * Statistics :=
  if len (jitter_samples st) <? 2 then (0%Q, st)
  else
    let seq_numbers := sort (map JitterSample.seq_num (jitter_samples st)) in
    match last_item seq_numbers, seq_numbers with
    | Some highest, lowest :: _ =>
        let expected_packets := highest - lowest + 1 in
        let received_packets := len seq_numbers in
        if expected_packets >? received_packets then
          let lost := expected_packets - received_packets in
          ((inject_Z lost / inject_Z expected_packets * 100)%Q,
           mkStatistics (total_packets st) (video_packets st)
             (rtp_packets st) lost (jitter_samples st) (delay_samples st)
             (bitrate_samples st) (start_time st))
        else (0%Q, st)
    | _, _ => (0%Q, st)
    end.

(** [_calculate_bitrate], with [time.time()] read as [now]. *)
Definition _calculate_bitrate (now : Q) (st : Statistics) : Q :=
  if len (bitrate_samples st) <? 2 then 0%Q
  else
    let current_time := now in
    let recent_samples :=
      filter (fun s =>
                PyFloat.leb (current_time - BitrateSample.timestamp s) 5)
             (bitrate_samples st) in
    if len recent_samples >=? 2 then
      match last_item recent_samples, recent_samples with
      | Some newest, oldest :: _ =>
          let total_bytes :=
            DerivedMetrics.sum_int (map BitrateSample.bytes recent_samples) in
          let time_span :=
            (BitrateSample.timestamp newest
             - BitrateSample.timestamp oldest)%Q in
          if PyFloat.ltb 0 time_span then
            let bitrate := (inject_Z (total_bytes * 8) / time_span)%Q in
            (bitrate / 1000000)%Q
          else 0%Q
      | _, _ => 0%Q
      end
    else 0%Q.

End PacketCaptureV1.

(** * Properties *)

(** ** Strings and slices *)

Section StringFacts.

Import PyStr.

Lemma length_substring_le_src (s : string) :
  forall a n,
    (String.length (String.substring a n s) <= String.length s - a)%nat.
Proof.
  induction s as [|c s IH]; intros a n.
  - destruct a, n; simpl; lia.
  - destruct a as [|a]; destruct n as [|n]; simpl; try lia.
    + specialize (IH 0%nat n). lia.
    + apply IH.
    + apply IH.
Qed.

Lemma length_substring_exact (s : string) :
  forall a n, (a + n <= String.length s)%nat ->
              String.length (String.substring a n s) = n.
Proof.
  induction s as [|c s IH]; intros a n H.
  - simpl in H. assert (a = 0%nat) by lia. assert (n = 0%nat) by lia.
    subst. reflexivity.
  - destruct a as [|a]; destruct n as [|n]; simpl in *; try reflexivity.
    + f_equal. apply IH. lia.
    + apply IH. lia.
    + apply IH. lia.
Qed.

Lemma length_append (s t : string) :
  String.length (s ++ t) = (String.length s + String.length t)%nat.
Proof. induction s as [|c s IH]; simpl; [reflexivity | now rewrite IH]. Qed.

(** A string is the part before an offset followed by the part from it. *)
Lemma substring_split (s : string) :
  forall a n, (a + n = String.length s)%nat ->
              s = (String.substring 0 a s ++ String.substring a n s)%string.
Proof.
  induction s as [|c s IH]; intros a n H.
  - simpl in H. assert (a = 0%nat) by lia. assert (n = 0%nat) by lia.
    subst. reflexivity.
  - destruct a as [|a]; simpl in *.
    + destruct n as [|n]; [discriminate|]. simpl. f_equal.
      specialize (IH 0%nat n). simpl in IH.
      assert (E : String.substring 0 0 s = EmptyString)
        by (destruct s; reflexivity).
      rewrite E in IH. simpl in IH. apply IH. lia.
    + f_equal. apply IH. lia.
Qed.

Lemma get_in_range (s : string) :
  forall n, (n < String.length s)%nat -> exists c, String.get n s = Some c.
Proof.
  induction s as [|c s IH]; intros n H; simpl in H; [lia|].
  destruct n as [|n]; simpl; [now exists c | apply IH; lia].
Qed.

Lemma len_slice_from_le (s : string) (a : Z) :
  len (slice_from s a) <= len s.
Proof.
  unfold slice_from, len. destruct (a <? 0).
  - pose proof (length_substring_le_src s
                  (String.length s - Z.to_nat (- a)) (Z.to_nat (- a))). lia.
  - pose proof (length_substring_le_src s (Z.to_nat a)
                  (String.length s - Z.to_nat a)). lia.
Qed.

Lemma len_slice_from_exact (s : string) (a : Z) :
  0 <= a <= len s -> len (slice_from s a) = len s - a.
Proof.
  unfold slice_from, len. intros H.
  destruct (Z.ltb_spec a 0) as [Hn|_]; [lia|].
  rewrite length_substring_exact; lia.
Qed.

(** [s[-k:]] of a string longer than [k] is its suffix of length [k]. *)
Lemma slice_from_negative (s : string) (k : Z) :
  0 < k <= len s ->
  len (slice_from s (- k)) = k
  /\ exists dropped, s = (dropped ++ slice_from s (- k))%string.
Proof.
  unfold slice_from, len. intros H.
  destruct (Z.ltb_spec (- k) 0) as [_|Hn]; [|lia].
  rewrite Z.opp_involutive. split.
  - rewrite length_substring_exact; lia.
  - exists (String.substring 0 (String.length s - Z.to_nat k) s).
    apply substring_split. lia.
Qed.

End StringFacts.

(** ** The extractor *)

Section ExtractorFacts.

Import PyStr StreamingJSONParser.

Context {V : Type} (loads : string -> option V).

(** An iteration never changes the configured maximum and never makes the
    buffer longer. *)
Lemma scan_char_buffer (c : ascii) (s : Scan) :
  max_buffer_size (self (scan_char loads c s)) = max_buffer_size (self s)
  /\ len (buffer (self (scan_char loads c s))) <= len (buffer (self s)).
Proof.
  unfold scan_char.
  repeat match goal with
         | |- context [if ?b then _ else _] => destruct b
         end; simpl; split; try reflexivity; try lia;
    apply len_slice_from_le.
Qed.

(** An iteration started inside the buffer shortens [len(buffer) - i] by
    exactly one and keeps [i] non-negative. *)
Lemma scan_char_measure (c : ascii) (s : Scan) :
  0 <= i s < len (buffer (self s)) ->
  0 <= i (scan_char loads c s)
  /\ len (buffer (self (scan_char loads c s))) - i (scan_char loads c s)
     = len (buffer (self s)) - i s - 1.
Proof.
  intros H. unfold scan_char.
  repeat match goal with
         | |- context [if ?b then _ else _] => destruct b
         end; simpl; try lia.
  rewrite len_slice_from_exact; lia.
Qed.

Lemma scan_loop_buffer (fuel : nat) :
  forall s,
    max_buffer_size (self (scan_loop loads fuel s)) = max_buffer_size (self s)
    /\ len (buffer (self (scan_loop loads fuel s))) <= len (buffer (self s)).
Proof.
  induction fuel as [|fuel IH]; intros s; simpl; [split; [reflexivity|lia]|].
  destruct (i s <? len (buffer (self s))); [|split; [reflexivity|lia]].
  destruct (String.get (Z.to_nat (i s)) (buffer (self s))) as [c|];
    [|split; [reflexivity|lia]].
  destruct (IH (scan_char loads c s)) as [E L].
  destruct (scan_char_buffer c s) as [E' L']. split; [congruence | lia].
Qed.

(** The budget is sufficient: when [len(buffer) - i] iterations are
    allowed, the loop stops because its condition is false. *)
Lemma scan_loop_exits (fuel : nat) :
  forall s,
    0 <= i s ->
    len (buffer (self s)) - i s <= Z.of_nat fuel ->
    len (buffer (self (scan_loop loads fuel s))) <= i (scan_loop loads fuel s).
Proof.
  induction fuel as [|fuel IH]; intros s Hi Hm; simpl; [lia|].
  destruct (Z.ltb_spec (i s) (len (buffer (self s)))) as [Hlt|Hge]; [|lia].
  destruct (get_in_range (buffer (self s)) (Z.to_nat (i s))) as [c Hc].
  { unfold len in Hlt. lia. }
  rewrite Hc.
  destruct (scan_char_measure c s) as [Hi' Hm']; [lia|].
  apply IH; lia.
Qed.

Lemma feed_scan_complete (p : Parser) (data : string) :
  let p0 := append_and_bound p data in
  let s := scan_loop loads (String.length (buffer p0)) (mkScan p0 0 0 []) in
  len (buffer (self s)) <= i s.
Proof.
  intros p0 s. apply scan_loop_exits; simpl; unfold len; lia.
Qed.

Lemma append_and_bound_max (p : Parser) (data : string) :
  max_buffer_size (append_and_bound p data) = max_buffer_size p.
Proof. unfold append_and_bound. destruct (_ >? _); reflexivity. Qed.

(** Half of the maximum, rounded up, is what [-max_buffer_size//2] keeps. *)
Lemma kept_half (m : Z) : - (- m / 2) = (m + 1) / 2.
Proof. Z.to_euclidean_division_equations. lia. Qed.

Lemma append_and_bound_len (p : Parser) (data : string) :
  1 <= max_buffer_size p ->
  len (buffer (append_and_bound p data)) <= max_buffer_size p.
Proof.
  intros Hm. unfold append_and_bound.
  destruct (Z.gtb_spec (len (buffer p ++ data)) (max_buffer_size p)) as [Hgt|Hle];
    simpl; [|exact Hle].
  destruct (slice_from_negative (buffer p ++ data) ((max_buffer_size p + 1) / 2))
    as [Hl _].
  { split; Z.to_euclidean_division_equations; lia. }
  assert (E : - ((max_buffer_size p + 1) / 2) = - max_buffer_size p / 2)
    by (rewrite <- kept_half; apply Z.opp_involutive).
  rewrite E in Hl. rewrite Hl. Z.to_euclidean_division_equations. lia.
Qed.

Lemma feed_max (p : Parser) (data : string) :
  max_buffer_size (fst (feed loads p data)) = max_buffer_size p.
Proof.
  unfold feed. simpl.
  destruct (scan_loop_buffer (String.length (buffer (append_and_bound p data)))
              (mkScan (append_and_bound p data) 0 0 [])) as [E _].
  simpl in E. rewrite E. apply append_and_bound_max.
Qed.

Lemma feed_len (p : Parser) (data : string) :
  1 <= max_buffer_size p ->
  len (buffer (fst (feed loads p data))) <= max_buffer_size p.
Proof.
  intros Hm. unfold feed. simpl.
  destruct (scan_loop_buffer (String.length (buffer (append_and_bound p data)))
              (mkScan (append_and_bound p data) 0 0 [])) as [_ L].
  simpl in L. pose proof (append_and_bound_len p data Hm). lia.
Qed.

Lemma feed_states_bounded (m : Z) (chunks : list string) :
  1 <= m ->
  forall p, max_buffer_size p = m ->
    Forall (fun q => max_buffer_size q = m /\ len (buffer q) <= m)
           (feed_states loads p chunks).
Proof.
  intros Hm. induction chunks as [|c cs IH]; intros p Hp;
    cbn [feed_states]; constructor.
  - split; [rewrite feed_max; exact Hp|].
    rewrite <- Hp. apply feed_len. lia.
  - apply IH. rewrite feed_max. exact Hp.
Qed.

End ExtractorFacts.

(** *** Scanning a run of opening braces *)

Section UnclosedBraces.

Import PyStr StreamingJSONParser Scenarios.

Context {V : Type} (loads : string -> option V).

Lemma length_braces (n : nat) : String.length (braces n) = n.
Proof. induction n as [|n IH]; simpl; [reflexivity | now rewrite IH]. Qed.

Lemma substring_braces (n : nat) :
  forall a k, (a + k <= n)%nat -> String.substring a k (braces n) = braces k.
Proof.
  induction n as [|n IH]; intros a k H.
  - assert (a = 0%nat) by lia. assert (k = 0%nat) by lia. subst. reflexivity.
  - destruct a as [|a]; destruct k as [|k]; simpl; try reflexivity.
    + f_equal. apply IH. lia.
    + apply (IH a 0%nat). lia.
    + apply IH. lia.
Qed.

Lemma get_braces_app (a : nat) (rest : string) :
  forall j, (j < a)%nat -> String.get j (braces a ++ rest) = Some lbrace.
Proof.
  induction a as [|a IH]; intros j H; [lia|].
  destruct j as [|j]; simpl; [reflexivity | apply IH; lia].
Qed.

Lemma get_after_braces (a : nat) (c : ascii) (rest : string) :
  String.get a (braces a ++ String c rest) = Some c.
Proof. induction a as [|a IH]; simpl; [reflexivity | exact IH]. Qed.

Lemma braces_snoc (a : nat) (rest : string) :
  (braces a ++ String lbrace rest)%string = (braces (S a) ++ rest)%string.
Proof. induction a as [|a IH]; simpl; [reflexivity | now rewrite IH]. Qed.

Lemma append_empty_r (s : string) : (s ++ EmptyString)%string = s.
Proof. induction s as [|c s IH]; simpl; [reflexivity | now rewrite IH]. Qed.

Lemma scan_char_lbrace (m : Z) (buf : string) (b j sp : Z) (objs : list V) :
  scan_char loads lbrace (mkScan (mkParser m buf b false false) j sp objs)
  = mkScan (mkParser m buf (b + 1) false false) (j + 1)
           (if b =? 0 then j else sp) objs.
Proof. reflexivity. Qed.

Lemma scan_char_rbrace (m : Z) (buf : string) (b j sp : Z) (objs : list V) :
  (b - 1 =? 0) = false ->
  scan_char loads rbrace (mkScan (mkParser m buf b false false) j sp objs)
  = mkScan (mkParser m buf (b - 1) false false) (j + 1) sp objs.
Proof. intros H. unfold scan_char. simpl. rewrite H. reflexivity. Qed.

(** Outside a string every opening brace raises the depth by one and
    nothing is returned. *)
Lemma scan_loop_braces (m : Z) (buf : string) (a : nat) :
  (forall j, (j < a)%nat -> String.get j buf = Some lbrace) ->
  (a <= String.length buf)%nat ->
  forall (d j : nat) (b sp : Z) (objs : list V) (f : nat),
    (j + d = a)%nat ->
    exists sp',
      scan_loop loads (d + f)
        (mkScan (mkParser m buf b false false) (Z.of_nat j) sp objs)
      = scan_loop loads f
          (mkScan (mkParser m buf (b + Z.of_nat d) false false)
                  (Z.of_nat a) sp' objs).
Proof.
  intros Hget Hlen. induction d as [|d IH]; intros j b sp objs f Hj.
  - exists sp. simpl. replace j with a by lia. rewrite Z.add_0_r.
    reflexivity.
  - cbn [Nat.add scan_loop self i buffer].
    destruct (Z.ltb_spec (Z.of_nat j) (len buf)) as [_|Hge];
      [|unfold len in Hge; lia].
    rewrite Nat2Z.id, (Hget j) by lia. rewrite scan_char_lbrace.
    destruct (IH (S j) (b + 1) (if b =? 0 then Z.of_nat j else sp) objs f)
      as [sp' E]; [lia|].
    exists sp'. replace (Z.of_nat j + 1) with (Z.of_nat (S j)) by lia.
    rewrite E. do 3 f_equal. lia.
Qed.

(** For every maximum of at least 4 characters, the default 1 MiB
    included: an unclosed run of [max + 1] opening braces overflows the
    buffer, and the well-formed record fed after it is not returned. *)
Lemma unclosed_braces_hide_next_record (m : Z) :
  4 <= m ->
  snd (feed_all loads (init m) [braces (Z.to_nat m + 1); "{}"%string])
  = [[]; []].
Proof.
  intros Hm.
  set (h := Z.to_nat ((m + 1) / 2)).
  assert (Hh : (1 <= h)%nat /\ Z.of_nat h + 2 <= m /\ (h <= Z.to_nat m + 1)%nat).
  { unfold h. repeat split; Z.to_euclidean_division_equations; lia. }
  destruct Hh as [Hh1 [Hh2 Hh3]].
  (* first call: truncation to [h] braces, then the scan *)
  assert (F1 : feed loads (init m) (braces (Z.to_nat m + 1))
               = (mkParser m (braces h) (Z.of_nat h) false false, [])).
  { unfold feed, append_and_bound. cbn [init buffer max_buffer_size append].
    destruct (Z.gtb_spec (len (braces (Z.to_nat m + 1))) m) as [_|Hle];
      [|unfold len in Hle; rewrite length_braces in Hle; lia].
    cbn [buffer].
    assert (E : slice_from (braces (Z.to_nat m + 1)) (- m / 2) = braces h).
    { unfold slice_from. rewrite length_braces.
      destruct (Z.ltb_spec (- m / 2) 0) as [_|Hn];
        [|Z.to_euclidean_division_equations; lia].
      rewrite kept_half. fold h. apply substring_braces. lia. }
    rewrite E, length_braces.
    destruct (scan_loop_braces m (braces h) h) with
      (d := h) (j := 0%nat) (b := 0) (sp := 0) (objs := @nil V) (f := 0%nat)
      as [sp' E'].
    - intros j Hj. rewrite <- (append_empty_r (braces h)).
      apply get_braces_app, Hj.
    - rewrite length_braces. lia.
    - lia.
    - rewrite Nat.add_0_r in E'. change (Z.of_nat 0) with 0 in E'.
      rewrite E'. reflexivity. }
  (* second call: no truncation, the depth left by the first call stays *)
  assert (F2 : snd (feed loads (mkParser m (braces h) (Z.of_nat h) false false)
                      "{}"%string) = []).
  { unfold feed, append_and_bound. cbn [buffer max_buffer_size].
    destruct (Z.gtb_spec (len (braces h ++ "{}")) m) as [Hgt|_].
    { unfold len in Hgt. rewrite length_append, length_braces in Hgt.
      simpl in Hgt. lia. }
    cbn [buffer brace_count in_string escape_next snd].
    rewrite length_append, length_braces.
    change (String.length "{}") with 2%nat.
    replace (h + 2)%nat with (S h + 1)%nat by lia.
    destruct (scan_loop_braces m (braces h ++ "{}") (S h)) with
      (d := S h) (j := 0%nat) (b := Z.of_nat h) (sp := 0) (objs := @nil V)
      (f := 1%nat) as [sp' E'].
    - intros j Hj.
      change (braces h ++ "{}")%string
        with (braces h ++ String lbrace (String rbrace EmptyString))%string.
      rewrite braces_snoc. apply get_braces_app, Hj.
    - rewrite length_append, length_braces. simpl. lia.
    - lia.
    - change (Z.of_nat 0) with 0 in E'. rewrite E'.
      cbn [scan_loop self i buffer].
      destruct (Z.ltb_spec (Z.of_nat (S h)) (len (braces h ++ "{}")))
        as [_|Hge].
      2:{ unfold len in Hge. rewrite length_append, length_braces in Hge.
          simpl in Hge. lia. }
      rewrite Nat2Z.id.
      change (braces h ++ "{}")%string
        with (braces h ++ String lbrace (String rbrace EmptyString))%string.
      rewrite braces_snoc, get_after_braces.
      rewrite scan_char_rbrace; [reflexivity|].
      apply Z.eqb_neq. lia. }
  cbn [feed_all]. rewrite F1.
  destruct (feed loads (mkParser m (braces h) (Z.of_nat h) false false)
              "{}"%string) as [p2 out2] eqn:E2.
  simpl in F2. subst out2. reflexivity.
Qed.

End UnclosedBraces.

Section ExtractorClaims.

Import PyStr StreamingJSONParser Scenarios.

Local Open Scope string_scope.

(** C1: the extractor evaluated where the claim fails.  A record fed in one
    chunk is returned, but the same record cut between two [feed] calls is
    never returned: the second call scans the retained buffer again from
    its first character with the brace depth and string flag left by the
    first call, so the depth does not come back to zero.  With one record
    fed, the calls return no record substring at all, for every decoder. *)
Theorem feed_split_record_is_lost :
  feed loads_text default "{}" = (default, ["{}"])
  /\ feed loads_text default record_a = (default, [record_a])
  /\ (forall (V : Type) (loads : string -> option V),
        feed_all loads default ["{"; "}"]
        = (mkParser (1024 * 1024) "{}" 1 false false, [[]; []]))
  /\ (forall (V : Type) (loads : string -> option V),
        feed_all loads default [record_a_head; record_a_tail]
        = (mkParser (1024 * 1024) record_a 1 true false, [[]; []])).
Proof.
  split; [vm_compute; reflexivity|].
  split; [vm_compute; reflexivity|].
  split; intros V loads; vm_compute; reflexivity.
Qed.

(** C6, counterexample: with a maximum of 4 characters, five unclosed
    braces overflow the buffer, which is cut to its last two characters
    with the scanner state reset; the well-formed record fed next is not
    returned.  And with a maximum of 0 the slice [buffer[-0:]] keeps the
    whole buffer, which is then longer than the maximum after the call. *)
Lemma feed_after_truncation_misses_record :
  feed_all loads_text (init 4) ["{{{{{"; "{}"]
  = (mkParser 4 "{{{}" 4 false false, [[]; []])
  /\ buffer (fst (feed loads_text (init 0) "a")) = "a".
Proof. split; vm_compute; reflexivity. Qed.

(** The same loss with the default maximum of 1 MiB. *)
Lemma unclosed_braces_hide_next_record_default :
  snd (feed_all loads_text default [braces (Z.to_nat (1024 * 1024) + 1); "{}"])
  = [[]; []].
Proof.
  apply (unclosed_braces_hide_next_record loads_text (1024 * 1024)). lia.
Qed.

(** C6, as amended: for a configured maximum of at least one character the
    buffer is within the maximum after every call of any sequence of [feed]
    calls, whatever the state of the parser before the sequence; and when appending a chunk makes the buffer exceed the maximum,
    the scan of that call starts from the last [ceil(max/2)] characters of
    the buffer with depth 0 and both flags cleared. *)
Theorem feed_buffer_bounded (V : Type) (loads : string -> option V) (m : Z) :
  1 <= m ->
  (forall (p : Parser) (chunks : list string),
      max_buffer_size p = m ->
      Forall (fun q => len (buffer q) <= m) (feed_states loads p chunks))
  /\ (forall (p : Parser) (data : string),
        max_buffer_size p = m ->
        len (buffer p ++ data) > m ->
        let p0 := append_and_bound p data in
        len (buffer p0) = (m + 1) / 2
        /\ (exists dropped, buffer p ++ data = dropped ++ buffer p0)
        /\ brace_count p0 = 0 /\ in_string p0 = false
        /\ escape_next p0 = false
        /\ feed loads p data
           = (let s := scan_loop loads (String.length (buffer p0))
                         (mkScan p0 0 0 []) in
              (self s, objects s))).
Proof.
  intros Hm. split.
  - intros p chunks Hp.
    eapply Forall_impl; [|apply (feed_states_bounded loads m chunks Hm p Hp)].
    intros q [_ H]. exact H.
  - intros p data Hp Hgt p0. subst p0. unfold append_and_bound.
    destruct (Z.gtb_spec (len (buffer p ++ data)) (max_buffer_size p))
      as [_|Hle]; [|lia].
    simpl.
    destruct (slice_from_negative (buffer p ++ data) ((m + 1) / 2))
      as [Hl Hs].
    { split; Z.to_euclidean_division_equations; lia. }
    assert (E : - ((m + 1) / 2) = - m / 2)
      by (rewrite <- kept_half; apply Z.opp_involutive).
    rewrite E in Hl, Hs.
    subst m. repeat split; try assumption.
    unfold feed, append_and_bound.
    destruct (Z.gtb_spec (len (buffer p ++ data)) (max_buffer_size p))
      as [_|Hle]; [reflexivity|lia].
Qed.

Lemma feed_buffer_bounded_witness :
  1 <= 4
  /\ Forall (fun q => len (buffer q) <= 4)
            (feed_states loads_text (init 4) ["{{{{{"; "{}"]).
Proof.
  split; [lia|].
  apply (proj1 (feed_buffer_bounded string loads_text 4 ltac:(lia))).
  reflexivity.
Defined.

End ExtractorClaims.

(** ** Lists, sorting, comparisons *)

Section ListFacts.

Import PyList.

Lemma insert_perm (x : Z) (l : list Z) : Permutation (x :: l) (insert x l).
Proof.
  induction l as [|y l IH]; simpl; [apply Permutation_refl|].
  destruct (x <=? y); [apply Permutation_refl|].
  eapply perm_trans; [apply perm_swap | apply perm_skip, IH].
Qed.

Lemma insert_hd (a x : Z) (l : list Z) :
  a <= x -> HdRel Z.le a l -> HdRel Z.le a (insert x l).
Proof.
  intros Hax H. destruct l as [|y l]; simpl; [constructor; exact Hax|].
  destruct (x <=? y); constructor; [exact Hax|].
  inversion H; assumption.
Qed.

Lemma insert_sorted (x : Z) (l : list Z) :
  Sorted Z.le l -> Sorted Z.le (insert x l).
Proof.
  induction l as [|y l IH]; intros H; simpl.
  - repeat constructor.
  - destruct (Z.leb_spec x y) as [Hxy|Hyx].
    + constructor; [exact H | constructor; exact Hxy].
    + inversion H; subst. constructor; [apply IH; assumption|].
      apply insert_hd; [lia | assumption].
Qed.

(** [sort] returns the ascending rearrangement of its argument. *)
Lemma sort_sorted (l : list Z) : Sorted Z.le (sort l).
Proof.
  induction l as [|x l IH]; simpl; [constructor | now apply insert_sorted].
Qed.

Lemma sort_perm (l : list Z) : Permutation l (sort l).
Proof.
  induction l as [|x l IH]; simpl; [constructor|].
  eapply perm_trans; [apply perm_skip, IH | apply insert_perm].
Qed.

Lemma filter_idem {A : Type} (f : A -> bool) (l : list A) :
  filter f (filter f l) = filter f l.
Proof. apply forallb_filter_id, forallb_filter. Qed.

Lemma ltb_lt (x y : Q) : PyFloat.ltb x y = true <-> (x < y)%Q.
Proof.
  unfold PyFloat.ltb. rewrite negb_true_iff. split.
  - intros H. apply Qnot_le_lt. intros Hle.
    apply Qle_bool_iff in Hle. congruence.
  - intros H. destruct (Qle_bool y x) eqn:E; [|reflexivity].
    apply Qle_bool_iff in E. exfalso. apply (Qlt_not_le _ _ H E).
Qed.

Lemma length_lastn {A : Type} (n : nat) (l : list A) :
  (n <= List.length l)%nat -> List.length (lastn n l) = n.
Proof. intros H. unfold lastn. rewrite length_skipn. lia. Qed.

End ListFacts.

(** ** The quality metrics *)

Ltac case_len :=
  match goal with
  | |- context [Z.of_nat (List.length ?l) >? 1000] =>
      destruct (Z.gtb_spec (Z.of_nat (List.length l)) 1000)
  end.

Section MetricsFacts.

Import PyList Metrics.

Lemma keep_recent_bound (cutoff : Q) (l : list BitrateSample.t) :
  Forall (fun s => (cutoff <= BitrateSample.real_time s)%Q)
         (keep_recent cutoff l).
Proof.
  apply Forall_forall. intros s Hs. unfold keep_recent in Hs.
  apply filter_In in Hs. destruct Hs as [_ H].
  apply Qle_bool_iff. exact H.
Qed.

Lemma _calculate_jitter_frame (t : Q) (s : Z) (st : Statistics) :
  _calculate_jitter t s st
  = set_jitter_samples (jitter_samples (_calculate_jitter t s st)) st.
Proof.
  unfold _calculate_jitter.
  repeat match goal with
         | |- context [if ?b then _ else _] => destruct b
         | |- context [match ?o with Some _ => _ | None => _ end] =>
             destruct o
         end; try reflexivity; destruct st; reflexivity.
Qed.

Lemma _calculate_jitter_length (t : Q) (s : Z) (st : Statistics) :
  (List.length (jitter_samples st) <= 1000)%nat ->
  (List.length (jitter_samples (_calculate_jitter t s st)) <= 1000)%nat.
Proof.
  intros H. unfold _calculate_jitter, len.
  destruct (Z.gtb_spec (Z.of_nat (List.length (jitter_samples st))) 0).
  - destruct (last_item (jitter_samples st)); [|exact H].
    destruct (andb _ _); [|exact H].
    match goal with
    | |- context [Z.of_nat (List.length ?l) >? 1000] =>
        destruct (Z.gtb_spec (Z.of_nat (List.length l)) 1000)
    end; simpl.
    + rewrite length_lastn; lia.
    + lia.
  - simpl. rewrite length_app. simpl. lia.
Qed.

Lemma _calculate_jitter_next (t : Q) (s : Z) (st : Statistics)
  (last : JitterSample.t) :
  last_item (jitter_samples st) = Some last ->
  _calculate_jitter t s st
  = (let time_diff := ((t - JitterSample.timestamp last) * 1000)%Q in
     if PyFloat.ltb 0 time_diff && PyFloat.ltb time_diff 1000 then
       let appended :=
         jitter_samples st ++ [JitterSample.mk t time_diff s] in
       if len appended >? 1000 then set_jitter_samples (lastn 500 appended) st
       else set_jitter_samples appended st
     else st).
Proof.
  intros H. unfold _calculate_jitter.
  assert (Hpos : (len (jitter_samples st) >? 0) = true).
  { destruct (jitter_samples st) as [|x l]; [discriminate H|].
    apply Z.gtb_lt. unfold len. simpl. lia. }
  rewrite Hpos, H. reflexivity.
Qed.

Lemma jitter_updates_length (updates : list (Q * Z)) :
  forall st,
    (List.length (jitter_samples st) <= 1000)%nat ->
    (List.length (jitter_samples (jitter_updates updates st)) <= 1000)%nat.
Proof.
  induction updates as [|u us IH]; intros st H; simpl; [exact H|].
  apply IH, _calculate_jitter_length, H.
Qed.

End MetricsFacts.

Section MetricsTheorems.

Import PyList Metrics Scenarios.

(** C2, counterexample: after the update made at wall-clock time 20 s the
    sample inserted at time 0 s is still retained, with an age of 20 s. *)
Lemma bitrate_sample_older_than_10s :
  exists s,
    In s (bitrate_samples two_bitrate_updates)
    /\ (10 < 20 - BitrateSample.real_time s)%Q.
Proof.
  exists (BitrateSample.mk 1 1000 0). split.
  - vm_compute. left. reflexivity.
  - vm_compute. reflexivity.
Qed.

(** C2, as amended: after every bitrate update made at wall-clock time
    [now], every retained sample has wall-clock age at most 30 seconds
    (the retention window of [_calculate_bitrate]), the sample just
    inserted is retained, and applying the age-based eviction a second
    time removes nothing. *)
Theorem bitrate_samples_within_30s (now t : Q) (L : Z) (st : Statistics) :
  let st' := _calculate_bitrate now t L st in
  Forall (fun s => (now - BitrateSample.real_time s <= 30)%Q)
         (bitrate_samples st')
  /\ In (BitrateSample.mk t L now) (bitrate_samples st')
  /\ keep_recent (now - 30) (bitrate_samples st') = bitrate_samples st'.
Proof.
  cbv zeta. unfold _calculate_bitrate. simpl. repeat split.
  - eapply Forall_impl; [|apply keep_recent_bound].
    intros s H. simpl in H. lra.
  - unfold keep_recent. apply filter_In. split.
    + apply in_or_app. right. left. reflexivity.
    + simpl. apply Qle_bool_iff. lra.
  - apply filter_idem.
Qed.

(** C5: a jitter update appends [{t, 0, s}] when no sample exists;
    otherwise, with [delta_ms = (t - last.timestamp) * 1000], it appends
    [{t, delta_ms, s}] exactly when [0 < delta_ms < 1000] and leaves the
    list as it is otherwise; a list that exceeds 1000 entries after the
    append is cut to its last 500.  No other statistic changes, and from
    the creation state the list never holds more than 1000 samples. *)
Theorem jitter_update_cases (t : Q) (s : Z) (st : Statistics) :
  let st' := _calculate_jitter t s st in
  (jitter_samples st = [] ->
   jitter_samples st' = [JitterSample.mk t 0 s])
  /\ (forall last : JitterSample.t,
        last_item (jitter_samples st) = Some last ->
        let delta_ms := ((t - JitterSample.timestamp last) * 1000)%Q in
        let appended := jitter_samples st ++ [JitterSample.mk t delta_ms s] in
        ((0 < delta_ms)%Q /\ (delta_ms < 1000)%Q ->
         ((List.length appended <= 1000)%nat -> jitter_samples st' = appended)
         /\ ((List.length appended > 1000)%nat ->
             jitter_samples st' = lastn 500 appended
             /\ List.length (jitter_samples st') = 500%nat))
        /\ (~ ((0 < delta_ms)%Q /\ (delta_ms < 1000)%Q) ->
            jitter_samples st' = jitter_samples st))
  /\ st' = set_jitter_samples (jitter_samples st') st
  /\ (forall updates : list (Q * Z),
        (List.length
           (jitter_samples (jitter_updates updates initial_statistics))
         <= 1000)%nat).
Proof.
  cbv zeta. split; [|split; [|split]].
  - intros E. unfold _calculate_jitter. rewrite E. reflexivity.
  - intros last Hlast. rewrite (_calculate_jitter_next t s st last Hlast).
    cbv zeta. split.
    + intros [H1 H2]. apply ltb_lt in H1, H2. rewrite H1, H2.
      cbn [andb]. unfold len. split; intros Hl; case_len; simpl; try lia.
      * reflexivity.
      * split; [reflexivity | apply length_lastn; lia].
    + intros Hn.
      destruct (PyFloat.ltb 0 ((t - JitterSample.timestamp last) * 1000))
        eqn:E1;
        destruct (PyFloat.ltb ((t - JitterSample.timestamp last) * 1000) 1000)
          eqn:E2; cbn [andb]; try reflexivity.
      exfalso. apply Hn. split; apply ltb_lt; assumption.
  - apply _calculate_jitter_frame.
  - intros updates. apply jitter_updates_length. simpl. lia.
Qed.

Lemma jitter_update_cases_witness :
  let st := observed [10] in
  let last := JitterSample.mk (1000 # 1000) 0 10 in
  let delta_ms := (((1050 # 1000) - (1000 # 1000)) * 1000)%Q in
  last_item (jitter_samples st) = Some last
  /\ (delta_ms == 50)%Q
  /\ jitter_samples (_calculate_jitter (1050 # 1000) 11 st)
     = jitter_samples st ++ [JitterSample.mk (1050 # 1000) delta_ms 11].
Proof.
  cbv zeta. split; [vm_compute; reflexivity|].
  split; [vm_compute; reflexivity|].
  destruct (jitter_update_cases (1050 # 1000) 11 (observed [10]))
    as [_ [T _]].
  destruct (T (JitterSample.mk (1000 # 1000) 0 10) eq_refl) as [T1 _].
  destruct T1 as [T2 _].
  - split; vm_compute; reflexivity.
  - apply T2. apply Nat.leb_le. vm_compute. reflexivity.
Defined.

(** C4, counterexample: with exactly the four samples 10, 11, 13, 14 in the
    window the metric does not return 25.0. *)
Lemma packet_loss_of_four_samples_not_25 :
  map JitterSample.seq_num (lastn 100 (jitter_samples (observed [10; 11; 13; 14])))
  = [10; 11; 13; 14]
  /\ ~ Qeq (fst (_calculate_packet_loss_metric (observed [10; 11; 13; 14])))
           25%Q.
Proof.
  split; [vm_compute; reflexivity|]. vm_compute. discriminate.
Qed.

(** C4, as amended: the sequence numbers 10, 11, 13, 14 are left in place
    by the sort, their adjacent diffs are 1, 2, 1 and the walk accumulates
    gaps = 1 and total_expected = 4, a ratio of 25.0 percent; but the
    metric returns 0.0 and leaves the statistics as they are whenever those
    four samples are all there is, since it answers 0.0 below 10 samples.
    With the ten samples 10, 11, 13, 14, 16, 17, 19, 20, 21, 22 (3 gaps in
    12 expected) it returns 25.0 and sets [lost_packets] to 3. *)
Theorem packet_loss_10_11_13_14 :
  let seq_numbers := [10; 11; 13; 14] in
  sort seq_numbers = seq_numbers
  /\ map (pair_diff seq_numbers) (range 1 3) = [1; 2; 1]
  /\ walk_gaps seq_numbers = (1, 4)
  /\ (inject_Z 1 / inject_Z 4 * 100 == 25)%Q
  /\ (forall st : Statistics,
        map JitterSample.seq_num (jitter_samples st) = seq_numbers ->
        _calculate_packet_loss_metric st = (0%Q, st))
  /\ (let st := observed [10; 11; 13; 14; 16; 17; 19; 20; 21; 22] in
      (fst (_calculate_packet_loss_metric st) == 25)%Q
      /\ snd (_calculate_packet_loss_metric st) = set_lost_packets 3 st).
Proof.
  cbv zeta.
  split; [vm_compute; reflexivity|].
  split; [vm_compute; reflexivity|].
  split; [vm_compute; reflexivity|].
  split; [vm_compute; reflexivity|].
  split; [|split; vm_compute; reflexivity].
  intros st H. unfold _calculate_packet_loss_metric, len.
  assert (E : List.length (jitter_samples st) = 4%nat).
  { rewrite <- (length_map JitterSample.seq_num), H. reflexivity. }
  rewrite E. reflexivity.
Qed.

Lemma packet_loss_10_11_13_14_witness :
  map JitterSample.seq_num (jitter_samples (observed [10; 11; 13; 14]))
  = [10; 11; 13; 14]
  /\ _calculate_packet_loss_metric (observed [10; 11; 13; 14])
     = (0%Q, observed [10; 11; 13; 14]).
Proof.
  split; [vm_compute; reflexivity|].
  destruct packet_loss_10_11_13_14 as [_ [_ [_ [_ [T _]]]]].
  apply T. vm_compute. reflexivity.
Defined.

(** C3: the metric evaluated on a wrapped contiguous run.  Ten packets
    numbered 65531..65535, 0..4 arrive in order, none missing.  After the
    numeric sort the pair (4, 65531) has diff 65527 > 32768, which the
    wraparound branch replaces by 65536 - 4 + 65531 = 131063; the walk ends
    with total_expected = 131071 and gaps = 131062 where the contiguous
    reading is 9 and 0, the reported loss is above 99.99 percent and
    [lost_packets] becomes 131062.  On the sorted numbers 1, 2, 65534,
    65535 the same branch turns the middle diff into 131068. *)
Theorem packet_loss_wraparound_run :
  let run := [65531; 65532; 65533; 65534; 65535; 0; 1; 2; 3; 4] in
  let st := observed run in
  map JitterSample.seq_num (lastn 100 (jitter_samples st)) = run
  /\ sort run = [0; 1; 2; 3; 4; 65531; 65532; 65533; 65534; 65535]
  /\ pair_diff (sort run) 5 = 131063
  /\ walk_gaps (sort run) = (131062, 131071)
  /\ (fst (_calculate_packet_loss_metric st) == 13106200 # 131071)%Q
  /\ ((9999 # 100) < fst (_calculate_packet_loss_metric st))%Q
  /\ snd (_calculate_packet_loss_metric st) = set_lost_packets 131062 st
  /\ sort [65534; 65535; 1; 2] = [1; 2; 65534; 65535]
  /\ pair_diff [1; 2; 65534; 65535] 2 = 131068
  /\ walk_gaps [1; 2; 65534; 65535] = (131067, 131070).
Proof.
  cbv zeta.
  do 9 (split; [vm_compute; reflexivity|]). vm_compute. reflexivity.
Qed.

End MetricsTheorems.

(** ** The event queue *)

Section QueueClaims.

Import Py BoundedQueue.

Lemma put_drop_oldest_spec {A : Type} (x : A) (q : Queue A) :
  0 < maxsize q ->
  qsize q <= maxsize q ->
  put_drop_oldest x q
  = (mkQueue (maxsize q)
       ((if qsize q =? maxsize q then tl (items q) else items q) ++ [x]),
     None).
Proof.
  intros Hm Hs. unfold put_drop_oldest, put_nowait, full.
  destruct (Z.eqb_spec (qsize q) (maxsize q)) as [E|N].
  - replace (0 <? maxsize q) with true by (symmetry; apply Z.ltb_lt; lia).
    replace (maxsize q <=? qsize q) with true
      by (symmetry; apply Z.leb_le; lia).
    simpl. unfold get_nowait.
    destruct (items q) as [|y rest] eqn:Ei.
    + unfold qsize, PyList.len in E. rewrite Ei in E. simpl in E. lia.
    + simpl.
      replace (maxsize q <=? qsize (mkQueue (maxsize q) rest)) with false;
        [rewrite andb_false_r; reflexivity|].
      symmetry. apply Z.leb_gt.
      unfold qsize, PyList.len in *. rewrite Ei in E. simpl in *. lia.
  - replace (maxsize q <=? qsize q) with false
      by (symmetry; apply Z.leb_gt; lia).
    rewrite andb_false_r. reflexivity.
Qed.

(** C9: with capacity 3, enqueueing [a], [b], [c], [d] in this order with
    no dequeue in between leaves exactly [b], [c], [d] in this order (also
    when the four events are video packets going through
    [_process_packet]); and on any queue of positive capacity an enqueue returns at once without an
    exception, drops the oldest element first when the queue is at
    capacity, and puts the new element last. *)
Theorem queue_keeps_newest_three (A : Type) (a b c d : A) :
  items (put_all [a; b; c; d] (create 3)) = [b; c; d]
  /\ map EnhancedPacketCapture.frame_number
       (items (EnhancedPacketCapture.packet_queue
                 (EnhancedPacketCapture.process_packets
                    decimal decimal_float Scenarios.four_packets
                    Scenarios.capture_with_queue_of_three)))
     = [2; 3; 4]
  /\ (forall (q : Queue A) (x : A),
        0 < maxsize q ->
        qsize q <= maxsize q ->
        snd (put_drop_oldest x q) = None
        /\ maxsize (fst (put_drop_oldest x q)) = maxsize q
        /\ qsize (fst (put_drop_oldest x q)) <= maxsize q
        /\ items (fst (put_drop_oldest x q))
           = (if qsize q =? maxsize q then tl (items q) else items q)
               ++ [x]).
Proof.
  split; [reflexivity|]. split; [vm_compute; reflexivity|].
  intros q x Hm Hs. rewrite (put_drop_oldest_spec x q Hm Hs). simpl.
  repeat split.
  unfold qsize, PyList.len in *. simpl. rewrite length_app. simpl.
  destruct (Z.eqb_spec (Z.of_nat (List.length (items q))) (maxsize q)).
  - destruct (items q); simpl in *; lia.
  - lia.
Qed.

Lemma queue_keeps_newest_three_witness :
  let q := mkQueue 3 [1; 2; 3] in
  0 < maxsize q
  /\ qsize q <= maxsize q
  /\ snd (put_drop_oldest 4 q) = None
  /\ items (fst (put_drop_oldest 4 q)) = [2; 3; 4].
Proof.
  cbv zeta.
  assert (Hm : 0 < maxsize (mkQueue 3 [1; 2; 3])) by (simpl; lia).
  assert (Hs : qsize (mkQueue 3 [1; 2; 3]) <= maxsize (mkQueue 3 [1; 2; 3]))
    by (vm_compute; discriminate).
  split; [exact Hm|]. split; [exact Hs|].
  destruct (proj2 (proj2 (queue_keeps_newest_three Z 1 2 3 4))
              (mkQueue 3 [1; 2; 3]) 4 Hm Hs) as [T1 [_ [_ T2]]].
  split; [exact T1 | exact T2].
Defined.

End QueueClaims.

(** ** The classifiers *)

(** C10, counterexample: source port 40000 with destination port 0 is media
    for the original classifier and not for the enhanced one. *)
Lemma classifiers_differ_on_40000 :
  PacketCapture._is_video_packet 40000 0 = true
  /\ EnhancedPacketCapture._is_video_packet 40000 0 = false.
Proof. split; reflexivity. Qed.

(** C10, as amended: the two classifiers return the same verdict for every
    pair of ports that are both at most 32767, and whatever the enhanced
    classifier takes for media the original does too; for all ports the
    original verdict is the enhanced verdict or one of the ports being
    above 32767, which only the original, having no upper bound on the RTP
    range, takes for media. *)
Theorem classifiers_agree_up_to_32767 (src_port dst_port : Z) :
  (src_port <= 32767 -> dst_port <= 32767 ->
   PacketCapture._is_video_packet src_port dst_port
   = EnhancedPacketCapture._is_video_packet src_port dst_port)
  /\ (EnhancedPacketCapture._is_video_packet src_port dst_port = true ->
      PacketCapture._is_video_packet src_port dst_port = true)
  /\ PacketCapture._is_video_packet src_port dst_port
     = EnhancedPacketCapture._is_video_packet src_port dst_port
       || (32767 <? src_port) || (32767 <? dst_port).
Proof.
  assert (G : PacketCapture._is_video_packet src_port dst_port
              = EnhancedPacketCapture._is_video_packet src_port dst_port
                || (32767 <? src_port) || (32767 <? dst_port)).
  { unfold PacketCapture._is_video_packet,
      EnhancedPacketCapture._is_video_packet.
    change PacketCapture.video_ports with EnhancedPacketCapture.video_ports.
    destruct (PyList.mem src_port EnhancedPacketCapture.video_ports);
      [reflexivity|].
    destruct (PyList.mem dst_port EnhancedPacketCapture.video_ports);
      [reflexivity|].
    simpl.
    destruct (Z.geb_spec src_port 16384), (Z.geb_spec dst_port 16384),
      (Z.leb_spec 16384 src_port), (Z.leb_spec 16384 dst_port),
      (Z.leb_spec src_port 32767), (Z.leb_spec dst_port 32767),
      (Z.ltb_spec 32767 src_port), (Z.ltb_spec 32767 dst_port);
      simpl; try reflexivity; lia. }
  split; [|split; [|exact G]].
  - intros Hs Hd. rewrite G.
    replace (32767 <? src_port) with false by (symmetry; apply Z.ltb_ge; lia).
    replace (32767 <? dst_port) with false by (symmetry; apply Z.ltb_ge; lia).
    rewrite !orb_false_r. reflexivity.
  - intros H. rewrite G, H. reflexivity.
Qed.

Lemma classifiers_agree_up_to_32767_witness :
  20000 <= 32767 /\ 53 <= 32767
  /\ PacketCapture._is_video_packet 20000 53
     = EnhancedPacketCapture._is_video_packet 20000 53.
Proof.
  split; [lia|]. split; [lia|].
  apply (proj1 (classifiers_agree_up_to_32767 20000 53)); lia.
Defined.

(** ** Packet processing and the session *)

Section CaptureClaims.

Import Py BoundedQueue Metrics EnhancedPacketCapture Scenarios.

Local Open Scope string_scope.
Local Open Scope Z_scope.

(** C7, counterexample: a packet whose frame length is 0 is dropped and the
    error counter stays at 0; a packet whose RTP sequence number is 70000
    is counted and put on the queue, the error counter staying at 0. *)
Lemma out_of_range_field_not_counted_as_error :
  process 5 (rtp_packet "1" "0" "554" "20000" "10" "96") create = create
  /\ errors (statistics
               (process 5 (rtp_packet "1" "0" "554" "20000" "10" "96") create))
     = 0
  /\ errors (statistics
               (process 5 (rtp_packet "1" "100" "554" "20000" "70000" "96")
                  create))
     = 0
  /\ List.length
       (items (packet_queue
                 (process 5 (rtp_packet "1" "100" "554" "20000" "70000" "96")
                    create)))
     = 1%nat.
Proof. repeat split; vm_compute; reflexivity. Qed.

(** C7, as amended: a packet whose frame length is outside 1..65535 is
    discarded, the object (counters, samples, queue, error counter
    included) being left as it was, and the packets after it are processed
    as if it had not been there.  An RTP sequence number outside 0..65535
    or a payload type outside 0..127 makes the RTP analysis return with the
    statistics as they were (no jitter or bitrate sample, no error
    counted); the packet itself is still counted as a packet, a video
    packet and an RTP packet and is put on the queue. *)
Theorem out_of_range_fields
  (int_of_str : string -> option Z) (float_of_str : string -> option Q) :
  (forall (now : Q) (packet src layers frame_info : value) (c : Capture)
          (frame_number : Z) (frame_time : Q) (frame_len : Z),
      get packet "_source" (Dict []) = Ok src ->
      get src "layers" (Dict []) = Ok layers ->
      truthy layers = true ->
      get layers "frame" (Dict []) = Ok frame_info ->
      frame_fields int_of_str float_of_str frame_info
      = Ok (frame_number, frame_time, frame_len) ->
      frame_len < 1 \/ 65535 < frame_len ->
      _process_packet int_of_str float_of_str now packet c = c
      /\ forall rest,
           process_packets int_of_str float_of_str ((now, packet) :: rest) c
           = process_packets int_of_str float_of_str rest c)
  /\ (forall (now : Q) (rtp_info : value) (timestamp : Q) (length : Z)
             (st : Statistics) (seq_num rtp_timestamp payload_type : Z),
        rtp_fields int_of_str rtp_info
        = Ok (seq_num, rtp_timestamp, payload_type) ->
        seq_num < 0 \/ 65535 < seq_num
        \/ payload_type < 0 \/ 127 < payload_type ->
        _analyze_rtp_packet int_of_str now rtp_info timestamp length st = st)
  /\ (forall (now : Q) (packet src layers frame_info udp_info rtp_info : value)
             (c : Capture) (frame_number : Z) (frame_time : Q)
             (frame_len : Z) (src_ip dst_ip : value) (src_port dst_port : Z)
             (seq_num rtp_timestamp payload_type : Z),
        get packet "_source" (Dict []) = Ok src ->
        get src "layers" (Dict []) = Ok layers ->
        truthy layers = true ->
        get layers "frame" (Dict []) = Ok frame_info ->
        frame_fields int_of_str float_of_str frame_info
        = Ok (frame_number, frame_time, frame_len) ->
        1 <= frame_len <= 65535 ->
        ip_fields layers = Ok (src_ip, dst_ip) ->
        get layers "udp" (Dict []) = Ok udp_info ->
        udp_ports int_of_str udp_info = Ok (src_port, dst_port) ->
        _is_video_packet src_port dst_port = true ->
        get layers "rtp" (Dict []) = Ok rtp_info ->
        truthy rtp_info = true ->
        rtp_fields int_of_str rtp_info
        = Ok (seq_num, rtp_timestamp, payload_type) ->
        seq_num < 0 \/ 65535 < seq_num
        \/ payload_type < 0 \/ 127 < payload_type ->
        0 < maxsize (packet_queue c) ->
        qsize (packet_queue c) <= maxsize (packet_queue c) ->
        let st := statistics c in
        let q := packet_queue c in
        _process_packet int_of_str float_of_str now packet c
        = mkCapture (running c) (capture_process c) (analysis_thread c)
            (mkStatistics (total_packets st + 1) (video_packets st + 1)
               (rtp_packets st + 1) (lost_packets st) (jitter_samples st)
               (delay_samples st) (bitrate_samples st) (start_time st)
               (errors st))
            (mkQueue (maxsize q)
               ((if (qsize q =? maxsize q)%Z then tl (items q) else items q)
                  ++ [mkPacketData frame_number frame_time frame_len
                        src_ip dst_ip src_port dst_port true rtp_info])%list)).
Proof.
  assert (R : forall (now : Q) (rtp_info : value) (timestamp : Q)
                     (length : Z) (st : Statistics)
                     (seq_num rtp_timestamp payload_type : Z),
             rtp_fields int_of_str rtp_info
             = Ok (seq_num, rtp_timestamp, payload_type) ->
             seq_num < 0 \/ 65535 < seq_num
             \/ payload_type < 0 \/ 127 < payload_type ->
             _analyze_rtp_packet int_of_str now rtp_info timestamp length st
             = st).
  { intros now rtp_info timestamp length st seq_num rtp_timestamp
      payload_type Hf Hr.
    unfold _analyze_rtp_packet. rewrite Hf.
    destruct (Z.leb_spec 0 seq_num), (Z.leb_spec seq_num 65535),
      (Z.leb_spec 0 payload_type), (Z.leb_spec payload_type 127);
      simpl; try reflexivity; lia. }
  split; [|split; [exact R|]].
  - intros now packet src layers frame_info c frame_number frame_time
      frame_len Hsrc Hlay Htr Hfr Hff Hrange.
    assert (E : _process_packet int_of_str float_of_str now packet c = c).
    { unfold _process_packet. rewrite Hsrc. cbn [bind]. rewrite Hlay, Htr.
      cbn [negb]. rewrite Hfr, Hff.
      destruct (Z.leb_spec frame_len 0), (Z.gtb_spec frame_len 65535);
        simpl; try reflexivity; lia. }
    split; [exact E|].
    intros rest. unfold process_packets. cbn [fold_left fst snd].
    rewrite E. reflexivity.
  - intros now packet src layers frame_info udp_info rtp_info c frame_number
      frame_time frame_len src_ip dst_ip src_port dst_port seq_num
      rtp_timestamp payload_type Hsrc Hlay Htr Hfr Hff Hlen Hip Hudp Hports
      Hvid Hrtp Htrr Hrf Hrange Hm Hq.
    cbv zeta. unfold _process_packet. rewrite Hsrc. cbn [bind].
    rewrite Hlay, Htr. cbn [negb]. rewrite Hfr, Hff.
    replace (frame_len <=? 0) with false by (symmetry; apply Z.leb_gt; lia).
    replace (frame_len >? 65535) with false
      by (symmetry; rewrite Z.gtb_ltb; apply Z.ltb_ge; lia).
    cbn [orb]. rewrite Hip, Hudp, Hports.
    unfold count_and_enqueue. rewrite Hvid, Hrtp, Htrr.
    rewrite (R now rtp_info frame_time frame_len _ _ _ _ Hrf Hrange).
    rewrite (put_drop_oldest_spec _ (packet_queue c) Hm Hq).
    reflexivity.
Qed.

Lemma out_of_range_fields_witness :
  process 5 (rtp_packet "1" "70000" "554" "20000" "10" "96") create = create
  /\ _analyze_rtp_packet decimal 5
       (Dict [("rtp.seq", List [Str "70000"]);
              ("rtp.timestamp", List [Str "0"]);
              ("rtp.p_type", List [Str "96"])])
       1 100 initial_statistics
     = initial_statistics
  /\ total_packets
       (statistics (process 5 (rtp_packet "1" "100" "554" "20000" "10" "200")
                      create))
     = 1.
Proof.
  destruct (out_of_range_fields decimal decimal_float) as [T1 [T2 T3]].
  split; [|split].
  - unfold process.
    eapply (fun src layers frame_info n t l H1 H2 H3 H4 H5 H6 =>
              proj1 (T1 5%Q (rtp_packet "1" "70000" "554" "20000" "10" "96")
                       src layers frame_info create n t l
                       H1 H2 H3 H4 H5 H6));
      try (vm_compute; reflexivity).
    right. vm_compute. reflexivity.
  - eapply (T2 5%Q _ 1%Q 100 initial_statistics);
      [vm_compute; reflexivity|].
    right. left. vm_compute. reflexivity.
  - unfold process.
    erewrite (T3 5%Q (rtp_packet "1" "100" "554" "20000" "10" "200"));
      try (vm_compute; reflexivity).
    + split; vm_compute; discriminate.
    + right. right. right. vm_compute. reflexivity.
    + vm_compute. discriminate.
Defined.

(** C8, counterexample: a session that processed one packet is stopped and
    started again; the statistics of the new session still count that
    packet and hold its jitter and bitrate samples. *)
Lemma restart_keeps_previous_statistics :
  let c := snd (start_capture Started 9 (stop_capture after_one_packet)) in
  total_packets (statistics c) = 1
  /\ List.length (jitter_samples (statistics c)) = 1%nat
  /\ List.length (bitrate_samples (statistics c)) = 1%nat
  /\ total_packets initial_statistics = 0.
Proof. cbv zeta. repeat split; vm_compute; reflexivity. Qed.

(** C8, as amended: stopping and restarting a capture session on the same
    object keeps the Statistics aggregate: a successful restart only
    overwrites the session start time, and whatever the outcome of the
    restart the packet counters, the jitter and bitrate samples and the
    lost-packet count are those accumulated before, the error count never
    decreasing.  Statistics are in their creation state only on a newly
    created object. *)
Theorem restart_preserves_statistics (now : Q) (c : Capture) :
  statistics (snd (start_capture Started now (stop_capture c)))
  = set_start_time (Some now) (statistics c)
  /\ (forall env : StartOutcome,
        let st' := statistics (snd (start_capture env now (stop_capture c))) in
        total_packets st' = total_packets (statistics c)
        /\ video_packets st' = video_packets (statistics c)
        /\ rtp_packets st' = rtp_packets (statistics c)
        /\ lost_packets st' = lost_packets (statistics c)
        /\ jitter_samples st' = jitter_samples (statistics c)
        /\ bitrate_samples st' = bitrate_samples (statistics c)
        /\ errors (statistics c) <= errors st')
  /\ statistics create = initial_statistics.
Proof.
  split; [reflexivity|]. split; [|reflexivity].
  intros env. destruct env; simpl; repeat split; lia.
Qed.

End CaptureClaims.

(** * Further properties of the code *)

(** ** The event queue in general *)

Section QueueInGeneral.

Import Py BoundedQueue PyList.

Lemma lastn_all {A : Type} (n : nat) (l : list A) :
  (List.length l <= n)%nat -> lastn n l = l.
Proof.
  intros H. unfold lastn.
  replace (List.length l - n)%nat with 0%nat by lia. reflexivity.
Qed.

Lemma lastn_cons {A : Type} (n : nat) (a : A) (l : list A) :
  (n <= List.length l)%nat -> lastn n (a :: l) = lastn n l.
Proof.
  intros H. unfold lastn. simpl List.length.
  replace (S (List.length l) - n)%nat with (S (List.length l - n)) by lia.
  reflexivity.
Qed.

Lemma put_all_lastn {A : Type} (xs : list A) :
  forall q : Queue A,
    0 < maxsize q ->
    qsize q <= maxsize q ->
    put_all xs q
    = mkQueue (maxsize q) (lastn (Z.to_nat (maxsize q)) (items q ++ xs)).
Proof.
  induction xs as [|x xs IH]; intros q Hm Hs.
  - simpl. rewrite app_nil_r, lastn_all; [destruct q; reflexivity|].
    unfold qsize, len in Hs. lia.
  - unfold put_all. cbn [fold_left]. fold (put_all xs (fst (put_drop_oldest x q))).
    rewrite (put_drop_oldest_spec x q Hm Hs). cbn [fst].
    rewrite IH; cbn [maxsize items].
    + f_equal. unfold qsize, len in *.
      destruct (Z.eqb_spec (Z.of_nat (List.length (items q))) (maxsize q))
        as [E|N].
      * destruct (items q) as [|a l]; [simpl in E; lia|].
        cbn [tl]. rewrite <- !app_assoc. cbn [app].
        symmetry. apply lastn_cons. rewrite length_app. simpl in *. lia.
      * rewrite <- app_assoc. reflexivity.
    + exact Hm.
    + unfold qsize, len in *. cbn [items]. rewrite length_app. simpl.
      destruct (Z.eqb_spec (Z.of_nat (List.length (items q))) (maxsize q))
        as [E|N].
      * destruct (items q); simpl in *; lia.
      * lia.
Qed.

(** X1: whatever is enqueued on a new queue of capacity [n > 0], with no
    dequeue in between, the queue ends up holding the last [n] events (all
    of them when there are fewer), oldest first; a following dequeue
    returns the oldest of these.  A queue created with [maxsize <= 0] is
    unbounded and keeps every event. *)
Theorem queue_holds_the_newest (A : Type) (n : Z) (xs : list A) :
  (0 < n ->
   items (put_all xs (create n)) = lastn (Z.to_nat n) xs
   /\ qsize (put_all xs (create n)) <= n
   /\ (forall x rest,
         lastn (Z.to_nat n) xs = x :: rest ->
         get_nowait (put_all xs (create n)) = Ok (x, mkQueue n rest))
   /\ (xs = [] -> get_nowait (put_all xs (create n)) = Raise Empty))
  /\ (n <= 0 -> items (put_all xs (create n)) = xs).
Proof.
  split.
  - intros Hn.
    assert (E : put_all xs (create n)
                = mkQueue n (lastn (Z.to_nat n) xs)).
    { rewrite put_all_lastn;
        [reflexivity | exact Hn | unfold qsize, create, len; simpl; lia]. }
    rewrite E. cbn [items]. repeat split.
    + unfold qsize, len, lastn. cbn [items]. rewrite length_skipn. lia.
    + intros x rest Hx. unfold get_nowait. cbn [items maxsize].
      rewrite Hx. reflexivity.
    + intros ->. reflexivity.
  - intros Hn. unfold put_all, create.
    assert (G : forall (ys : list A) (l : list A),
               fold_left (fun q x => fst (put_drop_oldest x q)) ys
                         (mkQueue n l)
               = mkQueue n (l ++ ys)).
    { induction ys as [|y ys IH]; intros l; simpl.
      - now rewrite app_nil_r.
      - unfold put_drop_oldest at 2, put_nowait, full. cbn [maxsize].
        replace (0 <? n) with false by (symmetry; apply Z.ltb_ge; lia).
        cbn [andb fst items]. rewrite IH, <- app_assoc. reflexivity. }
    rewrite G. reflexivity.
Qed.

Lemma queue_holds_the_newest_witness :
  0 < 2
  /\ items (put_all [10; 20; 30; 40; 50] (create 2)) = [40; 50]
  /\ get_nowait (put_all [10; 20; 30; 40; 50] (create 2))
     = Ok (40, mkQueue 2 [50]).
Proof.
  assert (H : 0 < 2) by lia.
  destruct (proj1 (queue_holds_the_newest Z 2 [10; 20; 30; 40; 50]) H)
    as [T1 [_ [T2 _]]].
  split; [exact H|]. split; [exact T1|].
  apply T2. reflexivity.
Defined.

End QueueInGeneral.

(** ** The capture filter and the command line *)

Section CaptureCommandFacts.

Import CaptureCommand.

Local Open Scope string_scope.

Lemma contains_join_if (keep : ascii -> bool) (s : string) (c : ascii) :
  contains c (join_if keep s) = contains c s && keep c.
Proof.
  induction s as [|c' s IH]; simpl; [reflexivity|].
  destruct (keep c') eqn:K; simpl; rewrite IH.
  - destruct (Ascii.eqb_spec c c') as [->|N]; simpl;
      [rewrite K; now rewrite orb_true_r || destruct (contains c' s); reflexivity
      | reflexivity].
  - destruct (Ascii.eqb_spec c c') as [->|N]; simpl; [|reflexivity].
    rewrite K, andb_false_r. reflexivity.
Qed.

Lemma join_if_fixed (keep : ascii -> bool) (s : string) :
  join_if keep s = s <-> (forall c, contains c s = true -> keep c = true).
Proof.
  induction s as [|c' s IH]; simpl.
  - split; [intros _ c H; discriminate | reflexivity].
  - split.
    + intros H c Hc. destruct (keep c') eqn:K.
      * injection H as H. apply orb_true_iff in Hc.
        destruct Hc as [Hc|Hc].
        -- apply Ascii.eqb_eq in Hc. now subst.
        -- apply (proj1 IH H c Hc).
      * exfalso.
        assert (L : (String.length (join_if keep s) <= String.length s)%nat).
        { clear. induction s as [|a s IHs]; simpl; [lia|].
          destruct (keep a); simpl; lia. }
        rewrite H in L. simpl in L. lia.
    + intros H. rewrite (H c') by (rewrite Ascii.eqb_refl; reflexivity).
      f_equal. apply IH. intros c Hc. apply H. rewrite Hc.
      apply orb_true_r.
Qed.

Lemma join_if_length (keep : ascii -> bool) (s : string) :
  (String.length (join_if keep s) <= String.length s)%nat.
Proof.
  induction s as [|a s IH]; simpl; [lia|]. destruct (keep a); simpl; lia.
Qed.

(** X2: the sanitized capture filter contains only characters of
    [allowed_chars]; sanitizing is idempotent and never lengthens the text;
    and the text comes back unchanged (no warning) exactly when all its
    characters are allowed.  In particular no semicolon, dollar sign,
    backquote or quote survives. *)
Theorem sanitized_filter_is_clean (filter_str : string) :
  (forall c, contains c (_sanitize_capture_filter filter_str) = true ->
             contains c allowed_chars = true)
  /\ _sanitize_capture_filter (_sanitize_capture_filter filter_str)
     = _sanitize_capture_filter filter_str
  /\ (String.length (_sanitize_capture_filter filter_str)
      <= String.length filter_str)%nat
  /\ (_sanitize_capture_filter filter_str = filter_str
      <-> forall c, contains c filter_str = true ->
                    contains c allowed_chars = true)
  /\ contains ";" (_sanitize_capture_filter filter_str) = false
  /\ contains "$" (_sanitize_capture_filter filter_str) = false
  /\ contains "`" (_sanitize_capture_filter filter_str) = false
  /\ contains "'" (_sanitize_capture_filter filter_str) = false
  /\ contains "034" (_sanitize_capture_filter filter_str) = false.
Proof.
  unfold _sanitize_capture_filter.
  assert (C : forall c,
             contains c (join_if (fun c => contains c allowed_chars) filter_str)
             = true -> contains c allowed_chars = true).
  { intros c H. rewrite contains_join_if in H.
    apply andb_true_iff in H. exact (proj2 H). }
  split; [exact C|]. split; [|split; [apply join_if_length|split]].
  - apply join_if_fixed. exact C.
  - apply join_if_fixed.
  - repeat split; rewrite contains_join_if; apply andb_false_r.
Qed.

Lemma sanitized_filter_is_clean_witness :
  _sanitize_capture_filter "udp port 554; rm -rf /" = "udp port 554 rm -rf "
  /\ contains "r" (_sanitize_capture_filter "udp port 554; rm -rf /") = true
  /\ contains "r" allowed_chars = true.
Proof.
  split; [vm_compute; reflexivity|].
  assert (H : contains "r" (_sanitize_capture_filter "udp port 554; rm -rf /")
              = true) by (vm_compute; reflexivity).
  split; [exact H|].
  exact (proj1 (sanitized_filter_is_clean "udp port 554; rm -rf /") "r"%char H).
Defined.

Lemma join_if_none (keep : ascii -> bool) (s : string) :
  (forall c, contains c s = true -> keep c = false) -> join_if keep s = "".
Proof.
  induction s as [|c' s IH]; intros H; simpl; [reflexivity|].
  rewrite (H c') by (simpl; rewrite Ascii.eqb_refl; reflexivity).
  apply IH. intros c Hc. apply H. simpl. rewrite Hc. apply orb_true_r.
Qed.

(** X3: the tshark command always begins with [tshark -i <interface>],
    the interface being passed as given.  Without a capture filter it has
    34 arguments and ends with the size limit; with one it has two more,
    [-f] and the sanitized filter, so the filter text reaches the command
    line only through the sanitizer; a filter made only of characters that
    are not allowed still adds [-f] with an empty argument. *)
Theorem command_carries_sanitized_filter (interface capture_filter : string) :
  let cmd := _build_tshark_command interface capture_filter in
  firstn 3 cmd = ["tshark"; "-i"; interface]%list
  /\ firstn 34 cmd = _build_tshark_command interface ""
  /\ (capture_filter = "" -> List.length cmd = 34%nat)
  /\ (capture_filter <> "" ->
      skipn 34 cmd = ["-f"; _sanitize_capture_filter capture_filter]%list)
  /\ (capture_filter <> "" ->
      (forall c, contains c capture_filter = true ->
                 contains c allowed_chars = false) ->
      skipn 34 cmd = ["-f"; ""]%list).
Proof.
  cbv zeta. unfold _build_tshark_command.
  destruct (String.eqb_spec capture_filter "") as [E|N]; cbn [negb].
  - split; [reflexivity|]. split; [vm_compute; reflexivity|].
    split; [reflexivity|]. split; intros H; contradiction.
  - split; [reflexivity|]. split; [vm_compute; reflexivity|].
    split; [intros E; contradiction|]. split; [reflexivity|].
    intros _ H. cbn [skipn app]. f_equal. f_equal.
    apply join_if_none. exact H.
Qed.

Lemma command_carries_sanitized_filter_witness :
  "$;" <> ""
  /\ skipn 34 (_build_tshark_command "wlan0" "$;") = ["-f"; ""]%list.
Proof.
  assert (N : "$;" <> "") by discriminate.
  split; [exact N|].
  apply (proj2 (proj2 (proj2 (proj2
           (command_carries_sanitized_filter "wlan0" "$;")))) N).
  intros c H. simpl in H.
  destruct (Ascii.eqb c "$") eqn:E1;
    [apply Ascii.eqb_eq in E1; subst c; reflexivity|].
  destruct (Ascii.eqb c ";") eqn:E2;
    [apply Ascii.eqb_eq in E2; subst c; reflexivity|].
  discriminate H.
Defined.

End CaptureCommandFacts.

(** ** What processing a packet can change *)

Section ProcessingEffects.

Import Py BoundedQueue Metrics EnhancedPacketCapture Invariants.

Context (int_of_str : string -> option Z) (float_of_str : string -> option Q).

Lemma _calculate_jitter_fields (t : Q) (s : Z) (st : Statistics) :
  let st' := _calculate_jitter t s st in
  total_packets st' = total_packets st
  /\ video_packets st' = video_packets st
  /\ rtp_packets st' = rtp_packets st
  /\ lost_packets st' = lost_packets st
  /\ bitrate_samples st' = bitrate_samples st
  /\ start_time st' = start_time st
  /\ errors st' = errors st.
Proof.
  cbv zeta. rewrite _calculate_jitter_frame. simpl. repeat split.
Qed.

(** What [_analyze_rtp_packet] can do to the statistics. *)
Lemma _analyze_rtp_packet_effect (now : Q) (rtp_info : value) (timestamp : Q)
  (length : Z) (st : Statistics) :
  let st' := _analyze_rtp_packet int_of_str now rtp_info timestamp length st in
  total_packets st' = total_packets st
  /\ video_packets st' = video_packets st
  /\ rtp_packets st' = rtp_packets st
  /\ lost_packets st' = lost_packets st
  /\ start_time st' = start_time st
  /\ (errors st' = errors st \/ errors st' = errors st + 1)
  /\ ((jitter_samples st' = jitter_samples st
       /\ bitrate_samples st' = bitrate_samples st)
      \/ exists seq_num,
           jitter_samples st'
           = jitter_samples (_calculate_jitter timestamp seq_num st)
           /\ bitrate_samples st'
              = keep_recent (now - 30)
                  (bitrate_samples st
                     ++ [BitrateSample.mk timestamp length now])).
Proof.
  cbv zeta. unfold _analyze_rtp_packet.
  destruct (rtp_fields int_of_str rtp_info) as [[[seq_num ts] pt]|e].
  - destruct (negb _); [simpl; repeat split; auto|].
    destruct (negb _); [simpl; repeat split; auto|].
    destruct (PyList.mem pt rtp_payload_types);
      [|simpl; repeat split; auto].
    destruct (_calculate_jitter_fields timestamp seq_num st)
      as [H1 [H2 [H3 [H4 [H5 [H6 H7]]]]]].
    unfold _calculate_bitrate. simpl. rewrite H1, H2, H3, H4, H5, H6, H7.
    repeat split; auto.
    right. exists seq_num. split; reflexivity.
  - simpl. repeat split; auto.
Qed.

(** What [_process_packet] can do to the object. *)
Lemma _process_packet_effect (now : Q) (packet : value) (c : Capture) :
  let c' := _process_packet int_of_str float_of_str now packet c in
  let st := statistics c in
  let st' := statistics c' in
  running c' = running c
  /\ capture_process c' = capture_process c
  /\ analysis_thread c' = analysis_thread c
  /\ maxsize (packet_queue c') = maxsize (packet_queue c)
  /\ lost_packets st' = lost_packets st
  /\ start_time st' = start_time st
  /\ errors st <= errors st'
  /\ 0 <= rtp_packets st' - rtp_packets st
     <= video_packets st' - video_packets st
  /\ video_packets st' - video_packets st
     <= total_packets st' - total_packets st <= 1
  /\ ((jitter_samples st' = jitter_samples st
       /\ bitrate_samples st' = bitrate_samples st)
      \/ exists timestamp length seq_num,
           1 <= length <= 65535
           /\ jitter_samples st'
              = jitter_samples (_calculate_jitter timestamp seq_num st)
           /\ bitrate_samples st'
              = keep_recent (now - 30)
                  (bitrate_samples st
                     ++ [BitrateSample.mk timestamp length now]))
  /\ (packet_queue c' = packet_queue c
      \/ exists e,
           event_ok e
           /\ packet_queue c' = fst (put_drop_oldest e (packet_queue c))).
Proof.
  cbv zeta.
  assert (Same : forall c0 : Capture,
             c0 = c \/ c0 = set_statistics (count_error (statistics c)) c ->
             running c0 = running c
             /\ capture_process c0 = capture_process c
             /\ analysis_thread c0 = analysis_thread c
             /\ maxsize (packet_queue c0) = maxsize (packet_queue c)
             /\ lost_packets (statistics c0) = lost_packets (statistics c)
             /\ start_time (statistics c0) = start_time (statistics c)
             /\ errors (statistics c) <= errors (statistics c0)
             /\ 0 <= rtp_packets (statistics c0) - rtp_packets (statistics c)
                <= video_packets (statistics c0) - video_packets (statistics c)
             /\ video_packets (statistics c0) - video_packets (statistics c)
                <= total_packets (statistics c0) - total_packets (statistics c)
                <= 1
             /\ ((jitter_samples (statistics c0) = jitter_samples (statistics c)
                  /\ bitrate_samples (statistics c0)
                     = bitrate_samples (statistics c))
                 \/ exists timestamp length seq_num,
                      1 <= length <= 65535
                      /\ jitter_samples (statistics c0)
                         = jitter_samples
                             (_calculate_jitter timestamp seq_num (statistics c))
                      /\ bitrate_samples (statistics c0)
                         = keep_recent (now - 30)
                             (bitrate_samples (statistics c)
                                ++ [BitrateSample.mk timestamp length now]))
             /\ (packet_queue c0 = packet_queue c
                 \/ exists e,
                      event_ok e
                      /\ packet_queue c0
                         = fst (put_drop_oldest e (packet_queue c)))).
  { intros c0 [->| ->]; simpl; repeat split; auto; lia. }
  assert (Enq : forall layers fn ft fl sip dip sp dp,
             1 <= fl <= 65535 ->
             let c0 := count_and_enqueue int_of_str now layers fn ft fl
                         sip dip sp dp c in
             running c0 = running c
             /\ capture_process c0 = capture_process c
             /\ analysis_thread c0 = analysis_thread c
             /\ maxsize (packet_queue c0) = maxsize (packet_queue c)
             /\ lost_packets (statistics c0) = lost_packets (statistics c)
             /\ start_time (statistics c0) = start_time (statistics c)
             /\ errors (statistics c) <= errors (statistics c0)
             /\ 0 <= rtp_packets (statistics c0) - rtp_packets (statistics c)
                <= video_packets (statistics c0) - video_packets (statistics c)
             /\ video_packets (statistics c0) - video_packets (statistics c)
                <= total_packets (statistics c0) - total_packets (statistics c)
                <= 1
             /\ ((jitter_samples (statistics c0) = jitter_samples (statistics c)
                  /\ bitrate_samples (statistics c0)
                     = bitrate_samples (statistics c))
                 \/ exists timestamp length seq_num,
                      1 <= length <= 65535
                      /\ jitter_samples (statistics c0)
                         = jitter_samples
                             (_calculate_jitter timestamp seq_num (statistics c))
                      /\ bitrate_samples (statistics c0)
                         = keep_recent (now - 30)
                             (bitrate_samples (statistics c)
                                ++ [BitrateSample.mk timestamp length now]))
             /\ (packet_queue c0 = packet_queue c
                 \/ exists e,
                      event_ok e
                      /\ packet_queue c0
                         = fst (put_drop_oldest e (packet_queue c)))).
  { intros layers fn ft fl sip dip sp dp Hfl. cbv zeta.
    unfold count_and_enqueue.
    destruct (_is_video_packet sp dp) eqn:Hv;
      [|simpl; repeat split; auto; lia].
    destruct (get layers "rtp" (Dict [])) as [rtp_info|e];
      [|simpl; repeat split; auto; lia].
    set (st2 := set_video_packets _ _).
    set (pd := mkPacketData fn ft fl sip dip sp dp true rtp_info).
    assert (Hpd : event_ok pd) by (repeat split; simpl; auto; lia).
    assert (Hmax : forall x (q : Queue PacketData),
               maxsize (fst (put_drop_oldest x q)) = maxsize q).
    { intros x q. unfold put_drop_oldest, put_nowait, get_nowait.
      destruct (full q); [|reflexivity].
      destruct (items q) as [|y r]; [reflexivity|].
      destruct (full _); reflexivity. }
    assert (Hst3 :
              forall st3,
                (st3 = st2
                 \/ st3 = _analyze_rtp_packet int_of_str now rtp_info ft fl
                            (set_rtp_packets (rtp_packets st2 + 1) st2)) ->
                lost_packets st3 = lost_packets (statistics c)
                /\ start_time st3 = start_time (statistics c)
                /\ errors (statistics c) <= errors st3
                /\ 0 <= rtp_packets st3 - rtp_packets (statistics c)
                   <= video_packets st3 - video_packets (statistics c)
                /\ video_packets st3 - video_packets (statistics c)
                   <= total_packets st3 - total_packets (statistics c) <= 1
                /\ ((jitter_samples st3 = jitter_samples (statistics c)
                     /\ bitrate_samples st3 = bitrate_samples (statistics c))
                    \/ exists timestamp length seq_num,
                         1 <= length <= 65535
                         /\ jitter_samples st3
                            = jitter_samples
                                (_calculate_jitter timestamp seq_num
                                   (statistics c))
                         /\ bitrate_samples st3
                            = keep_recent (now - 30)
                                (bitrate_samples (statistics c)
                                   ++ [BitrateSample.mk timestamp length now]))).
    { intros st3 [->| ->].
      - subst st2. simpl. repeat split; auto; lia.
      - destruct (_analyze_rtp_packet_effect now rtp_info ft fl
                    (set_rtp_packets (rtp_packets st2 + 1) st2))
          as [H1 [H2 [H3 [H4 [H5 [H6 H7]]]]]].
        rewrite H1, H2, H3, H4, H5. subst st2. simpl in *.
        repeat split; try lia.
        destruct H7 as [[Hj Hb]|[seq_num [Hj Hb]]].
        + left. split; assumption.
        + right. exists ft, fl, seq_num. split; [exact Hfl|].
          split; [|exact Hb].
          rewrite Hj. unfold _calculate_jitter. simpl.
          repeat match goal with
                 | |- context [if ?b then _ else _] => destruct b
                 | |- context [match ?o with Some _ => _ | None => _ end] =>
                     destruct o
                 end; reflexivity. }
    set (st3 := if truthy rtp_info then _ else _).
    assert (H3 : st3 = st2
                 \/ st3 = _analyze_rtp_packet int_of_str now rtp_info ft fl
                            (set_rtp_packets (rtp_packets st2 + 1) st2)).
    { subst st3. destruct (truthy rtp_info); [right|left]; reflexivity. }
    destruct (Hst3 st3 H3) as [A1 [A2 [A3 [A4 [A5 A6]]]]].
    pose proof (Hmax pd (packet_queue c)) as Hq.
    destruct (put_drop_oldest pd (packet_queue c)) as [q [e|]] eqn:Eq;
      simpl in Hq |- *.
    - repeat split; auto; try lia.
      right. exists pd. split; [exact Hpd|]. rewrite Eq. reflexivity.
    - repeat split; auto; try lia.
      right. exists pd. split; [exact Hpd|]. rewrite Eq. reflexivity. }
  unfold _process_packet.
  destruct (bind _ _) as [layers|e]; [|apply Same; right; reflexivity].
  destruct (negb (truthy layers)); [apply Same; left; reflexivity|].
  destruct (get layers "frame" (Dict [])) as [frame_info|e];
    [|apply Same; right; reflexivity].
  destruct (frame_fields int_of_str float_of_str frame_info)
    as [[[fn ft] fl]|e].
  2:{ destruct (field_error e); apply Same; [left|right]; reflexivity. }
  destruct (Z.leb_spec fl 0); [apply Same; left; reflexivity|].
  destruct (Z.gtb_spec fl 65535); [apply Same; left; reflexivity|].
  cbn [orb].
  destruct (ip_fields layers) as [[sip dip]|e];
    [|apply Same; right; reflexivity].
  destruct (get layers "udp" (Dict [])) as [udp_info|e];
    [|apply Same; right; reflexivity].
  destruct (udp_ports int_of_str udp_info) as [[sp dp]|e].
  - apply Enq. lia.
  - destruct (field_error e); [apply Enq; lia|apply Same; right; reflexivity].
Qed.

End ProcessingEffects.

Section ProcessingInvariants.

Import Py BoundedQueue Metrics EnhancedPacketCapture Invariants Scenarios.

Context (int_of_str : string -> option Z) (float_of_str : string -> option Q).

Local Abbreviation run := (process_packets int_of_str float_of_str).

Lemma process_packets_cons (p : Q * value) (packets : list (Q * value))
  (c : Capture) :
  run (p :: packets) c
  = run packets (_process_packet int_of_str float_of_str (fst p) (snd p) c).
Proof. reflexivity. Qed.

(** X4: processing any list of decoded packets never decreases a counter,
    counts at most one packet per processed packet, and adds no more RTP
    packets than video packets and no more video packets than packets; it
    leaves [lost_packets], the start time, the running flag and the
    capacity of the queue alone.  Hence on an object that starts from its
    creation state, rtp_packets <= video_packets <= total_packets <= number
    of packets processed. *)
Theorem counters_stay_consistent (packets : list (Q * value)) (c : Capture) :
  let st := statistics c in
  let st' := statistics (run packets c) in
  total_packets st <= total_packets st'
    <= total_packets st + Z.of_nat (List.length packets)
  /\ 0 <= rtp_packets st' - rtp_packets st
     <= video_packets st' - video_packets st
  /\ video_packets st' - video_packets st
     <= total_packets st' - total_packets st
  /\ errors st <= errors st'
  /\ lost_packets st' = lost_packets st
  /\ start_time st' = start_time st
  /\ running (run packets c) = running c
  /\ maxsize (packet_queue (run packets c)) = maxsize (packet_queue c)
  /\ (c = create ->
      0 <= rtp_packets st' <= video_packets st'
      /\ video_packets st' <= total_packets st'
         <= Z.of_nat (List.length packets)).
Proof.
  cbv zeta.
  assert (G : total_packets (statistics c)
              <= total_packets (statistics (run packets c))
              <= total_packets (statistics c) + Z.of_nat (List.length packets)
              /\ 0 <= rtp_packets (statistics (run packets c))
                      - rtp_packets (statistics c)
                 <= video_packets (statistics (run packets c))
                    - video_packets (statistics c)
              /\ video_packets (statistics (run packets c))
                 - video_packets (statistics c)
                 <= total_packets (statistics (run packets c))
                    - total_packets (statistics c)
              /\ errors (statistics c) <= errors (statistics (run packets c))
              /\ lost_packets (statistics (run packets c))
                 = lost_packets (statistics c)
              /\ start_time (statistics (run packets c))
                 = start_time (statistics c)
              /\ running (run packets c) = running c
              /\ maxsize (packet_queue (run packets c))
                 = maxsize (packet_queue c)).
  { revert c. induction packets as [|p packets IH]; intros c.
    - simpl. repeat split; lia.
    - rewrite process_packets_cons.
      destruct (_process_packet_effect int_of_str float_of_str
                  (fst p) (snd p) c)
        as [E1 [_ [_ [E4 [E5 [E6 [E7 [E8 [E9 _]]]]]]]]].
      destruct (IH (_process_packet int_of_str float_of_str
                      (fst p) (snd p) c))
        as [I1 [I2 [I3 [I4 [I5 [I6 [I7 I8]]]]]]].
      cbn [List.length]. rewrite Nat2Z.inj_succ.
      repeat split; try lia; try congruence. }
  destruct G as [G1 [G2 [G3 [G4 [G5 [G6 [G7 G8]]]]]]].
  repeat split; try assumption; try lia; subst c; simpl in *; lia.
Qed.

Lemma put_drop_oldest_keeps_ok (e : PacketData) (q : Queue PacketData) :
  event_ok e -> queue_ok q -> queue_ok (fst (put_drop_oldest e q)).
Proof.
  intros He [Hm [Hs Hall]].
  rewrite (put_drop_oldest_spec e q Hm Hs). cbn [fst].
  unfold queue_ok. cbn [maxsize items]. split; [exact Hm|].
  unfold qsize, PyList.len in *. cbn [items].
  destruct (Z.eqb_spec (Z.of_nat (List.length (items q))) (maxsize q))
    as [E|N].
  - destruct (items q) as [|y r]; [simpl in E; lia|].
    cbn [tl]. split.
    + rewrite length_app. simpl in *. lia.
    + apply Forall_app. split; [inversion Hall; assumption|].
      constructor; [exact He | constructor].
  - split.
    + rewrite length_app. simpl. lia.
    + apply Forall_app. split; [exact Hall|].
      constructor; [exact He | constructor].
Qed.

(** X5: the event queue never grows beyond its capacity, and everything it
    holds is a video packet with a frame length within 1..65535: a packet
    that is not video, or that fails validation, never reaches the queue.
    This holds after any list of packets on an object whose queue was in
    that state, the queue of a new object in particular. *)
Theorem queue_holds_valid_video_events (packets : list (Q * value))
  (c : Capture) :
  queue_ok (packet_queue c) ->
  queue_ok (packet_queue (run packets c)).
Proof.
  revert c. induction packets as [|p packets IH]; intros c H; [exact H|].
  rewrite process_packets_cons. apply IH.
  destruct (_process_packet_effect int_of_str float_of_str (fst p) (snd p) c)
    as [_ [_ [_ [_ [_ [_ [_ [_ [_ [_ [E|[e [He E]]]]]]]]]]]]]; rewrite E.
  - exact H.
  - apply put_drop_oldest_keeps_ok; assumption.
Qed.

End ProcessingInvariants.

Lemma counters_stay_consistent_witness :
  let st' :=
    EnhancedPacketCapture.statistics
      (EnhancedPacketCapture.process_packets Py.decimal Py.decimal_float
         Scenarios.four_packets EnhancedPacketCapture.create) in
  0 <= rtp_packets st' <= video_packets st'
  /\ video_packets st' <= total_packets st' <= 4.
Proof.
  exact (proj2 (proj2 (proj2 (proj2 (proj2 (proj2 (proj2 (proj2
           (counters_stay_consistent Py.decimal Py.decimal_float
              Scenarios.four_packets EnhancedPacketCapture.create))))))))
           eq_refl).
Defined.

Lemma queue_holds_valid_video_events_witness :
  Invariants.queue_ok
    (EnhancedPacketCapture.packet_queue EnhancedPacketCapture.create)
  /\ Invariants.queue_ok
       (EnhancedPacketCapture.packet_queue
          (EnhancedPacketCapture.process_packets Py.decimal Py.decimal_float
             Scenarios.four_packets EnhancedPacketCapture.create)).
Proof.
  assert (H : Invariants.queue_ok
                (EnhancedPacketCapture.packet_queue
                   EnhancedPacketCapture.create)).
  { repeat split; [vm_compute; discriminate | constructor]. }
  split; [exact H|].
  exact (queue_holds_valid_video_events Py.decimal Py.decimal_float
           Scenarios.four_packets EnhancedPacketCapture.create H).
Defined.

Section PacketEdgeCases.

Import Py BoundedQueue Metrics EnhancedPacketCapture Scenarios.

Local Open Scope string_scope.
Local Open Scope Z_scope.

(** X6: a packet that passes frame validation but is not classified as
    video is counted in [total_packets]; building its event then fails on
    the local [rtp_info], which only the video branch binds, so the error
    counter goes up by one and nothing is put on the queue.  The same
    happens when the UDP ports cannot be read, since both ports are then
    taken as 0. *)
Theorem non_video_packet_counts_as_error
  (int_of_str : string -> option Z) (float_of_str : string -> option Q)
  (now : Q) (packet src layers frame_info udp_info : value) (c : Capture)
  (frame_number : Z) (frame_time : Q) (frame_len : Z)
  (src_ip dst_ip : value) :
  get packet "_source" (Dict []) = Ok src ->
  get src "layers" (Dict []) = Ok layers ->
  truthy layers = true ->
  get layers "frame" (Dict []) = Ok frame_info ->
  frame_fields int_of_str float_of_str frame_info
  = Ok (frame_number, frame_time, frame_len) ->
  1 <= frame_len <= 65535 ->
  ip_fields layers = Ok (src_ip, dst_ip) ->
  get layers "udp" (Dict []) = Ok udp_info ->
  (exists src_port dst_port,
      udp_ports int_of_str udp_info = Ok (src_port, dst_port)
      /\ _is_video_packet src_port dst_port = false)
  \/ (exists e, udp_ports int_of_str udp_info = Raise e
                /\ field_error e = true) ->
  let st := statistics c in
  _process_packet int_of_str float_of_str now packet c
  = mkCapture (running c) (capture_process c) (analysis_thread c)
      (mkStatistics (total_packets st + 1) (video_packets st)
         (rtp_packets st) (lost_packets st) (jitter_samples st)
         (delay_samples st) (bitrate_samples st) (start_time st)
         (errors st + 1))
      (packet_queue c).
Proof.
  intros Hsrc Hlay Htr Hfr Hff Hlen Hip Hudp Hports. cbv zeta.
  unfold _process_packet. rewrite Hsrc. cbn [bind].
  rewrite Hlay, Htr. cbn [negb]. rewrite Hfr, Hff.
  replace (frame_len <=? 0) with false by (symmetry; apply Z.leb_gt; lia).
  replace (frame_len >? 65535) with false
    by (symmetry; rewrite Z.gtb_ltb; apply Z.ltb_ge; lia).
  cbn [orb]. rewrite Hip, Hudp.
  destruct Hports as [[sp [dp [Hp Hv]]]|[e [Hp He]]]; rewrite Hp.
  - unfold count_and_enqueue. rewrite Hv. reflexivity.
  - rewrite He. reflexivity.
Qed.

Lemma non_video_packet_counts_as_error_witness :
  process 5 (rtp_packet "1" "100" "53" "53" "10" "96") create
  = mkCapture false false false
      (mkStatistics 1 0 0 0 [] [] [] None 1) (BoundedQueue.create 10000).
Proof.
  unfold process.
  erewrite (non_video_packet_counts_as_error decimal decimal_float 5%Q
              (rtp_packet "1" "100" "53" "53" "10" "96"));
    try (vm_compute; reflexivity).
  - split; vm_compute; discriminate.
  - left. exists 53, 53. split; vm_compute; reflexivity.
Defined.

(** X7: missing parts of a decoded packet.  A packet without a ['_source']
    entry, or whose ['_source'] has no ['layers'] entry, is skipped with
    the object unchanged; so is a packet whose layers have no ['frame']
    entry, because the defaults give a frame length of 0 (given that
    [int('0')] is 0). *)
Theorem packet_with_missing_parts_is_skipped
  (int_of_str : string -> option Z) (float_of_str : string -> option Q)
  (now : Q) (c : Capture) :
  (forall d, lookup "_source" d = None ->
             _process_packet int_of_str float_of_str now (Dict d) c = c)
  /\ (forall d d', lookup "_source" d = Some (Dict d') ->
                   lookup "layers" d' = None ->
                   _process_packet int_of_str float_of_str now (Dict d) c = c)
  /\ (int_of_str "0" = Some 0 ->
      forall packet src layers,
        get packet "_source" (Dict []) = Ok src ->
        get src "layers" (Dict []) = Ok (Dict layers) ->
        lookup "frame" layers = None ->
        _process_packet int_of_str float_of_str now packet c = c).
Proof.
  split; [|split].
  - intros d H. unfold _process_packet. cbn [get bind]. rewrite H.
    reflexivity.
  - intros d d' H H'. unfold _process_packet. cbn [get bind].
    rewrite H. cbn [get bind]. rewrite H'. reflexivity.
  - intros H0 packet src layers Hsrc Hlay Hfr.
    unfold _process_packet. rewrite Hsrc. cbn [bind]. rewrite Hlay.
    destruct (truthy (Dict layers)); [|reflexivity]. cbn [negb get].
    rewrite Hfr. unfold frame_fields, field. cbn [get lookup bind index0].
    unfold zero_default. cbn [index0 bind]. unfold Py.int at 1. rewrite H0.
    cbn [bind]. unfold Py.float.
    destruct (float_of_str "0"); [|reflexivity]. cbn [bind].
    unfold Py.int. rewrite H0. reflexivity.
Qed.

Lemma packet_with_missing_parts_is_skipped_witness :
  decimal "0" = Some 0
  /\ process 5 (Dict [("_source", Dict [("layers",
        Dict [("udp", Dict [("udp.srcport", List [Str "554"])])])])]) create
     = create.
Proof.
  assert (H : decimal "0" = Some 0) by reflexivity.
  split; [exact H|].
  unfold process.
  eapply (proj2 (proj2
            (packet_with_missing_parts_is_skipped decimal decimal_float
               5%Q create)) H); reflexivity.
Defined.

End PacketEdgeCases.

(** ** Invariants of the jitter and bitrate samples *)

Section SampleInvariants.

Import PyList Metrics Invariants.

Lemma last_item_cons {A : Type} (a b : A) (l : list A) :
  last_item (a :: b :: l) = last_item (b :: l).
Proof.
  unfold last_item. cbn [List.length].
  replace (S (S (List.length l)) - 1)%nat with (S (List.length l)) by lia.
  replace (S (List.length l) - 1)%nat with (List.length l) by lia.
  reflexivity.
Qed.

Lemma last_item_none {A : Type} (l : list A) : last_item l = None -> l = [].
Proof.
  unfold last_item. intros H. destruct l as [|a l]; [reflexivity|].
  apply nth_error_None in H. simpl in H. lia.
Qed.

Lemma Sorted_snoc {A : Type} (R : A -> A -> Prop) (l : list A) (x : A) :
  Sorted R l ->
  (forall a, last_item l = Some a -> R a x) ->
  Sorted R (l ++ [x]).
Proof.
  induction l as [|a l IH]; intros Hs Hl; simpl.
  - repeat constructor.
  - inversion Hs as [|? ? Hs' Hhd]; subst. constructor.
    + apply IH; [exact Hs'|]. intros b Hb. apply Hl.
      destruct l as [|c l]; [discriminate Hb|].
      rewrite last_item_cons. exact Hb.
    + destruct l as [|c l]; simpl.
      * constructor. apply Hl. reflexivity.
      * inversion Hhd; subst. constructor. assumption.
Qed.

Lemma Sorted_skipn {A : Type} (R : A -> A -> Prop) (k : nat) :
  forall l : list A, Sorted R l -> Sorted R (skipn k l).
Proof.
  induction k as [|k IH]; intros l H; [exact H|].
  destruct l as [|a l]; [exact H|]. simpl. apply IH.
  inversion H; assumption.
Qed.

Lemma Forall_skipn {A : Type} (P : A -> Prop) (k : nat) :
  forall l : list A, Forall P l -> Forall P (skipn k l).
Proof.
  induction k as [|k IH]; intros l H; [exact H|].
  destruct l as [|a l]; [exact H|]. simpl. apply IH.
  inversion H; assumption.
Qed.

Lemma _calculate_jitter_keeps_ok (t : Q) (s : Z) (st : Statistics) :
  jitter_ok (jitter_samples st) ->
  jitter_ok (jitter_samples (_calculate_jitter t s st)).
Proof.
  intros [Hs [Hf Hl]].
  destruct (last_item (jitter_samples st)) as [last|] eqn:E.
  - rewrite (_calculate_jitter_next t s st last E). cbv zeta.
    destruct (PyFloat.ltb 0 ((t - JitterSample.timestamp last) * 1000))
      eqn:E1; cbn [andb]; [|repeat split; assumption].
    destruct (PyFloat.ltb ((t - JitterSample.timestamp last) * 1000) 1000)
      eqn:E2; [|repeat split; assumption].
    apply ltb_lt in E1, E2.
    set (new := JitterSample.mk t ((t - JitterSample.timestamp last) * 1000) s).
    assert (Hs' : Sorted spaced (jitter_samples st ++ [new])).
    { apply Sorted_snoc; [exact Hs|]. intros a Ha.
      rewrite E in Ha. injection Ha as <-.
      repeat split; simpl; assumption. }
    assert (Hf' : Forall (fun x => (0 <= JitterSample.jitter x)%Q
                                   /\ (JitterSample.jitter x < 1000)%Q)
                         (jitter_samples st ++ [new])).
    { apply Forall_app. split; [exact Hf|].
      constructor; [|constructor]. simpl. split; [lra|assumption]. }
    unfold len. case_len; simpl.
    + repeat split.
      * apply Sorted_skipn, Hs'.
      * apply Forall_skipn, Hf'.
      * rewrite length_lastn; lia.
    + repeat split; try assumption. lia.
  - apply last_item_none in E. unfold _calculate_jitter. rewrite E. simpl.
    repeat split.
    + repeat constructor.
    + constructor; [|constructor]. simpl. split; lra.
    + simpl. lia.
Qed.

Lemma keep_recent_keeps_ok (cutoff : Q) (l : list BitrateSample.t) :
  bitrate_ok l -> bitrate_ok (keep_recent cutoff l).
Proof.
  unfold bitrate_ok, keep_recent. intros H.
  apply Forall_forall. intros x Hx. apply filter_In in Hx.
  rewrite Forall_forall in H. apply H. exact (proj1 Hx).
Qed.

(** X8: the stored jitter samples keep their shape.  At any time they are
    in strictly increasing capture-time order with less than one second
    between neighbours, each sample after the first holds the time elapsed
    since its predecessor in ms, every jitter value is in [0, 1000), and
    there are at most 1000 of them; every stored bitrate sample has a byte
    count within 1..65535.  Each jitter update and each processed packet
    preserves this, and it holds at creation. *)
Theorem samples_keep_their_shape :
  (jitter_ok (jitter_samples initial_statistics)
   /\ bitrate_ok (bitrate_samples initial_statistics))
  /\ (forall (t : Q) (s : Z) (st : Statistics),
        jitter_ok (jitter_samples st) ->
        jitter_ok (jitter_samples (_calculate_jitter t s st)))
  /\ (forall (int_of_str : string -> option Z)
             (float_of_str : string -> option Q)
             (packets : list (Q * Py.value))
             (c : EnhancedPacketCapture.Capture),
        jitter_ok (jitter_samples (EnhancedPacketCapture.statistics c)) ->
        bitrate_ok (bitrate_samples (EnhancedPacketCapture.statistics c)) ->
        let c' := EnhancedPacketCapture.process_packets
                    int_of_str float_of_str packets c in
        jitter_ok (jitter_samples (EnhancedPacketCapture.statistics c'))
        /\ bitrate_ok (bitrate_samples (EnhancedPacketCapture.statistics c'))).
Proof.
  split; [|split].
  - split.
    + repeat split; simpl; [constructor | constructor | lia].
    + constructor.
  - exact _calculate_jitter_keeps_ok.
  - intros int_of_str float_of_str packets.
    induction packets as [|p packets IH]; intros c Hj Hb; cbv zeta.
    + split; assumption.
    + rewrite process_packets_cons. apply IH.
      * destruct (_process_packet_effect int_of_str float_of_str
                    (fst p) (snd p) c)
          as [_ [_ [_ [_ [_ [_ [_ [_ [_ [[[E _]|[t [l [s [_ [E _]]]]]] _]]]]]]]]]];
          rewrite E; [exact Hj | apply _calculate_jitter_keeps_ok, Hj].
      * destruct (_process_packet_effect int_of_str float_of_str
                    (fst p) (snd p) c)
          as [_ [_ [_ [_ [_ [_ [_ [_ [_ [[[_ E]|[t [l [s [Hl [_ E]]]]]] _]]]]]]]]]];
          rewrite E; [exact Hb|].
        apply keep_recent_keeps_ok. apply Forall_app. split; [exact Hb|].
        constructor; [exact Hl | constructor].
Qed.

End SampleInvariants.

Lemma samples_keep_their_shape_witness :
  Invariants.jitter_ok (jitter_samples initial_statistics)
  /\ Invariants.jitter_ok
       (jitter_samples (Metrics._calculate_jitter (1050 # 1000) 11
                          initial_statistics)).
Proof.
  destruct samples_keep_their_shape as [[H _] [T _]].
  split; [exact H|]. apply T. exact H.
Defined.

(** ** The derived metrics *)

Section DerivedMetricsFacts.

Import PyList Metrics DerivedMetrics Invariants Scenarios.

Lemma inject_length_succ {A : Type} (a : A) (l : list A) :
  (inject_Z (len (a :: l)) == 1 + inject_Z (len l))%Q.
Proof.
  unfold len. cbn [List.length]. rewrite Nat2Z.inj_succ, <- Z.add_1_l.
  rewrite inject_Z_plus. reflexivity.
Qed.

Lemma inject_length_nonneg {A : Type} (l : list A) :
  (0 <= inject_Z (len l))%Q.
Proof.
  unfold len. change 0%Q with (inject_Z 0). rewrite <- Zle_Qle. lia.
Qed.

Lemma sum_from_lower (l : list Q) :
  Forall (fun x => (0 <= x)%Q) l ->
  forall a : Q, (a <= fold_left Qplus l a)%Q.
Proof.
  induction l as [|x l IH]; intros H a; simpl; [lra|].
  inversion H; subst. specialize (IH H3 (a + x)%Q). lra.
Qed.

Lemma sum_from_upper (l : list Q) :
  Forall (fun x => (x < 1000)%Q) l ->
  forall a x : Q,
    (x < 1000)%Q ->
    (fold_left Qplus l (a + x) < a + 1000 * (1 + inject_Z (len l)))%Q.
Proof.
  induction l as [|y l IH]; intros H a x Hx.
  - simpl. change (inject_Z (len [])) with 0%Q. lra.
  - cbn [fold_left]. inversion H; subst.
    specialize (IH H3 (a + x)%Q y H2).
    rewrite inject_length_succ. lra.
Qed.

(** The mean of values in [0, 1000) is in [0, 1000). *)
Lemma mean_within (x : Q) (l : list Q) :
  Forall (fun v => (0 <= v)%Q /\ (v < 1000)%Q) (x :: l) ->
  (0 <= sum (x :: l) / inject_Z (len (x :: l)))%Q
  /\ (sum (x :: l) / inject_Z (len (x :: l)) < 1000)%Q.
Proof.
  intros H.
  assert (Hn : (0 < inject_Z (len (x :: l)))%Q).
  { rewrite inject_length_succ. pose proof (inject_length_nonneg l). lra. }
  assert (Hlo : Forall (fun v => (0 <= v)%Q) (x :: l)).
  { eapply Forall_impl; [|exact H]. intros v Hv. exact (proj1 Hv). }
  assert (Hhi : Forall (fun v => (v < 1000)%Q) (x :: l)).
  { eapply Forall_impl; [|exact H]. intros v Hv. exact (proj2 Hv). }
  split.
  - apply Qle_shift_div_l; [exact Hn|].
    pose proof (sum_from_lower (x :: l) Hlo 0%Q). unfold sum. lra.
  - apply Qlt_shift_div_r; [exact Hn|].
    unfold sum. cbn [fold_left]. inversion Hhi; subst.
    pose proof (sum_from_upper l H3 0%Q x H2) as B.
    rewrite inject_length_succ. lra.
Qed.

(** Between the first and the last of samples stored in a row there is at
    most one second per step. *)
Lemma span_of_spaced (l : list JitterSample.t) :
  forall a b : JitterSample.t,
    Sorted spaced (a :: l) ->
    last_item (a :: l) = Some b ->
    (0 <= (JitterSample.timestamp b - JitterSample.timestamp a) * 1000)%Q
    /\ ((JitterSample.timestamp b - JitterSample.timestamp a) * 1000
        <= 1000 * inject_Z (len l))%Q.
Proof.
  induction l as [|c l IH]; intros a b Hs Hb.
  - injection Hb as <-. change (inject_Z (len [])) with 0%Q. split; lra.
  - rewrite last_item_cons in Hb. inversion Hs as [|? ? Hs' Hhd]; subst.
    inversion Hhd as [|? ? [Hj [H0 H1]]]; subst.
    destruct (IH c b Hs' Hb) as [L U]. rewrite Hj in H0, H1.
    rewrite inject_length_succ. split; lra.
Qed.

(** X9: on statistics whose jitter samples have the shape the updates
    keep, the jitter metric, the delay metric and the latency metric are
    all within [0, 1000) ms; with fewer than two samples the jitter and
    delay metrics are 0. *)
Theorem timing_metrics_within_bounds (st : Statistics) :
  jitter_ok (jitter_samples st) ->
  ((0 <= _calculate_jitter_metric st)%Q
   /\ (_calculate_jitter_metric st < 1000)%Q)
  /\ ((0 <= _calculate_delay_metric st)%Q
      /\ (_calculate_delay_metric st < 1000)%Q)
  /\ ((0 <= _calculate_latency_metric st)%Q
      /\ (_calculate_latency_metric st < 1000)%Q)
  /\ ((List.length (jitter_samples st) < 2)%nat ->
      _calculate_jitter_metric st = 0%Q /\ _calculate_delay_metric st = 0%Q).
Proof.
  intros [Hs [Hf Hl]].
  assert (J : (0 <= _calculate_jitter_metric st)%Q
              /\ (_calculate_jitter_metric st < 1000)%Q).
  { unfold _calculate_jitter_metric.
    destruct (len (jitter_samples st) <? 2); [split; lra|]. cbv zeta.
    destruct (map JitterSample.jitter (lastn 100 (jitter_samples st)))
      as [|x vs] eqn:E; [split; lra|].
    apply mean_within. rewrite <- E.
    apply Forall_map. apply Forall_skipn. exact Hf. }
  assert (D : (0 <= _calculate_delay_metric st)%Q
              /\ (_calculate_delay_metric st < 1000)%Q).
  { unfold _calculate_delay_metric.
    destruct (jitter_samples st) as [|s0 l0] eqn:E0; [split; lra|].
    rewrite <- E0. cbv zeta.
    destruct (len (lastn 10 (jitter_samples st)) >=? 2); [|split; lra].
    destruct (last_item (lastn 10 (jitter_samples st))) as [newest|] eqn:En;
      [|split; lra].
    destruct (lastn 10 (jitter_samples st)) as [|oldest rest] eqn:Er;
      [split; lra|].
    destruct (PyFloat.ltb 0 _) eqn:Ep; [|split; lra].
    apply ltb_lt in Ep.
    assert (Hsr : Sorted spaced (oldest :: rest)).
    { rewrite <- Er, E0. apply Sorted_skipn. exact Hs. }
    destruct (span_of_spaced rest oldest newest Hsr En) as [L U].
    assert (Hn : (0 < inject_Z (len (oldest :: rest)))%Q).
    { rewrite inject_length_succ. pose proof (inject_length_nonneg rest).
      lra. }
    split.
    - apply Qle_shift_div_l; [exact Hn|]. lra.
    - apply Qlt_shift_div_r; [exact Hn|]. rewrite inject_length_succ.
      pose proof (inject_length_nonneg rest). lra. }
  split; [exact J|]. split; [exact D|]. split.
  - unfold _calculate_latency_metric. cbv zeta.
    destruct J as [J1 J2], D as [D1 D2].
    split.
    + apply Qle_shift_div_l; lra.
    + apply Qlt_shift_div_r; lra.
  - intros Hlt. split.
    + unfold _calculate_jitter_metric.
      replace (len (jitter_samples st) <? 2) with true; [reflexivity|].
      symmetry. apply Z.ltb_lt. unfold len. lia.
    + unfold _calculate_delay_metric.
      destruct (jitter_samples st) as [|s0 [|s1 l0]]; [reflexivity| |].
      * reflexivity.
      * simpl in Hlt. lia.
Qed.

Lemma timing_metrics_within_bounds_witness :
  jitter_ok (jitter_samples (observed [10; 11; 12]))
  /\ Qlt (_calculate_jitter_metric (observed [10; 11; 12])) 1000%Q
  /\ Qlt (_calculate_delay_metric (observed [10; 11; 12])) 1000%Q.
Proof.
  assert (H : jitter_ok (jitter_samples (observed [10; 11; 12]))).
  { unfold observed, steady_arrivals. cbn [jitter_updates fold_left map
      combine seq List.length fst snd].
    repeat apply _calculate_jitter_keeps_ok.
    repeat split; simpl; [constructor | constructor | lia]. }
  split; [exact H|].
  destruct (timing_metrics_within_bounds (observed [10; 11; 12]) H)
    as [[_ T1] [[_ T2] _]].
  split; assumption.
Defined.

End DerivedMetricsFacts.

Section SnapshotFacts.

Import PyList Metrics DerivedMetrics Invariants Scenarios.

Lemma sum_int_from_lower (l : list Z) :
  Forall (fun x => 0 <= x) l -> forall a, a <= fold_left Z.add l a.
Proof.
  induction l as [|x l IH]; intros H a; simpl; [lia|].
  inversion H; subst. specialize (IH H3 (a + x)). lia.
Qed.

(** X10: the bitrate metric is never negative on samples whose byte
    counts are valid, whatever the order of their wall-clock readings; it
    is 0 with fewer than two samples, and 0 when every sample is older
    than 10 seconds at the time of reading. *)
Theorem bitrate_metric_is_never_negative (now : Q) (st : Statistics) :
  bitrate_ok (bitrate_samples st) ->
  (0 <= _calculate_bitrate_metric now st)%Q
  /\ ((List.length (bitrate_samples st) < 2)%nat ->
      _calculate_bitrate_metric now st = 0%Q)
  /\ (Forall (fun s => (10 < now - BitrateSample.real_time s)%Q)
             (bitrate_samples st) ->
      _calculate_bitrate_metric now st = 0%Q).
Proof.
  intros Hb. split; [|split].
  - unfold _calculate_bitrate_metric.
    destruct (len (bitrate_samples st) <? 2); [lra|]. cbv zeta.
    set (recent := filter _ (bitrate_samples st)).
    destruct (len recent >=? 2); [|lra].
    destruct (last_item recent) as [newest|]; [|lra].
    destruct recent as [|oldest rest] eqn:Er; [lra|].
    destruct (PyFloat.ltb 0 _) eqn:Ep; [|lra].
    apply ltb_lt in Ep.
    assert (Hsum : 0 <= sum_int (map BitrateSample.bytes (oldest :: rest))).
    { unfold sum_int. apply sum_int_from_lower.
      apply Forall_map. rewrite <- Er. unfold recent.
      apply Forall_forall. intros x Hx. apply filter_In in Hx.
      unfold bitrate_ok in Hb. rewrite Forall_forall in Hb.
      specialize (Hb x (proj1 Hx)). lia. }
    apply Qle_shift_div_l; [lra|]. rewrite Qmult_0_l.
    apply Qle_shift_div_l; [exact Ep|]. rewrite Qmult_0_l.
    change 0%Q with (inject_Z 0). rewrite <- Zle_Qle. lia.
  - intros Hlt. unfold _calculate_bitrate_metric.
    replace (len (bitrate_samples st) <? 2) with true; [reflexivity|].
    symmetry. apply Z.ltb_lt. unfold len. lia.
  - intros Hold. unfold _calculate_bitrate_metric.
    destruct (len (bitrate_samples st) <? 2); [reflexivity|]. cbv zeta.
    assert (E : filter
                  (fun s =>
                     PyFloat.leb (now - BitrateSample.real_time s) 10)
                  (bitrate_samples st) = []).
    { clear Hb. induction (bitrate_samples st) as [|x l IH]; [reflexivity|].
      inversion Hold; subst. simpl.
      destruct (PyFloat.leb (now - BitrateSample.real_time x) 10) eqn:E.
      - unfold PyFloat.leb in E. apply Qle_bool_iff in E. lra.
      - apply IH. assumption. }
    rewrite E. reflexivity.
Qed.

Lemma bitrate_metric_is_never_negative_witness :
  bitrate_ok (bitrate_samples two_bitrate_updates)
  /\ Qle 0 (_calculate_bitrate_metric 21 two_bitrate_updates).
Proof.
  assert (H : bitrate_ok (bitrate_samples two_bitrate_updates)).
  { assert (E : bitrate_samples two_bitrate_updates
                = [BitrateSample.mk 1 1000 0; BitrateSample.mk 2 1000 20])
      by (vm_compute; reflexivity).
    unfold bitrate_ok. rewrite E. repeat constructor; simpl; lia. }
  split; [exact H|].
  exact (proj1 (bitrate_metric_is_never_negative 21 two_bitrate_updates H)).
Defined.










End SnapshotFacts.

(** ** The packet-loss walk *)

Section LossWalkFacts.

Import PyList Metrics LossWalk Invariants Scenarios.

Lemma range_succ (a : Z) (n : nat) : range a (S n) = a :: range (a + 1) n.
Proof.
  unfold range. cbn [seq map]. rewrite Z.add_0_r. f_equal.
  rewrite <- seq_shift, map_map. apply map_ext. intros k. lia.
Qed.

Lemma item_at (pre : list Z) (a : Z) (l : list Z) :
  item (pre ++ a :: l) (len pre) = a.
Proof.
  unfold item, len. rewrite Nat2Z.id.
  rewrite app_nth2 by lia. rewrite Nat.sub_diag. reflexivity.
Qed.

Lemma walk_loop_from (l : list Z) :
  forall (pre : list Z) (a : Z) (acc : Z * Z),
    fold_left
      (fun (acc : Z * Z) (i : Z) =>
         let '(gaps, total_expected) := acc in
         let diff := pair_diff (pre ++ a :: l) i in
         let total_expected := total_expected + diff in
         let gaps := if diff >? 1 then gaps + (diff - 1) else gaps in
         (gaps, total_expected))
      (range (len pre + 1) (List.length l)) acc
    = walk_from a l acc.
Proof.
  induction l as [|b l IH]; intros pre a acc; [reflexivity|].
  cbn [List.length]. rewrite range_succ. cbn [fold_left walk_from].
  replace (pre ++ a :: b :: l) with ((pre ++ [a]) ++ b :: l)
    by (rewrite <- app_assoc; reflexivity).
  replace (len pre + 1 + 1) with (len (pre ++ [a]) + 1)
    by (unfold len; rewrite length_app; simpl; lia).
  rewrite IH. f_equal.
  destruct acc as [gaps total_expected]. unfold add_gap, pair_diff.
  replace (len pre + 1) with (len (pre ++ [a]))
    by (unfold len; rewrite length_app; simpl; lia).
  rewrite item_at.
  replace (len (pre ++ [a]) - 1) with (len pre)
    by (unfold len; rewrite length_app; simpl; lia).
  rewrite <- app_assoc. cbn [app]. rewrite item_at. reflexivity.
Qed.

(** The index loop of the metric is the walk over adjacent values. *)
Lemma walk_gaps_from (a : Z) (l : list Z) :
  walk_gaps (a :: l) = walk_from a l (0, 0).
Proof.
  unfold walk_gaps. cbn [List.length].
  replace (S (List.length l) - 1)%nat with (List.length l) by lia.
  exact (walk_loop_from l [] a (0, 0)).
Qed.

Lemma walk_from_bounds (l : list Z) :
  forall (prev gaps total : Z),
    Sorted Z.le (prev :: l) ->
    0 <= gaps <= total ->
    (0 < total -> gaps < total) ->
    0 <= fst (walk_from prev l (gaps, total))
      <= snd (walk_from prev l (gaps, total))
    /\ (0 < snd (walk_from prev l (gaps, total)) ->
        fst (walk_from prev l (gaps, total))
        < snd (walk_from prev l (gaps, total))).
Proof.
  induction l as [|c l IH]; intros prev gaps total Hs Hg Ht.
  - simpl. split; assumption.
  - cbn [walk_from]. inversion Hs as [|? ? Hs' Hhd]; subst.
    inversion Hhd; subst. unfold add_gap.
    destruct (Z.gtb_spec (c - prev) 32768);
      match goal with
      | |- context [?d >? 1] => destruct (Z.gtb_spec d 1)
      end; apply IH; try assumption; lia.
Qed.

(** X12: the packet-loss metric always returns a percentage in [0, 100):
    the walk on the sorted numbers never counts more gaps than expected
    packets, so the cap at 100 is never what is returned.  The stored
    [lost_packets] stays non-negative, nothing else in the statistics is
    written, and below 10 jitter samples the answer is 0 with the
    statistics untouched. *)
Theorem packet_loss_is_a_percentage (st : Statistics) :
  let result := _calculate_packet_loss_metric st in
  ((0 <= fst result)%Q /\ (fst result < 100)%Q)
  /\ (0 <= lost_packets st -> 0 <= lost_packets (snd result))
  /\ snd result = set_lost_packets (lost_packets (snd result)) st
  /\ ((List.length (jitter_samples st) < 10)%nat -> result = (0%Q, st)).
Proof.
  cbv zeta. unfold _calculate_packet_loss_metric.
  assert (Keep : ((0 <= 0)%Q /\ (0 < 100)%Q)
                 /\ (0 <= lost_packets st -> 0 <= lost_packets st)
                 /\ st = set_lost_packets (lost_packets st) st).
  { split; [split; lra|]. split; [auto|]. destruct st; reflexivity. }
  destruct Keep as [K1 [K2 K3]].
  destruct (Z.ltb_spec (len (jitter_samples st)) 10) as [Hlt|Hge].
  { cbn [fst snd]. repeat split; auto; lra. }
  cbv zeta.
  destruct (len (map JitterSample.seq_num (lastn 100 (jitter_samples st)))
            <? 2).
  { cbn [fst snd]. repeat split; auto; lra. }
  pose proof (sort_sorted
                (map JitterSample.seq_num (lastn 100 (jitter_samples st))))
    as Hsorted.
  destruct (sort (map JitterSample.seq_num (lastn 100 (jitter_samples st))))
    as [|a l].
  { change (walk_gaps []) with (0, 0). cbv beta iota zeta.
    change (0 >? 0) with false. cbn [fst snd]. repeat split; auto; lra. }
  rewrite walk_gaps_from.
  destruct (walk_from_bounds l a 0 0 Hsorted) as [B1 B2]; [lia | lia |].
  destruct (walk_from a l (0, 0)) as [gaps total]. cbn [fst snd] in B1, B2.
  destruct (Z.gtb_spec total 0) as [Hpos|Hnp].
  - cbn [fst snd]. specialize (B2 Hpos).
    assert (Ht : (0 < inject_Z total)%Q).
    { change 0%Q with (inject_Z 0). rewrite <- Zlt_Qlt. exact Hpos. }
    assert (R0 : (0 <= inject_Z gaps / inject_Z total)%Q).
    { apply Qle_shift_div_l; [exact Ht|]. rewrite Qmult_0_l.
      change 0%Q with (inject_Z 0). rewrite <- Zle_Qle. lia. }
    assert (R1 : (inject_Z gaps / inject_Z total < 1)%Q).
    { apply Qlt_shift_div_r; [exact Ht|]. rewrite Qmult_1_l.
      rewrite <- Zlt_Qlt. exact B2. }
    assert (M : PyFloat.min (inject_Z gaps / inject_Z total * 100) 100
                = (inject_Z gaps / inject_Z total * 100)%Q).
    { unfold PyFloat.min.
      destruct (PyFloat.ltb 100 (inject_Z gaps / inject_Z total * 100))
        eqn:E; [|reflexivity].
      apply ltb_lt in E. lra. }
    rewrite M. split; [split; lra|]. split; [simpl; lia|].
    split; [destruct st; reflexivity|].
    intros H. unfold len in Hge. lia.
  - cbn [fst snd]. repeat split; auto; lra.
Qed.

Lemma packet_loss_is_a_percentage_witness :
  lt (List.length (jitter_samples (observed [10; 11; 13; 14]))) 10%nat
  /\ _calculate_packet_loss_metric (observed [10; 11; 13; 14])
     = (0%Q, observed [10; 11; 13; 14]).
Proof.
  assert (H : lt (List.length (jitter_samples (observed [10; 11; 13; 14])))
                 10%nat).
  { apply Nat.ltb_lt. vm_compute. reflexivity. }
  split; [exact H|].
  exact (proj2 (proj2 (proj2
           (packet_loss_is_a_percentage (observed [10; 11; 13; 14])))) H).
Defined.

End LossWalkFacts.

Section VersionsOnLoss.

Import PyList Metrics LossWalk Scenarios.

Lemma sorted_nodup_strict (l : list Z) :
  Sorted Z.le l -> NoDup l -> Sorted Z.lt l.
Proof.
  induction l as [|a l IH]; intros Hs Hn; [constructor|].
  inversion Hs as [|? ? Hs' Hhd]; subst. inversion Hn as [|? ? Hnot Hn']; subst.
  constructor; [apply IH; assumption|].
  destruct l as [|b l]; constructor.
  inversion Hhd; subst.
  assert (a <> b) by (intros ->; apply Hnot; left; reflexivity).
  lia.
Qed.

Lemma sorted_last_ge (l : list Z) :
  forall a hi, Sorted Z.lt (a :: l) -> last_item (a :: l) = Some hi -> a <= hi.
Proof.
  induction l as [|b l IH]; intros a hi Hs Hl.
  - injection Hl as <-. lia.
  - rewrite last_item_cons in Hl. inversion Hs as [|? ? Hs' Hhd]; subst.
    inversion Hhd; subst. specialize (IH b hi Hs' Hl). lia.
Qed.

(** Without duplicates and with a span of at most 32768 the walk
    telescopes: [total_expected] is the span and [gaps] the span minus the
    number of steps. *)
Lemma walk_from_exact (l : list Z) :
  forall (prev hi gaps total : Z),
    Sorted Z.lt (prev :: l) ->
    last_item (prev :: l) = Some hi ->
    hi - prev <= 32768 ->
    walk_from prev l (gaps, total)
    = (gaps + (hi - prev) - len l, total + (hi - prev)).
Proof.
  induction l as [|c l IH]; intros prev hi gaps total Hs Hl Hspan.
  - injection Hl as <-. simpl. f_equal; unfold len; simpl; lia.
  - rewrite last_item_cons in Hl. inversion Hs as [|? ? Hs' Hhd]; subst.
    inversion Hhd; subst. pose proof (sorted_last_ge l c hi Hs' Hl) as Hc.
    cbn [walk_from]. unfold add_gap.
    destruct (Z.gtb_spec (c - prev) 32768); [lia|].
    destruct (Z.gtb_spec (c - prev) 1);
      rewrite (IH c hi _ _ Hs' Hl) by lia;
      f_equal; unfold len; cbn [List.length]; lia.
Qed.

Lemma sort_length (l : list Z) : List.length (sort l) = List.length l.
Proof. symmetry. apply Permutation_length, sort_perm. Qed.

(** X13: the two versions agree on the number of lost packets.  For a
    window of 10 to 100 jitter samples whose sequence numbers are distinct
    and span at most 32768, the enhanced computation stores
    [max - min + 1 - n], the count of numbers missing between the lowest
    and the highest; when that count is positive the original computation
    stores the same number, and when it is zero the original returns 0 and
    leaves the statistics alone while the enhanced one stores 0. *)
Theorem versions_agree_on_lost_count
  (st : Statistics) (st1 : PacketCaptureV1.Statistics) :
  PacketCaptureV1.jitter_samples st1 = jitter_samples st ->
  (10 <= List.length (jitter_samples st) <= 100)%nat ->
  NoDup (map JitterSample.seq_num (jitter_samples st)) ->
  (forall x y,
      In x (map JitterSample.seq_num (jitter_samples st)) ->
      In y (map JitterSample.seq_num (jitter_samples st)) ->
      y - x <= 32768) ->
  let seq_numbers := sort (map JitterSample.seq_num (jitter_samples st)) in
  let missing :=
    List.last seq_numbers 0 - List.hd 0 seq_numbers + 1
    - len (jitter_samples st) in
  0 <= missing
  /\ lost_packets (snd (_calculate_packet_loss_metric st)) = missing
  /\ (0 < missing ->
      PacketCaptureV1.lost_packets
        (snd (PacketCaptureV1._calculate_packet_loss st1)) = missing)
  /\ (missing = 0 ->
      PacketCaptureV1._calculate_packet_loss st1 = (0%Q, st1)).
Proof.
  intros Hsame Hlen Hnodup Hspan. cbv zeta.
  set (seqs := map JitterSample.seq_num (jitter_samples st)) in *.
  assert (Hn : List.length (sort seqs) = List.length (jitter_samples st)).
  { rewrite sort_length. unfold seqs. apply length_map. }
  assert (Hstrict : Sorted Z.lt (sort seqs)).
  { apply sorted_nodup_strict; [apply sort_sorted|].
    eapply Permutation_NoDup; [apply sort_perm | exact Hnodup]. }
  destruct (sort seqs) as [|lo l] eqn:Es; [simpl in Hn; lia|].
  destruct (last_item (lo :: l)) as [hi|] eqn:El;
    [|apply last_item_none in El; discriminate].
  assert (Hlast : List.last (lo :: l) 0 = hi).
  { clear - El. revert lo El. induction l as [|b l IH]; intros lo El.
    - injection El as <-. reflexivity.
    - rewrite last_item_cons in El. cbn [List.last]. apply IH. exact El. }
  assert (Hin : forall z, In z (lo :: l) -> In z seqs).
  { intros z Hz. eapply Permutation_in; [|exact Hz].
    rewrite <- Es. apply Permutation_sym, sort_perm. }
  assert (Hhi_in : In hi (lo :: l)).
  { unfold last_item in El. eapply nth_error_In. exact El. }
  assert (Hsp : hi - lo <= 32768).
  { apply Hspan; apply Hin; [left; reflexivity | exact Hhi_in]. }
  pose proof (walk_from_exact l lo hi 0 0 Hstrict El Hsp) as Hw.
  assert (Hll : len l = len (jitter_samples st) - 1).
  { unfold len. simpl in Hn. lia. }
  assert (Hmono : len l <= hi - lo).
  { clear - Hstrict El. revert lo hi Hstrict El.
    induction l as [|b l IH]; intros lo hi Hs El.
    - injection El as <-. unfold len. simpl. lia.
    - rewrite last_item_cons in El. inversion Hs as [|? ? Hs' Hhd]; subst.
      inversion Hhd; subst. specialize (IH b hi Hs' El).
      unfold len in *. cbn [List.length]. lia. }
  rewrite Hlast. cbn [List.hd].
  split; [lia|]. split; [|split].
  - unfold _calculate_packet_loss_metric.
    replace (len (jitter_samples st) <? 10) with false
      by (symmetry; apply Z.ltb_ge; unfold len; lia).
    cbv zeta. rewrite lastn_all by lia. fold seqs.
    replace (len seqs <? 2) with false.
    2:{ symmetry. apply Z.ltb_ge. unfold len, seqs. rewrite length_map. lia. }
    rewrite Es, walk_gaps_from, Hw.
    replace (0 + (hi - lo) >? 0) with true.
    2:{ symmetry. apply Z.gtb_lt. unfold len in *. lia. }
    cbn [snd lost_packets set_lost_packets]. lia.
  - intros Hpos. unfold PacketCaptureV1._calculate_packet_loss.
    rewrite Hsame.
    replace (len (jitter_samples st) <? 2) with false
      by (symmetry; apply Z.ltb_ge; unfold len; lia).
    cbv zeta. fold seqs. rewrite Es, El.
    replace (len (lo :: l)) with (len (jitter_samples st))
      by (unfold len; rewrite Hn; reflexivity).
    replace (hi - lo + 1 >? len (jitter_samples st)) with true
      by (symmetry; apply Z.gtb_lt; lia).
    reflexivity.
  - intros H0. unfold PacketCaptureV1._calculate_packet_loss.
    rewrite Hsame.
    replace (len (jitter_samples st) <? 2) with false
      by (symmetry; apply Z.ltb_ge; unfold len; lia).
    cbv zeta. fold seqs. rewrite Es, El.
    replace (len (lo :: l)) with (len (jitter_samples st))
      by (unfold len; rewrite Hn; reflexivity).
    replace (hi - lo + 1 >? len (jitter_samples st)) with false
      by (symmetry; rewrite Z.gtb_ltb; apply Z.ltb_ge; lia).
    reflexivity.
Qed.

End VersionsOnLoss.

Lemma versions_agree_on_lost_count_witness :
  let st := Scenarios.observed [10; 11; 13; 14; 16; 17; 19; 20; 21; 22] in
  let st1 :=
    PacketCaptureV1.mkStatistics 0 0 0 0 (jitter_samples st) [] [] None in
  lost_packets (snd (Metrics._calculate_packet_loss_metric st)) = 3
  /\ PacketCaptureV1.lost_packets
       (snd (PacketCaptureV1._calculate_packet_loss st1)) = 3.
Proof.
  cbv zeta.
  set (st := Scenarios.observed [10; 11; 13; 14; 16; 17; 19; 20; 21; 22]).
  set (st1 := PacketCaptureV1.mkStatistics 0 0 0 0 (jitter_samples st)
                [] [] None).
  assert (E : map JitterSample.seq_num (jitter_samples st)
              = [10; 11; 13; 14; 16; 17; 19; 20; 21; 22])
    by (vm_compute; reflexivity).
  assert (H1 : PacketCaptureV1.jitter_samples st1 = jitter_samples st)
    by reflexivity.
  assert (H2 : (10 <= List.length (jitter_samples st) <= 100)%nat)
    by (split; apply Nat.leb_le; vm_compute; reflexivity).
  assert (H3 : NoDup (map JitterSample.seq_num (jitter_samples st))).
  { rewrite E.
    change [10; 11; 13; 14; 16; 17; 19; 20; 21; 22]
      with (nodup Z.eq_dec [10; 11; 13; 14; 16; 17; 19; 20; 21; 22]).
    apply NoDup_nodup. }
  assert (H4 : forall x y,
             In x (map JitterSample.seq_num (jitter_samples st)) ->
             In y (map JitterSample.seq_num (jitter_samples st)) ->
             y - x <= 32768).
  { rewrite E. intros x y Hx Hy. simpl in Hx, Hy. lia. }
  destruct (versions_agree_on_lost_count st st1 H1 H2 H3 H4)
    as [_ [T1 [T2 _]]].
  assert (M : List.last (PyList.sort
                           (map JitterSample.seq_num (jitter_samples st))) 0
              - List.hd 0 (PyList.sort
                             (map JitterSample.seq_num (jitter_samples st)))
              + 1 - PyList.len (jitter_samples st) = 3)
    by (vm_compute; reflexivity).
  rewrite M in T1, T2. split; [exact T1 | apply T2; lia].
Defined.

(** ** The original module *)

Section OriginalModule.

Import Py PyList.

Local Abbreviation update_jitter := PacketCaptureV1.update_jitter.

Local Open Scope string_scope.
Local Open Scope Z_scope.




(** X15: what the enhanced jitter update accepts, the original accepts
    with the same value.  With the same stored samples, fewer than 100 of
    them, a sample that the enhanced update appends is appended by the
    original with the same jitter value, and a sample that arrives a
    second or more after the last one is appended by the original and
    discarded by the enhanced update. *)
Theorem enhanced_jitter_update_is_stricter (timestamp : Q) (seq_num : Z)
  (st : Statistics) (last : JitterSample.t) :
  last_item (jitter_samples st) = Some last ->
  (List.length (jitter_samples st) < 100)%nat ->
  let delta_ms := ((timestamp - JitterSample.timestamp last) * 1000)%Q in
  let appended :=
    (jitter_samples st ++ [JitterSample.mk timestamp delta_ms seq_num])%list in
  ((0 < delta_ms)%Q /\ (delta_ms < 1000)%Q ->
   jitter_samples (Metrics._calculate_jitter timestamp seq_num st) = appended
   /\ update_jitter timestamp seq_num (jitter_samples st) = appended)
  /\ ((1000 <= delta_ms)%Q ->
      jitter_samples (Metrics._calculate_jitter timestamp seq_num st)
      = jitter_samples st
      /\ update_jitter timestamp seq_num (jitter_samples st) = appended)
  /\ ((delta_ms <= 0)%Q ->
      jitter_samples (Metrics._calculate_jitter timestamp seq_num st)
      = jitter_samples st
      /\ update_jitter timestamp seq_num (jitter_samples st)
         = jitter_samples st).
Proof.
  intros Hlast Hlen. cbv zeta.
  assert (Hpos : (len (jitter_samples st) >? 0) = true).
  { destruct (jitter_samples st); [discriminate Hlast|reflexivity]. }
  assert (Hfit : forall x : JitterSample.t,
             (len (jitter_samples st ++ [x])%list >? 100) = false
             /\ (len (jitter_samples st ++ [x])%list >? 1000) = false).
  { intros x. unfold len. rewrite length_app. simpl.
    split; rewrite Z.gtb_ltb; apply Z.ltb_ge; lia. }
  rewrite (_calculate_jitter_next timestamp seq_num st last Hlast).
  unfold update_jitter. rewrite Hpos, Hlast. cbv zeta.
  split; [|split].
  - intros [H0 H1]. apply ltb_lt in H0, H1. rewrite H0, H1. cbn [andb].
    rewrite (proj1 (Hfit _)), (proj2 (Hfit _)). split; reflexivity.
  - intros H.
    assert (H0 : PyFloat.ltb 0 ((timestamp - JitterSample.timestamp last) * 1000)
                 = true) by (apply ltb_lt; lra).
    assert (H1 : PyFloat.ltb ((timestamp - JitterSample.timestamp last) * 1000)
                   1000 = false).
    { destruct (PyFloat.ltb _ 1000) eqn:E; [|reflexivity].
      apply ltb_lt in E. lra. }
    rewrite H0, H1. cbn [andb]. rewrite (proj1 (Hfit _)). split; reflexivity.
  - intros H.
    assert (H0 : PyFloat.ltb 0 ((timestamp - JitterSample.timestamp last) * 1000)
                 = false).
    { destruct (PyFloat.ltb 0 _) eqn:E; [|reflexivity].
      apply ltb_lt in E. lra. }
    rewrite H0. cbn [andb]. split; reflexivity.
Qed.

Lemma enhanced_jitter_update_is_stricter_witness :
  let st := Scenarios.observed [10] in
  jitter_samples (Metrics._calculate_jitter 3 11 st) = jitter_samples st
  /\ List.length (update_jitter 3 11 (jitter_samples st)) = 2%nat.
Proof.
  cbv zeta.
  assert (H1 : last_item (jitter_samples (Scenarios.observed [10]))
               = Some (JitterSample.mk (1000 # 1000) 0 10)) by reflexivity.
  assert (H2 : lt (List.length (jitter_samples (Scenarios.observed [10])))
                  100%nat) by (apply Nat.ltb_lt; vm_compute; reflexivity).
  destruct (enhanced_jitter_update_is_stricter 3 11
              (Scenarios.observed [10]) _ H1 H2) as [_ [T _]].
  destruct T as [T1 T2]; [vm_compute; discriminate|].
  split; [exact T1|]. rewrite T2. vm_compute. reflexivity.
Defined.

End OriginalModule.

Section OriginalProcessing.

Import Py PyList.

Local Open Scope string_scope.
Local Open Scope Z_scope.

Context (int_of_str : string -> option Z) (float_of_str : string -> option Q).

Local Abbreviation analyze1 :=
  (PacketCaptureV1._analyze_rtp_packet int_of_str).
Local Abbreviation fields1 :=
  (PacketCaptureV1.packet_fields int_of_str float_of_str).
Local Abbreviation step1 :=
  (PacketCaptureV1._process_packet int_of_str float_of_str).
Local Abbreviation run1 :=
  (PacketCaptureV1.process_packets int_of_str float_of_str).


Lemma original_analyze_bitrate_empty (now : Q) (rtp_info : value)
  (timestamp : Q) (length : Z) (st : PacketCaptureV1.Statistics) :
  (10 < now - timestamp)%Q ->
  PacketCaptureV1.bitrate_samples st = [] ->
  PacketCaptureV1.bitrate_samples (analyze1 now rtp_info timestamp length st)
  = [].
Proof.
  intros Hold He. unfold PacketCaptureV1._analyze_rtp_packet.
  destruct (PacketCaptureV1.rtp_fields int_of_str rtp_info)
    as [[[seq_num rtp_timestamp] payload_type]|e]; [|exact He].
  destruct (mem payload_type PacketCaptureV1.rtp_payload_types); [|exact He].
  cbn [PacketCaptureV1.bitrate_samples]. rewrite He.
  unfold PacketCaptureV1.update_bitrate. cbn [app filter].
  cbn [PacketCaptureV1.BitrateSample.timestamp].
  destruct (PyFloat.leb (now - timestamp) 10) eqn:E; [|reflexivity].
  unfold PyFloat.leb in E. apply Qle_bool_iff in E. lra.
Qed.



Lemma original_process_packets_cons (p : Q * value)
  (packets : list (Q * value)) (c : PacketCaptureV1.Capture) :
  run1 (p :: packets) c = run1 packets (step1 (fst p) (snd p) c).
Proof. reflexivity. Qed.


(** X17: the original class compares the capture-relative time of a
    bitrate sample with the wall clock.  When every packet is processed
    more than 10 seconds of wall clock after its capture time, as with
    an epoch clock, no bitrate sample is ever kept, and the reported
    bitrate is 0 at any time. *)
Theorem original_bitrate_stays_empty (packets : list (Q * value))
  (c : PacketCaptureV1.Capture) (later : Q) :
  Forall (fun p =>
            forall layers frame_number frame_time frame_len src_ip dst_ip
                   src_port dst_port,
              fields1 (snd p)
              = Ok (layers, frame_number, frame_time, frame_len, src_ip,
                    dst_ip, src_port, dst_port) ->
              (10 < fst p - frame_time)%Q)
         packets ->
  PacketCaptureV1.bitrate_samples (PacketCaptureV1.statistics c) = [] ->
  PacketCaptureV1.bitrate_samples
    (PacketCaptureV1.statistics (run1 packets c)) = []
  /\ PacketCaptureV1._calculate_bitrate later
       (PacketCaptureV1.statistics (run1 packets c)) = 0%Q.
Proof.
  intros Hp He.
  assert (G : PacketCaptureV1.bitrate_samples
                (PacketCaptureV1.statistics (run1 packets c)) = []).
  { revert c He. induction Hp as [|p packets Hold _ IH]; intros c He.
    - exact He.
    - rewrite original_process_packets_cons. apply IH.
      unfold PacketCaptureV1._process_packet.
      destruct (fields1 (snd p))
        as [[[[[[[[layers frame_number] frame_time] frame_len] src_ip]
                 dst_ip] src_port] dst_port]|e] eqn:Ef; [|exact He].
      specialize (Hold _ _ _ _ _ _ _ _ eq_refl). cbv zeta.
      destruct (PacketCapture._is_video_packet src_port dst_port);
        [|exact He].
      destruct (get layers "rtp" (Dict [])) as [rtp_info|]; [|exact He].
      cbn [PacketCaptureV1.statistics].
      destruct (truthy rtp_info); [|exact He].
      apply original_analyze_bitrate_empty; [exact Hold | exact He]. }
  split; [exact G|].
  unfold PacketCaptureV1._calculate_bitrate. rewrite G. reflexivity.
Qed.

End OriginalProcessing.


Lemma original_bitrate_stays_empty_witness :
  PacketCaptureV1._calculate_bitrate 1700000001
    (PacketCaptureV1.statistics
       (PacketCaptureV1.process_packets Py.decimal Py.decimal_float
          [(1700000000%Q,
            Scenarios.rtp_packet "1" "100" "554" "20000" "10" "96");
           (1700000000%Q,
            Scenarios.rtp_packet "2" "100" "554" "20000" "11" "96")]
          PacketCaptureV1.create)) = 0%Q.
Proof.
  apply (original_bitrate_stays_empty Py.decimal Py.decimal_float
           [(1700000000%Q,
             Scenarios.rtp_packet "1" "100" "554" "20000" "10" "96");
            (1700000000%Q,
             Scenarios.rtp_packet "2" "100" "554" "20000" "11" "96")]
           PacketCaptureV1.create 1700000001).
  - repeat constructor;
      intros layers frame_number frame_time frame_len src_ip dst_ip
             src_port dst_port H;
      vm_compute in H; injection H as _ _ <- _ _ _ _ _;
      vm_compute; reflexivity.
  - reflexivity.
Defined.

(** ** The extractor on chunks made of whole records *)

Section WholeRecords.

Import PyStr StreamingJSONParser JsonText.

Local Open Scope string_scope.
Local Open Scope Z_scope.

Context {V : Type} (loads : string -> option V).

Local Abbreviation runs := (JsonText.runs loads).

Lemma string_app_assoc (a b c : string) : (a ++ b) ++ c = a ++ b ++ c.
Proof. induction a as [|x a IH]; simpl; [reflexivity | now rewrite IH]. Qed.

Lemma len_append (a b : string) : len (a ++ b) = len a + len b.
Proof. unfold len. rewrite length_append. lia. Qed.

Lemma get_after (pre : string) (c : ascii) (rest : string) :
  String.get (String.length pre) (pre ++ String c rest) = Some c.
Proof. induction pre as [|x pre IH]; simpl; [reflexivity | exact IH]. Qed.

Lemma substring_prefix (r rest : string) :
  String.substring 0 (String.length r) (r ++ rest) = r.
Proof.
  induction r as [|c r IH]; simpl.
  - destruct rest; reflexivity.
  - f_equal. exact IH.
Qed.

Lemma substring_after (pre r rest : string) :
  String.substring (String.length pre) (String.length r) (pre ++ r ++ rest)
  = r.
Proof.
  induction pre as [|c pre IH]; simpl; [apply substring_prefix | exact IH].
Qed.

Lemma slice_record (pre r rest : string) :
  slice (pre ++ r ++ rest) (len pre) (len (pre ++ r)) = r.
Proof.
  unfold slice, len. rewrite length_append, !Nat2Z.id.
  replace (String.length pre + String.length r - String.length pre)%nat
    with (String.length r) by lia.
  apply substring_after.
Qed.

Lemma slice_from_rest (pre rest : string) :
  slice_from (pre ++ rest) (len pre) = rest.
Proof.
  unfold slice_from, len.
  destruct (Z.ltb_spec (Z.of_nat (String.length pre)) 0) as [H|_]; [lia|].
  rewrite length_append, Nat2Z.id.
  replace (String.length pre + String.length rest - String.length pre)%nat
    with (String.length rest) by lia.
  pose proof (substring_after pre rest EmptyString) as P.
  rewrite append_empty_r in P. exact P.
Qed.

(** One iteration of the loop at offset [len pre]. *)
Lemma scan_step_at (m : Z) (buf pre : string) (c : ascii) (rest : string)
  (d : Z) (s e : bool) (j sp : Z) (objs : list V) (f : nat) :
  buf = pre ++ String c rest -> j = len pre ->
  scan_loop loads (S f) (mkScan (mkParser m buf d s e) j sp objs)
  = scan_loop loads f
      (scan_char loads c (mkScan (mkParser m buf d s e) j sp objs)).
Proof.
  intros -> ->. cbn [scan_loop self i buffer].
  assert (H : (len pre <? len (pre ++ String c rest)) = true).
  { apply Z.ltb_lt. rewrite len_append. unfold len. simpl String.length. lia. }
  rewrite H.
  replace (Z.to_nat (len pre)) with (String.length pre)
    by (unfold len; lia).
  rewrite get_after. reflexivity.
Qed.

Lemma runs_at (piece : string) (d : Z) (s e : bool) (d' : Z) (s' e' : bool) :
  runs piece d s e d' s' e' ->
  forall (m : Z) (buf pre rest : string) (j sp : Z) (objs : list V) (f : nat),
    buf = pre ++ piece ++ rest -> j = len pre ->
    scan_loop loads (String.length piece + f)
      (mkScan (mkParser m buf d s e) j sp objs)
    = scan_loop loads f
        (mkScan (mkParser m buf d' s' e') (j + len piece) sp objs).
Proof. intros H m buf pre rest j sp objs f -> ->. apply H. Qed.

Lemma runs_nil (d : Z) (s e : bool) : runs EmptyString d s e d s e.
Proof.
  intros m pre rest sp objs f. change (len EmptyString) with 0.
  rewrite Z.add_0_r. reflexivity.
Qed.

Lemma runs_app (a b : string) (d : Z) (s e : bool) (d1 : Z) (s1 e1 : bool)
  (d2 : Z) (s2 e2 : bool) :
  runs a d s e d1 s1 e1 -> runs b d1 s1 e1 d2 s2 e2 ->
  runs (a ++ b) d s e d2 s2 e2.
Proof.
  intros Ha Hb m pre rest sp objs f.
  rewrite length_append, <- Nat.add_assoc.
  rewrite (runs_at a _ _ _ _ _ _ Ha m _ pre (b ++ rest) _ sp objs
             (String.length b + f)%nat (f_equal _ (string_app_assoc a b rest))
             eq_refl).
  rewrite (runs_at b _ _ _ _ _ _ Hb m _ (pre ++ a) rest _ sp objs f).
  - rewrite len_append, Z.add_assoc. reflexivity.
  - rewrite !string_app_assoc. reflexivity.
  - rewrite len_append. reflexivity.
Qed.

Lemma runs_char (c : ascii) (d : Z) (s e : bool) (d' : Z) (s' e' : bool) :
  (forall m buf j sp objs,
     scan_char loads c (mkScan (mkParser m buf d s e) j sp objs)
     = mkScan (mkParser m buf d' s' e') (j + 1) sp objs) ->
  runs (String c EmptyString) d s e d' s' e'.
Proof.
  intros H m pre rest sp objs f.
  change (String.length (String c EmptyString) + f)%nat with (S f).
  change (pre ++ String c EmptyString ++ rest) with (pre ++ String c rest).
  change (len (String c EmptyString)) with 1.
  rewrite (scan_step_at m _ pre c rest d s e _ sp objs f eq_refl eq_refl).
  rewrite H. reflexivity.
Qed.

Lemma runs_escaped (c : ascii) (d : Z) (s : bool) :
  runs (String c EmptyString) d s true d s false.
Proof. apply runs_char. reflexivity. Qed.

Lemma runs_backslash (d : Z) (s : bool) :
  runs (String backslash EmptyString) d s false d s true.
Proof. apply runs_char. reflexivity. Qed.

Lemma runs_quote (d : Z) (s : bool) :
  runs (String quote EmptyString) d s false d (negb s) false.
Proof. apply runs_char. reflexivity. Qed.

Lemma runs_inside_string (c : ascii) (d : Z) :
  Ascii.eqb c quote = false -> Ascii.eqb c backslash = false ->
  runs (String c EmptyString) d true false d true false.
Proof.
  intros Hq Hb. apply runs_char. intros m buf j sp objs.
  unfold scan_char. cbn [self escape_next in_string]. rewrite Hb, Hq.
  reflexivity.
Qed.

Lemma runs_plain_char (c : ascii) (d : Z) :
  special c = false -> runs (String c EmptyString) d false false d false false.
Proof.
  unfold special. intros H.
  apply orb_false_iff in H as [H Hb]. apply orb_false_iff in H as [H Hq].
  apply orb_false_iff in H as [Hl Hr].
  apply runs_char. intros m buf j sp objs.
  unfold scan_char. cbn [self escape_next in_string]. rewrite Hb, Hq, Hl, Hr.
  reflexivity.
Qed.

Lemma runs_open (d : Z) :
  d <> 0 ->
  runs (String lbrace EmptyString) d false false (d + 1) false false.
Proof.
  intros H. apply runs_char. intros m buf j sp objs.
  rewrite scan_char_lbrace. apply Z.eqb_neq in H. rewrite H. reflexivity.
Qed.

Lemma runs_close (d : Z) :
  d - 1 <> 0 ->
  runs (String rbrace EmptyString) d false false (d - 1) false false.
Proof.
  intros H. apply runs_char. intros m buf j sp objs.
  apply scan_char_rbrace. apply Z.eqb_neq. exact H.
Qed.

Lemma runs_strchars (l : list strchar) (d : Z) :
  forallb strchar_ok l = true ->
  runs (strchars_text l) d true false d true false.
Proof.
  induction l as [|sc l IH]; intros H.
  - apply runs_nil.
  - cbn [forallb] in H. apply andb_true_iff in H as [H1 H2].
    cbn [strchars_text]. eapply runs_app; [|apply IH; exact H2].
    destruct sc as [c|c].
    + cbn [strchar_ok] in H1.
      apply negb_true_iff, orb_false_iff in H1 as [Hq Hb].
      apply runs_inside_string; assumption.
    + change (strchar_text (Escaped c))
        with (String backslash EmptyString ++ String c EmptyString).
      eapply runs_app; [apply runs_backslash | apply runs_escaped].
Qed.

Lemma runs_plain (t : string) (d : Z) :
  plain_text t = true -> runs t d false false d false false.
Proof.
  induction t as [|c t IH]; intros H.
  - apply runs_nil.
  - cbn [plain_text] in H. apply andb_true_iff in H as [H1 H2].
    change (String c t) with (String c EmptyString ++ t).
    eapply runs_app; [|apply IH; exact H2].
    apply runs_plain_char. apply negb_true_iff. exact H1.
Qed.

(** The body of a record, read at nesting depth [n] inside it, brings the
    scanner back to depth 1. *)
Lemma runs_body (ts : list token) :
  forall n : nat,
    forallb token_ok ts = true -> balanced n ts = true ->
    runs (tokens_text ts) (1 + Z.of_nat n) false false 1 false false.
Proof.
  induction ts as [|t ts IH]; intros n Hok Hb.
  - cbn in Hb. apply Nat.eqb_eq in Hb. subst n. apply runs_nil.
  - cbn [forallb] in Hok. apply andb_true_iff in Hok as [H1 H2].
    cbn [tokens_text].
    destruct t as [c|l| |].
    + eapply runs_app; [|apply (IH n H2 Hb)].
      apply runs_plain_char. cbn [token_ok] in H1.
      apply negb_true_iff. exact H1.
    + eapply runs_app; [|apply (IH n H2 Hb)].
      change (token_text (Quoted l))
        with (String quote EmptyString
              ++ strchars_text l ++ String quote EmptyString).
      eapply runs_app; [apply runs_quote|].
      eapply runs_app; [apply runs_strchars; exact H1|].
      apply (runs_quote (1 + Z.of_nat n) true).
    + eapply runs_app; [apply runs_open; lia|].
      replace (1 + Z.of_nat n + 1) with (1 + Z.of_nat (S n)) by lia.
      apply IH; assumption.
    + destruct n as [|n]; [discriminate Hb|].
      eapply runs_app; [apply runs_close; lia|].
      replace (1 + Z.of_nat (S n) - 1) with (1 + Z.of_nat n) by lia.
      apply IH; assumption.
Qed.

Lemma scan_char_close_top (m : Z) (buf : string) (j sp : Z)
  (objs : list V) :
  scan_char loads rbrace (mkScan (mkParser m buf 1 false false) j sp objs)
  = mkScan (mkParser m (slice_from buf (j + 1)) 0 false false) 0 sp
           (objs ++ decoded loads (slice buf sp (j + 1))).
Proof.
  unfold scan_char, decoded. simpl.
  destruct (loads (slice buf sp (j + 1))); [reflexivity|].
  rewrite app_nil_r. reflexivity.
Qed.

(** A separator followed by a record: the record substring is decoded and
    the buffer restarts after it. *)
Lemma scan_record (m : Z) (pre : string) (body : list token) (rest : string)
  (sp : Z) (objs : list V) (f : nat) :
  plain_text pre = true -> body_ok body = true ->
  scan_loop loads (String.length (pre ++ record_text body) + f)
    (mkScan (mkParser m (pre ++ record_text body ++ rest) 0 false false)
            0 sp objs)
  = scan_loop loads f
      (mkScan (mkParser m rest 0 false false) 0 (len pre)
              (objs ++ decoded loads (record_text body))).
Proof.
  intros Hpre Hbody. apply andb_true_iff in Hbody as [Hok Hbal].
  assert (Er : record_text body
               = String lbrace (tokens_text body ++ String rbrace EmptyString))
    by reflexivity.
  assert (Ej : len (pre ++ record_text body)
               = len pre + 1 + len (tokens_text body) + 1).
  { rewrite len_append, Er. unfold len. simpl String.length.
    rewrite length_append. simpl String.length. lia. }
  assert (Es : slice (pre ++ record_text body ++ rest) (len pre)
                 (len (pre ++ record_text body)) = record_text body)
    by apply slice_record.
  assert (Et : slice_from (pre ++ record_text body ++ rest)
                 (len (pre ++ record_text body)) = rest).
  { rewrite <- string_app_assoc. apply slice_from_rest. }
  rewrite Ej in Es, Et.
  replace (String.length (pre ++ record_text body) + f)%nat
    with (String.length pre
          + S (String.length (tokens_text body) + S f))%nat.
  2:{ rewrite length_append, Er. simpl String.length.
      rewrite length_append. simpl String.length. lia. }
  set (buf := pre ++ record_text body ++ rest) in *.
  assert (Eb : buf = pre ++ String lbrace
                             (tokens_text body ++ String rbrace rest)).
  { unfold buf. rewrite Er. simpl. rewrite string_app_assoc. reflexivity. }
  rewrite (runs_at pre _ _ _ _ _ _ (runs_plain pre 0 Hpre) m buf EmptyString
             (String lbrace (tokens_text body ++ String rbrace rest))
             0 sp objs _ Eb eq_refl).
  rewrite (scan_step_at m buf pre lbrace
             (tokens_text body ++ String rbrace rest) 0 false false
             (0 + len pre) sp objs _ Eb (Z.add_0_l _)).
  rewrite scan_char_lbrace. change (0 =? 0) with true. cbv iota.
  change (0 + 1) with 1.
  pose proof (runs_at (tokens_text body) _ _ _ _ _ _
                (runs_body body 0 Hok Hbal) m buf
                (pre ++ String lbrace EmptyString) (String rbrace rest)
                (0 + len pre + 1) (0 + len pre) objs (S f)) as R.
  change (1 + Z.of_nat 0) with 1 in R. rewrite R; clear R.
  2:{ rewrite Eb, string_app_assoc. reflexivity. }
  2:{ rewrite len_append. reflexivity. }
  rewrite (scan_step_at m buf (pre ++ String lbrace (tokens_text body))
             rbrace rest 1 false false
             (0 + len pre + 1 + len (tokens_text body)) (0 + len pre) objs f).
  2:{ rewrite Eb, string_app_assoc. reflexivity. }
  2:{ rewrite len_append.
      change (String lbrace (tokens_text body))
        with (String lbrace EmptyString ++ tokens_text body).
      rewrite len_append. change (len (String lbrace EmptyString)) with 1.
      lia. }
  rewrite scan_char_close_top.
  rewrite !Z.add_0_l. rewrite Es, Et. reflexivity.
Qed.

Lemma plain_text_app (a b : string) :
  plain_text (a ++ b) = plain_text a && plain_text b.
Proof.
  induction a as [|c a IH]; simpl; [reflexivity|].
  rewrite IH, andb_assoc. reflexivity.
Qed.

Lemma len_chunk_tail (records : list (string * list token)) (tail : string) :
  len tail <= len (chunk_text records tail).
Proof.
  induction records as [|[sep body] records IH]; cbn [chunk_text]; [lia|].
  rewrite !len_append. unfold len in *. lia.
Qed.

(** The loop of one [feed] call on a buffer of whole records. *)
Lemma scan_chunk (m : Z) (records : list (string * list token))
  (tail : string) :
  chunk_ok records tail = true ->
  forall (b : string) (sp : Z) (objs : list V),
    plain_text b = true ->
    let s :=
      scan_loop loads (String.length (b ++ chunk_text records tail))
        (mkScan (mkParser m (b ++ chunk_text records tail) 0 false false)
                0 sp objs) in
    self s
    = mkParser m (match records with [] => b ++ tail | _ => tail end)
               0 false false
    /\ objects s = (objs ++ decoded_records loads records)%list.
Proof.
  induction records as [|[sep body] records IH];
    intros Hok b sp objs Hb; cbv zeta.
  - cbn [chunk_text]. unfold chunk_ok in Hok. cbn [forallb andb] in Hok.
    assert (Hp : plain_text (b ++ tail) = true)
      by (rewrite plain_text_app, Hb, Hok; reflexivity).
    pose proof (runs_at (b ++ tail) _ _ _ _ _ _
                  (runs_plain (b ++ tail) 0 Hp) m (b ++ tail) EmptyString
                  EmptyString 0 sp objs 0%nat) as R.
    rewrite Nat.add_0_r in R. rewrite R.
    + cbn [scan_loop self objects]. split; [reflexivity|].
      cbn. rewrite app_nil_r. reflexivity.
    + cbn [append]. rewrite append_empty_r. reflexivity.
    + reflexivity.
  - cbn [chunk_text]. unfold chunk_ok in Hok.
    cbn [forallb fst snd] in Hok.
    apply andb_true_iff in Hok as [Hok Htail].
    apply andb_true_iff in Hok as [Hrec Hrest].
    apply andb_true_iff in Hrec as [Hsep Hbody].
    assert (Hpre : plain_text (b ++ sep) = true)
      by (rewrite plain_text_app, Hb, Hsep; reflexivity).
    assert (Ebuf : b ++ sep ++ record_text body ++ chunk_text records tail
                   = (b ++ sep) ++ record_text body
                     ++ chunk_text records tail)
      by (rewrite string_app_assoc; reflexivity).
    rewrite Ebuf.
    replace (String.length ((b ++ sep) ++ record_text body
                            ++ chunk_text records tail))
      with (String.length ((b ++ sep) ++ record_text body)
            + String.length (chunk_text records tail))%nat
      by (rewrite <- string_app_assoc, !length_append; reflexivity).
    rewrite (scan_record m (b ++ sep) body (chunk_text records tail) sp objs
               _ Hpre Hbody).
    destruct (IH (proj2 (andb_true_iff _ _) (conj Hrest Htail))
                EmptyString (len (b ++ sep))
                (objs ++ decoded loads (record_text body))%list eq_refl)
      as [A B].
    cbn [append] in A, B. split.
    + rewrite A. destruct records; reflexivity.
    + rewrite B. unfold decoded_records. cbn [flat_map snd].
      rewrite app_assoc. reflexivity.
Qed.

(** A [feed] call that stays within the size limit is the loop run on the
    joined buffer from the state the parser was left in. *)
Lemma feed_within_limit (m : Z) (b : string) (d : Z) (s e : bool)
  (data : string) :
  len (b ++ data) <= m ->
  feed loads (mkParser m b d s e) data
  = let r :=
      scan_loop loads (String.length (b ++ data))
        (mkScan (mkParser m (b ++ data) d s e) 0 0 []) in
    (self r, objects r).
Proof.
  intros Hfit. unfold feed, append_and_bound.
  cbn [brace_count in_string escape_next buffer max_buffer_size].
  assert (Hle : (len (b ++ data) >? m) = false)
    by (rewrite Z.gtb_ltb; apply Z.ltb_ge; exact Hfit).
  rewrite Hle. reflexivity.
Qed.

(** X18: a chunk made of whole records is extracted exactly.  On a parser
    that is between records (depth 0, outside a string, only separator
    text buffered), feeding separator text and well-formed records,
    nested objects and string literals with braces, quotes and escapes
    included, returns the decoded substring of every record in order and
    leaves only separator text buffered (the text after the last record,
    or everything buffered when the chunk holds no record), provided the
    buffer stays within [max_buffer_size]. *)
Theorem feed_extracts_whole_records (p : Parser)
  (records : list (string * list token)) (tail : string) :
  brace_count p = 0 -> in_string p = false -> escape_next p = false ->
  plain_text (buffer p) = true ->
  chunk_ok records tail = true ->
  len (buffer p ++ chunk_text records tail) <= max_buffer_size p ->
  feed loads p (chunk_text records tail)
  = (mkParser (max_buffer_size p)
              (match records with [] => buffer p ++ tail | _ => tail end)
              0 false false,
     decoded_records loads records).
Proof.
  destruct p as [m b d s e].
  cbn [brace_count in_string escape_next buffer max_buffer_size].
  intros -> -> -> Hb Hok Hfit.
  rewrite (feed_within_limit m b 0 false false _ Hfit). cbv zeta.
  destruct (scan_chunk m records tail Hok b 0 [] Hb) as [A B].
  rewrite A, B. reflexivity.
Qed.

(** X19: successive [feed] calls compose on chunks cut between records.
    When every chunk is made of whole well-formed records and the whole
    stream fits the buffer, the calls return, chunk by chunk, the decoded
    substrings of that chunk's records: none is lost, repeated or moved
    to another call. *)
Theorem feed_all_returns_every_record (p : Parser)
  (chunks : list (list (string * list token) * string)) :
  brace_count p = 0 -> in_string p = false -> escape_next p = false ->
  plain_text (buffer p) = true ->
  forallb (fun c => chunk_ok (fst c) (snd c)) chunks = true ->
  len (buffer p)
  + fold_right Z.add 0
      (map (fun c => len (chunk_text (fst c) (snd c))) chunks)
  <= max_buffer_size p ->
  snd (feed_all loads p (map (fun c => chunk_text (fst c) (snd c)) chunks))
  = map (fun c => decoded_records loads (fst c)) chunks.
Proof.
  revert p. induction chunks as [|[records tail] chunks IH];
    intros p Hd Hs He Hb Hok Hfit; [reflexivity|].
  cbn [forallb fst snd] in Hok. apply andb_true_iff in Hok as [Hc Hok].
  cbn [map fold_right fst snd] in Hfit |- *.
  pose proof (len_chunk_tail records tail) as Ht.
  assert (Hnn : 0 <= fold_right Z.add 0
                       (map (fun c => len (chunk_text (fst c) (snd c)))
                            chunks)).
  { clear. induction chunks as [|c chunks IH]; cbn [map fold_right]; [lia|].
    unfold len in *. lia. }
  cbn [feed_all].
  destruct p as [m b d s e].
  cbn [brace_count in_string escape_next buffer max_buffer_size] in *.
  subst d s e.
  rewrite (feed_within_limit m b 0 false false (chunk_text records tail))
    by (rewrite len_append; lia).
  cbv zeta.
  destruct (scan_chunk m records tail Hc b 0 [] Hb) as [A B].
  rewrite A, B. clear A B.
  set (p1 := mkParser m _ 0 false false).
  specialize (IH p1 eq_refl eq_refl eq_refl).
  destruct (feed_all loads p1
              (map (fun c => chunk_text (fst c) (snd c)) chunks))
    as [p2 outs].
  cbn [snd] in IH |- *. f_equal. apply IH.
  - unfold p1. cbn [buffer]. unfold chunk_ok in Hc.
    apply andb_true_iff in Hc as [_ Hc].
    destruct records; [rewrite plain_text_app, Hb, Hc|]; auto.
  - exact Hok.
  - unfold p1. cbn [buffer max_buffer_size].
    pose proof (Zle_0_nat (String.length b)) as H0.
    fold (len b) in H0.
    destruct records; [cbn [chunk_text] in Hfit; rewrite len_append|]; lia.
Qed.

End WholeRecords.

Lemma feed_extracts_whole_records_witness :
  let body :=
    [JsonText.Quoted [JsonText.Lit "a"%char]; JsonText.Plain ":"%char;
     JsonText.Open;
     JsonText.Quoted [JsonText.Lit "}"%char;
                      JsonText.Escaped StreamingJSONParser.quote];
     JsonText.Plain ":"%char; JsonText.Plain "1"%char; JsonText.Close] in
  StreamingJSONParser.feed StreamingJSONParser.loads_text
    (StreamingJSONParser.init 64)
    (JsonText.chunk_text [(","%string, body)] ","%string)
  = (StreamingJSONParser.mkParser 64 ","%string 0 false false,
     [JsonText.record_text body]).
Proof.
  cbv zeta.
  apply (feed_extracts_whole_records StreamingJSONParser.loads_text
           (StreamingJSONParser.init 64)).
  - reflexivity.
  - reflexivity.
  - reflexivity.
  - reflexivity.
  - vm_compute. reflexivity.
  - vm_compute. discriminate.
Defined.

Lemma feed_all_returns_every_record_witness :
  let first := [JsonText.Quoted [JsonText.Lit "a"%char];
                JsonText.Plain ":"%char; JsonText.Plain "1"%char] in
  let second := [JsonText.Quoted [JsonText.Lit "b"%char];
                 JsonText.Plain ":"%char; JsonText.Open; JsonText.Close] in
  snd (StreamingJSONParser.feed_all StreamingJSONParser.loads_text
         (StreamingJSONParser.init 64)
         [JsonText.chunk_text [(EmptyString, first)] ","%string;
          JsonText.chunk_text [(EmptyString, second)] EmptyString])
  = [[JsonText.record_text first]; [JsonText.record_text second]].
Proof.
  cbv zeta.
  apply (feed_all_returns_every_record StreamingJSONParser.loads_text
           (StreamingJSONParser.init 64)
           [([(EmptyString,
               [JsonText.Quoted [JsonText.Lit "a"%char];
                JsonText.Plain ":"%char; JsonText.Plain "1"%char])],
             ","%string);
            ([(EmptyString,
               [JsonText.Quoted [JsonText.Lit "b"%char];
                JsonText.Plain ":"%char; JsonText.Open; JsonText.Close])],
             EmptyString)]).
  - reflexivity.
  - reflexivity.
  - reflexivity.
  - reflexivity.
  - vm_compute. reflexivity.
  - vm_compute. discriminate.
Defined.

(** ** The two versions side by side *)

Section VersionsOnTiming.

Import PyList.

Local Open Scope Z_scope.

(** X20: both classifiers ignore the direction of a packet: swapping the
    source and destination ports never changes the verdict. *)
Theorem classifiers_ignore_direction (src_port dst_port : Z) :
  EnhancedPacketCapture._is_video_packet src_port dst_port
  = EnhancedPacketCapture._is_video_packet dst_port src_port
  /\ PacketCapture._is_video_packet src_port dst_port
     = PacketCapture._is_video_packet dst_port src_port.
Proof.
  unfold EnhancedPacketCapture._is_video_packet,
    PacketCapture._is_video_packet.
  split.
  - destruct (mem src_port EnhancedPacketCapture.video_ports),
      (mem dst_port EnhancedPacketCapture.video_ports),
      ((16384 <=? src_port) && (src_port <=? 32767)),
      ((16384 <=? dst_port) && (dst_port <=? 32767)); reflexivity.
  - destruct (mem src_port PacketCapture.video_ports),
      (mem dst_port PacketCapture.video_ports),
      (src_port >=? 16384), (dst_port >=? 16384); reflexivity.
Qed.

(** X21: on the same stored samples, at most 100 of them, the original
    and the enhanced class report the same jitter; the enhanced delay is
    the original delay when that is positive and 0 otherwise, the
    original dividing a time difference whose sign it does not test. *)
Theorem versions_agree_on_timing_metrics
  (st : Statistics) (st1 : PacketCaptureV1.Statistics) :
  PacketCaptureV1.jitter_samples st1 = jitter_samples st ->
  (List.length (jitter_samples st) <= 100)%nat ->
  PacketCaptureV1._calculate_jitter st1
  = DerivedMetrics._calculate_jitter_metric st
  /\ (Qlt 0 (PacketCaptureV1._calculate_delay st1) ->
      DerivedMetrics._calculate_delay_metric st
      = PacketCaptureV1._calculate_delay st1)
  /\ (Qle (PacketCaptureV1._calculate_delay st1) 0 ->
      DerivedMetrics._calculate_delay_metric st = 0%Q).
Proof.
  intros Hs Hl. split.
  - unfold PacketCaptureV1._calculate_jitter,
      DerivedMetrics._calculate_jitter_metric.
    rewrite Hs, (lastn_all 100 _ Hl).
    destruct (Z.ltb_spec (len (jitter_samples st)) 2) as [|H2];
      [reflexivity|].
    destruct (jitter_samples st) as [|a l]; [|reflexivity].
    unfold len in H2. simpl in H2. lia.
  - unfold PacketCaptureV1._calculate_delay,
      DerivedMetrics._calculate_delay_metric.
    rewrite Hs. clear Hs Hl. cbv zeta.
    destruct (jitter_samples st) as [|a l] eqn:E;
      [split; [intros H; exfalso; lra | reflexivity]|].
    rewrite <- E. clear E a l.
    set (recent := lastn 10 (jitter_samples st)).
    destruct (Z.geb_spec (len recent) 2) as [H2|_];
      [|split; [intros H; exfalso; lra | reflexivity]].
    destruct (last_item recent) as [newest|];
      [|split; [intros H; exfalso; lra | reflexivity]].
    destruct recent as [|oldest r] eqn:Er;
      [split; [intros H; exfalso; lra | reflexivity]|].
    rewrite <- Er in *. clear Er.
    set (time_diff := (JitterSample.timestamp newest
                       - JitterSample.timestamp oldest)%Q).
    assert (Hn : Qlt 0 (inject_Z (len recent))).
    { change 0%Q with (inject_Z 0). rewrite <- Zlt_Qlt. lia. }
    destruct (PyFloat.ltb 0 time_diff) eqn:El.
    + split; [reflexivity|]. intros H. exfalso.
      apply ltb_lt in El.
      assert (Qlt 0 (time_diff * 1000 / inject_Z (len recent))).
      { apply Qlt_shift_div_l; [exact Hn|]. lra. }
      lra.
    + split; [|reflexivity]. intros H. exfalso.
      assert (Hle : Qle time_diff 0).
      { destruct (Qlt_le_dec 0 time_diff) as [Hp|Hp]; [|exact Hp].
        apply ltb_lt in Hp. congruence. }
      assert (Qle (time_diff * 1000 / inject_Z (len recent)) 0).
      { apply Qle_shift_div_r; [exact Hn|]. lra. }
      lra.
Qed.

End VersionsOnTiming.

Lemma versions_agree_on_timing_metrics_witness :
  let st := Scenarios.observed [10; 11; 13] in
  let st1 :=
    PacketCaptureV1.mkStatistics 0 0 0 0 (jitter_samples st) [] [] None in
  PacketCaptureV1._calculate_jitter st1
  = DerivedMetrics._calculate_jitter_metric st.
Proof.
  cbv zeta.
  apply (versions_agree_on_timing_metrics
           (Scenarios.observed [10; 11; 13])
           (PacketCaptureV1.mkStatistics 0 0 0 0
              (jitter_samples (Scenarios.observed [10; 11; 13]))
              [] [] None)).
  - reflexivity.
  - apply Nat.leb_le. vm_compute. reflexivity.
Defined.
